(** * AI-Learning-Assistant: the two Flask back ends, embedded and verified

    The repository holds two variants of one "chat with your PDF" service:
    [gemini_version/app.py] (Firestore, Firebase Storage, Vertex AI) and
    [groq_version/app.py] (PostgreSQL with a vector extension, the local
    file system, Groq).  Both are embedded below as programs of a state and
    exception monad over an explicit world (the stores the handlers read and
    write); remote services and third-party libraries are the fields of an
    environment record.

    Left out: the [print] calls, the [time.sleep] between two embedding
    calls and the two static pages of each variant.  Texts are lists of
    code points; an embedding vector is a list of floats that are never
    computed on, and the ordering of the nearest neighbour search is a
    function of the environment. *)

From Stdlib Require Import NArith ZArith Ascii String List Lia DecimalString.
From Stdlib Require Import DecimalNat.
From stdpp Require Import gmap list.

Local Open Scope N_scope.

(** ** Python strings

    A Python [str] is a sequence of Unicode code points. *)

Module Py.

Definition char := N.
Definition str := list char.

(** An ASCII literal of the source, as code points. *)
Definition u (s : string) : str := map N_of_ascii (list_ascii_of_string s).

Arguments u : simpl never.

Definition ch_quote : char := 34.
Definition ch_backslash : char := 92.
Definition ch_lbracket : char := 91.
Definition ch_rbracket : char := 93.
Definition ch_newline : char := 10.

(** [bool(s)] for a string: non-empty. *)
Definition truthy (s : str) : bool :=
  match s with [] => false | _ :: _ => true end.

Fixpoint startswith (p s : str) : bool :=
  match p, s with
  | [], _ => true
  | _ :: _, [] => false
  | a :: p', b :: s' => (a =? b) && startswith p' s'
  end.

(** [s.endswith(suffix)] *)
Definition endswith (s suffix : str) : bool :=
  startswith (rev suffix) (rev s).

(** [sub in s] for two strings *)
Fixpoint contains (sub s : str) : bool :=
  startswith sub s ||
  match s with [] => false | _ :: s' => contains sub s' end.

(** [str.isspace] on one code point (CPython's [_PyUnicode_IsWhitespace]). *)
Definition isspace (c : char) : bool :=
  ((9 <=? c) && (c <=? 13)) || ((28 <=? c) && (c <=? 32)) ||
  (c =? 133) || (c =? 160) || (c =? 5760) ||
  ((8192 <=? c) && (c <=? 8202)) || (c =? 8232) || (c =? 8233) ||
  (c =? 8239) || (c =? 8287) || (c =? 12288).

Fixpoint lstrip (s : str) : str :=
  match s with
  | c :: s' => if isspace c then lstrip s' else s
  | [] => []
  end.

Definition rstrip (s : str) : str := rev (lstrip (rev s)).

(** [s.strip()] *)
Definition strip (s : str) : str := rstrip (lstrip s).

(** [s.replace(old, new)] for a non-empty [old]: occurrences are taken left
    to right and do not overlap; [skip] counts the characters of a matched
    occurrence still to be dropped. *)
Fixpoint replace_from (old new : str) (skip : nat) (s : str) : str :=
  match s with
  | [] => []
  | c :: s' =>
      match skip with
      | S k => replace_from old new k s'
      | O =>
          if startswith old s
          then new ++ replace_from old new (length old - 1) s'
          else c :: replace_from old new O s'
      end
  end.

Definition replace (old new s : str) : str := replace_from old new 0 s.

(** [sep.join(parts)] *)
Fixpoint join (sep : str) (parts : list str) : str :=
  match parts with
  | [] => []
  | [p] => p
  | p :: rest => p ++ sep ++ join sep rest
  end.

(** No character of [s] is [c]. *)
Definition free_of (c : char) (s : str) : Prop := Forall (fun x => x <> c) s.

(** [str(n)] for a non-negative integer. *)
Definition str_of_nat (n : nat) : str :=
  u (NilEmpty.string_of_uint (Nat.to_uint n)).

End Py.

(** ** Exceptions and results *)

Module Exn.
Import Py.

Inductive exn :=
  | RuntimeError (msg : str)
  | TypeError (msg : str)
  | AttributeError (msg : str)
  | KeyError (key : str)
  | JSONDecodeError (msg : str) (doc : str) (pos : nat)
  | ServiceError (msg : str).
  (** [ServiceError]: any exception raised inside a remote service client or
      a third-party library. *)

(** [doc.count('\n', 0, pos) + 1] and the column, as [JSONDecodeError]
    computes them. *)
Fixpoint line_col (doc : str) (pos : nat) (line col : nat) : nat * nat :=
  match pos, doc with
  | S p, c :: d =>
      if c =? ch_newline then line_col d p (S line) 1%nat
      else line_col d p line (S col)
  | _, _ => (line, col)
  end.

(** [str(e)] *)
Definition exn_str (e : exn) : str :=
  match e with
  | RuntimeError m | TypeError m | AttributeError m | ServiceError m => m
  | KeyError k => u "'" ++ k ++ u "'"
  | JSONDecodeError m doc pos =>
      let '(l, c) := line_col doc pos 1%nat 1%nat in
      m ++ u ": line " ++ str_of_nat l ++ u " column " ++ str_of_nat c ++
      u " (char " ++ str_of_nat pos ++ u ")"
  end.

Inductive Result (A : Type) :=
  | Ok (a : A)
  | Raise (e : exn).
Arguments Ok {A} a.
Arguments Raise {A} e.

End Exn.

(** ** The state and exception monad

    A computation takes the world and returns a value or a raised exception,
    and the world it leaves: a Python exception undoes nothing. *)

Module Monad.
Import Exn.

Section WithWorld.
Context {W : Type}.

Definition M (A : Type) : Type := W -> Result A * W.

Definition ret {A} (a : A) : M A := fun w => (Ok a, w).

Definition raise {A} (e : exn) : M A := fun w => (Raise e, w).

Definition bind {A B} (m : M A) (k : A -> M B) : M B :=
  fun w =>
    match m w with
    | (Ok a, w') => k a w'
    | (Raise e, w') => (Raise e, w')
    end.

(** [try: m  except Exception as e: h e] *)
Definition try_except {A} (m : M A) (h : exn -> M A) : M A :=
  fun w =>
    match m w with
    | (Ok a, w') => (Ok a, w')
    | (Raise e, w') => h e w'
    end.

Definition get : M W := fun w => (Ok w, w).
Definition gets {A} (f : W -> A) : M A := fun w => (Ok (f w), w).
Definition modify (f : W -> W) : M unit := fun w => (Ok tt, f w).

(** A pure computation that may raise. *)
Definition lift {A} (r : Result A) : M A := fun w => (r, w).

(** [m] leaves the part [proj] of the world as it found it, whatever it
    returns or raises. *)
Definition frames {A X} (proj : W -> X) (m : M A) : Prop :=
  forall w, proj (snd (m w)) = proj w.

(** [m] never raises. *)
Definition total {A} (m : M A) : Prop :=
  forall w, exists a w', m w = (Ok a, w').

(** Whatever [m] returns or raises, the world it leaves is related by [R]
    to the one it found. *)
Definition keeps {A} (R : W -> W -> Prop) (m : M A) : Prop :=
  forall w, R w (snd (m w)).

End WithWorld.

Arguments M : clear implicits.

End Monad.

Declare Scope monad_scope.
Delimit Scope monad_scope with monad.
Notation "'let*' x ':=' m 'in' k" := (Monad.bind m (fun x => k))
  (at level 10, x name, m at level 100, k at level 200) : monad_scope.
Notation "'let*' ' p ':=' m 'in' k" :=
  (Monad.bind m (fun x => match x with p => k end))
  (at level 10, p pattern, m at level 100, k at level 200) : monad_scope.

(** ** JSON values and [json.loads]

    A reference model of the standard library's decoder on a [str] argument
    (strict mode, the grammar of [json.decoder] and [json.scanner]).  A
    number keeps its lexeme.  The handlers below take the decoder from the
    environment; this model instantiates it. *)

Module Json.
Import Py Exn.

#[warnings="-register-all"]
Inductive json :=
  | JNull
  | JBool (b : bool)
  | JNum (lexeme : str)
  | JStr (s : str)
  | JArr (items : list json)
  | JObj (members : list (str * json)).

Definition str_eqb (a b : str) : bool := bool_decide (a = b).

(** [d[k] = v] on a dict kept in insertion order. *)
Fixpoint dict_set (k : str) (v : json) (d : list (str * json))
  : list (str * json) :=
  match d with
  | [] => [(k, v)]
  | (k', v') :: d' =>
      if str_eqb k k' then (k, v) :: d' else (k', v') :: dict_set k v d'
  end.

(** [d.get(k)] *)
Fixpoint dict_get (k : str) (d : list (str * json)) : option json :=
  match d with
  | [] => None
  | (k', v) :: d' => if str_eqb k k' then Some v else dict_get k d'
  end.

(** [dict(pairs)] *)
Definition dict_of_pairs (pairs : list (str * json)) : list (str * json) :=
  fold_left (fun d kv => dict_set (fst kv) (snd kv) d) pairs [].

Inductive scan (A : Type) :=
  | Scanned (v : A) (rest : str) (pos : nat)
  | Stop (pos : nat)
  | Fail (msg : str) (pos : nat).
Arguments Scanned {A} v rest pos.
Arguments Stop {A} pos.
Arguments Fail {A} msg pos.

Definition is_ws (c : char) : bool :=
  (c =? 32) || (c =? 9) || (c =? 10) || (c =? 13).

Fixpoint skip_ws (s : str) (pos : nat) : str * nat :=
  match s with
  | c :: s' => if is_ws c then skip_ws s' (S pos) else (s, pos)
  | [] => ([], pos)
  end.

Definition is_digit (c : char) : bool := (48 <=? c) && (c <=? 57).

Definition hex_val (c : char) : option N :=
  if is_digit c then Some (c - 48)
  else if (97 <=? c) && (c <=? 102) then Some (c - 87)
  else if (65 <=? c) && (c <=? 70) then Some (c - 55)
  else None.

(** The four hexadecimal digits after a backslash-u. *)
Definition hex4 (s : str) : option (N * str) :=
  match s with
  | a :: b :: c :: d :: rest =>
      match hex_val a, hex_val b, hex_val c, hex_val d with
      | Some x, Some y, Some z, Some t =>
          Some (((x * 16 + y) * 16 + z) * 16 + t, rest)
      | _, _, _, _ => None
      end
  | _ => None
  end.

Definition simple_escape (c : char) : option char :=
  if c =? 34 then Some 34 else if c =? 92 then Some 92
  else if c =? 47 then Some 47 else if c =? 98 then Some 8
  else if c =? 102 then Some 12 else if c =? 110 then Some 10
  else if c =? 114 then Some 13 else if c =? 116 then Some 9
  else None.

(** [scanstring]: [s] starts after the opening quote, at index [pos];
    [begin] is the index of the opening quote. *)
Fixpoint scanstring (fuel : nat) (begin : nat) (acc : str) (s : str)
  (pos : nat) : scan str :=
  match fuel with
  | O => Fail (u "Unterminated string starting at") begin
  | S fuel' =>
      match s with
      | [] => Fail (u "Unterminated string starting at") begin
      | c :: s1 =>
          if c =? ch_quote then Scanned acc s1 (S pos)
          else if c =? ch_backslash then
            match s1 with
            | [] => Fail (u "Unterminated string starting at") begin
            | e :: s2 =>
                if e =? 117 then
                  match hex4 s2 with
                  | None => Fail (u "Invalid \uXXXX escape") pos
                  | Some (hi, s3) =>
                      let pair :=
                        if (55296 <=? hi) && (hi <=? 56319) then
                          match s3 with
                          | b :: v :: s4 =>
                              if (b =? ch_backslash) && (v =? 117) then
                                match hex4 s4 with
                                | Some (lo, s5) =>
                                    if (56320 <=? lo) && (lo <=? 57343)
                                    then Some (65536 + (hi - 55296) * 1024
                                               + (lo - 56320), s5)
                                    else None
                                | None => None
                                end
                              else None
                          | _ => None
                          end
                        else None in
                      match pair with
                      | Some (cp, s5) =>
                          scanstring fuel' begin (acc ++ [cp]) s5
                            (pos + 12)%nat
                      | None =>
                          scanstring fuel' begin (acc ++ [hi]) s3
                            (pos + 6)%nat
                      end
                  end
                else
                  match simple_escape e with
                  | Some c' =>
                      scanstring fuel' begin (acc ++ [c']) s2 (pos + 2)%nat
                  | None =>
                      Fail (u "Invalid \escape: '" ++ [e] ++ u "'") pos
                  end
            end
          else if c <? 32 then Fail (u "Invalid control character at") pos
          else scanstring fuel' begin (acc ++ [c]) s1 (S pos)
      end
  end.

(** Longest prefix of digits. *)
Fixpoint span_digits (s : str) : str * str :=
  match s with
  | c :: s' =>
      if is_digit c then let '(d, r) := span_digits s' in (c :: d, r)
      else ([], s)
  | [] => ([], [])
  end.

(** [NUMBER_RE]: an integer part, then an optional fraction and an optional
    exponent, each taken only when it has a digit. *)
Definition match_number (s : str) : option (str * str) :=
  let '(sign, s0) :=
    match s with
    | c :: s' => if c =? 45 then ([c], s') else ([], s)
    | [] => ([], s)
    end in
  let int_part :=
    match s0 with
    | c :: s' =>
        if c =? 48 then Some ([c], s')
        else if is_digit c then Some (span_digits s0)
        else None
    | [] => None
    end in
  match int_part with
  | None => None
  | Some (ds, s1) =>
      let '(frac, s2) :=
        match s1 with
        | c :: s' =>
            if c =? 46 then
              match span_digits s' with
              | ([], _) => ([], s1)
              | (fd, r) => (c :: fd, r)
              end
            else ([], s1)
        | [] => ([], s1)
        end in
      let '(ex, s3) :=
        match s2 with
        | c :: s' =>
            if (c =? 101) || (c =? 69) then
              let '(sg, s'') :=
                match s' with
                | d :: t => if (d =? 45) || (d =? 43) then ([d], t)
                            else ([], s')
                | [] => ([], s')
                end in
              match span_digits s'' with
              | ([], _) => ([], s2)
              | (ed, r) => (c :: sg ++ ed, r)
              end
            else ([], s2)
        | [] => ([], s2)
        end in
      Some (sign ++ ds ++ frac ++ ex, s3)
  end.

Definition keyword (kw : string) (v : json) (s : str) (pos : nat)
  : option (scan json) :=
  if startswith (u kw) s
  then Some (Scanned v (drop (length (u kw)) s) (pos + length (u kw))%nat)
  else None.

(** [scan_once], [JSONArray] and [JSONObject].  [array_loop] and
    [object_loop] are the bodies of the two [while True] loops; the fuel
    bounds the depth of the calls. *)
Fixpoint scan_once (fuel : nat) (s : str) (pos : nat) : scan json :=
  match fuel with
  | O => Fail (u "maximum recursion depth exceeded") pos
  | S fuel' =>
      match s with
      | [] => Stop pos
      | c :: s1 =>
          if c =? ch_quote then
            match scanstring (length s1) pos [] s1 (S pos) with
            | Scanned v r p => Scanned (JStr v) r p
            | Stop p => Stop p
            | Fail m p => Fail m p
            end
          else if c =? 123 then
            let '(s2, p2) :=
              match s1 with
              | q :: _ => if q =? ch_quote then (s1, S pos)
                          else skip_ws s1 (S pos)
              | [] => (s1, S pos)
              end in
            match s2 with
            | q :: s3 =>
                if q =? 125 then Scanned (JObj []) s3 (S p2)
                else if q =? ch_quote then object_loop fuel' [] s3 (S p2)
                else Fail (u "Expecting property name enclosed in double quotes") p2
            | [] => Fail (u "Expecting property name enclosed in double quotes") p2
            end
          else if c =? ch_lbracket then
            let '(s2, p2) := skip_ws s1 (S pos) in
            match s2 with
            | q :: s3 =>
                if q =? ch_rbracket then Scanned (JArr []) s3 (S p2)
                else array_loop fuel' [] s2 p2
            | [] => array_loop fuel' [] s2 p2
            end
          else
            match keyword "null" JNull s pos with
            | Some r => r
            | None =>
            match keyword "true" (JBool true) s pos with
            | Some r => r
            | None =>
            match keyword "false" (JBool false) s pos with
            | Some r => r
            | None =>
            match match_number s with
            | Some (lex, r) => Scanned (JNum lex) r (pos + length lex)%nat
            | None =>
            match keyword "NaN" (JNum (u "NaN")) s pos with
            | Some r => r
            | None =>
            match keyword "Infinity" (JNum (u "Infinity")) s pos with
            | Some r => r
            | None =>
            match keyword "-Infinity" (JNum (u "-Infinity")) s pos with
            | Some r => r
            | None => Stop pos
            end end end end end end end
      end
  end

with array_loop (fuel : nat) (values : list json) (s : str) (pos : nat)
  : scan json :=
  match fuel with
  | O => Fail (u "maximum recursion depth exceeded") pos
  | S fuel' =>
      match scan_once fuel' s pos with
      | Stop p => Fail (u "Expecting value") p
      | Fail m p => Fail m p
      | Scanned v r p =>
          let '(r1, p1) := skip_ws r p in
          match r1 with
          | c :: r2 =>
              if c =? ch_rbracket then Scanned (JArr (values ++ [v])) r2 (S p1)
              else if c =? 44 then
                let '(r3, p3) := skip_ws r2 (S p1) in
                array_loop fuel' (values ++ [v]) r3 p3
              else Fail (u "Expecting ',' delimiter") p1
          | [] => Fail (u "Expecting ',' delimiter") p1
          end
      end
  end

with object_loop (fuel : nat) (pairs : list (str * json)) (s : str)
  (pos : nat) : scan json :=
  match fuel with
  | O => Fail (u "maximum recursion depth exceeded") pos
  | S fuel' =>
      match scanstring (length s) (pos - 1) [] s pos with
      | Stop p => Stop p
      | Fail m p => Fail m p
      | Scanned key r p =>
          let '(r1, p1) := skip_ws r p in
          match r1 with
          | c :: r2 =>
              if c =? 58 then
                let '(r3, p3) := skip_ws r2 (S p1) in
                match scan_once fuel' r3 p3 with
                | Stop p4 => Fail (u "Expecting value") p4
                | Fail m p4 => Fail m p4
                | Scanned v r4 p4 =>
                    let '(r5, p5) := skip_ws r4 p4 in
                    match r5 with
                    | d :: r6 =>
                        if d =? 125 then
                          Scanned (JObj (dict_of_pairs (pairs ++ [(key, v)])))
                            r6 (S p5)
                        else if d =? 44 then
                          let '(r7, p7) := skip_ws r6 (S p5) in
                          match r7 with
                          | q :: r8 =>
                              if q =? ch_quote
                              then object_loop fuel' (pairs ++ [(key, v)])
                                     r8 (S p7)
                              else Fail (u "Expecting property name enclosed in double quotes") p7
                          | [] => Fail (u "Expecting property name enclosed in double quotes") p7
                          end
                        else Fail (u "Expecting ',' delimiter") p5
                    | [] => Fail (u "Expecting ',' delimiter") p5
                    end
                end
              else Fail (u "Expecting ':' delimiter") p1
          | [] => Fail (u "Expecting ':' delimiter") p1
          end
      end
  end.

(** [json.loads(s)] for a [str]. *)
Definition loads (doc : str) : Result json :=
  if startswith [65279] doc
  then Raise (JSONDecodeError
                (u "Unexpected UTF-8 BOM (decode using utf-8-sig)") doc 0)
  else
    let '(s0, p0) := skip_ws doc 0 in
    match scan_once (2 * length doc + 2) s0 p0 with
    | Stop p => Raise (JSONDecodeError (u "Expecting value") doc p)
    | Fail m p => Raise (JSONDecodeError m doc p)
    | Scanned v r p =>
        let '(r1, p1) := skip_ws r p in
        match r1 with
        | [] => Ok v
        | _ :: _ => Raise (JSONDecodeError (u "Extra data") doc p1)
        end
    end.

(** A string literal of JSON text: the characters between two quotes. *)
Definition quoted (s : string) : str := [ch_quote] ++ u s ++ [ch_quote].
Arguments quoted : simpl never.

End Json.

(** ** What both variants share: requests, responses, libraries *)

Module Web.
Import Py Exn Json.

Definition bytes := list N.

(** A 64-bit float, kept as its bit pattern: no handler computes on one. *)
Definition float64 := Z.
Definition vector := list float64.

(** A werkzeug [FileStorage]; [bool(f)] is [bool(f.filename)]. *)
Record FileStorage := {
  filename : str;
  content : bytes
}.

(** [request.files] of an upload. *)
Record UploadRequest := {
  files : gmap str FileStorage
}.

(** [request.json] of a question: a JSON object whose [question], when
    there is one, is a string. *)
Record AskRequest := {
  question : option str
}.

Inductive Response :=
  | Jsonify (status : nat) (body : list (str * str))
  | RenderTemplate (template : str) (context : list (str * json)).

(** The HTTP status of a response; a rendered page is sent with 200. *)
Definition status_code (r : Response) : nat :=
  match r with
  | Jsonify st _ => st
  | RenderTemplate _ _ => 200%nat
  end.

(** The third-party libraries, as functions.
    - [pdf_pages b]: [PdfReader] on the bytes [b] and, for each of its pages,
      the outcome of [page.extract_text()];
    - [split_text size overlap text]:
      [RecursiveCharacterTextSplitter(chunk_size, chunk_overlap).split_text];
    - [markdown]: [markdown2.markdown] on a [str];
    - [json_loads]: [json.loads] on a [str]. *)
Record Lib := {
  pdf_pages : bytes -> Result (list (Result str));
  split_text : nat -> nat -> str -> list str;
  markdown : str -> str;
  json_loads : str -> Result json
}.

(** [markdown2.markdown(v)]: anything but a [str] is a [TypeError]. *)
Definition markdown_value (lib : Lib) (v : json) : Result json :=
  match v with
  | JStr s => Ok (JStr (markdown lib s))
  | _ => Raise (TypeError (u "decoding to str: need a bytes-like object"))
  end.

(** [for x in xs: x = f(x)], stopping at the first exception. *)
Fixpoint for_each {A B} (f : A -> Result B) (xs : list A) : Result (list B) :=
  match xs with
  | [] => Ok []
  | x :: xs' =>
      match f x with
      | Raise e => Raise e
      | Ok y =>
          match for_each f xs' with
          | Raise e => Raise e
          | Ok ys => Ok (y :: ys)
          end
      end
  end.

(** What iterating a decoded JSON value yields: the items of a list, the
    keys of a dict, the characters of a string. *)
Definition iterate (v : json) : Result (list json) :=
  match v with
  | JArr items => Ok items
  | JObj members => Ok (map (fun kv => JStr (fst kv)) members)
  | JStr s => Ok (map (fun c => JStr [c]) s)
  | _ => Raise (TypeError (u "object is not iterable"))
  end.

(** The value rendered after a loop that rebinds nothing: list items are
    the (mutated) cards, any other iterable is left as it was. *)
Definition after_loop (v : json) (cards : list json) : json :=
  match v with
  | JArr _ => JArr cards
  | _ => v
  end.

Definition flashcard (q a : str) : json :=
  JObj [(u "question", JStr q); (u "answer", JStr a)].

(** A card with its two fields as strings, and what the loop of
    [generate_flashcards] makes of it. *)
Definition card_of (qa : str * str) : json := flashcard (fst qa) (snd qa).

Definition rendered (lib : Lib) (qa : str * str) : json :=
  flashcard (markdown lib (fst qa)) (markdown lib (snd qa)).

(** The file of an upload, when its name does not end in [.pdf]. *)
Definition non_pdf_file (req : UploadRequest) (f : FileStorage) : Prop :=
  files req !! u "pdf_file" = Some f /\
  endswith (filename f) (u ".pdf") = false.

(** Every page is read and yields the empty string. *)
Definition all_blank (pages : list (Result str)) : Prop :=
  Forall (fun p => p = Ok []) pages.

Definition lines (ls : list str) : str := join [ch_newline] ls.

Fixpoint insert_by {A} (le : A -> A -> bool) (x : A) (l : list A) : list A :=
  match l with
  | [] => [x]
  | y :: l' => if le x y then x :: l else y :: insert_by le x l'
  end.

(** [ORDER BY]: ascending in [le]. *)
Definition sort_by {A} (le : A -> A -> bool) (l : list A) : list A :=
  foldr (insert_by le) [] l.

End Web.

(** ** The gemini variant: [gemini_version/app.py] *)

Module Gemini.
Import Py Exn Json Web Monad.
Local Open Scope monad_scope.

(** A record of the [documents] collection, as [upload_pdf] writes it. *)
Record Document := {
  user_id : str;
  file_name : str;
  storage_path : str;
  created_at : Z;
  status : str
}.

(** A record of a document's [embeddings] subcollection. *)
Record Embedding := {
  text_chunk : str;
  embedding : vector
}.

(** What the handlers ask of the outside.  A store event is logged when the
    request succeeded, [EvFault] when it failed; the two model events are
    logged when the call is made. *)
Inductive Event :=
  | EvBlobUpload (path : str)
  | EvBlobDownload (path : str)
  | EvDocGet (id : str)
  | EvDocSet (id : str) (st : str)
  | EvDocUpdate (id : str) (st : str)
  | EvBatchCommit (id : str) (writes : nat)
  | EvFindNearest (id : str)
  | EvFault
  | EvEmbed (text : str)
  | EvGenerate (prompt : str).

(** Firebase Storage, the two Firestore collections, and the log of calls;
    the length of the log is the time at which the next call is made. *)
Record World := {
  bucket : gmap str bytes;
  documents : gmap str Document;
  embeddings : gmap str (gmap str Embedding);
  trace : list Event
}.

(** The process and the services around it.  Every outcome of a remote call
    is a function of the time of the call.
    - [use_mock_ai]: [os.getenv("USE_MOCK_AI") == "True"];
    - [firebase_ok], [model_ok], [embedding_model_ok]: the globals [db] and
      [bucket], [model], [embedding_model] are not [None];
    - [storage_fault t]: the exception of a Storage or Firestore request
      made at time [t], if it fails;
    - [get_embeddings t text]:
      [embedding_model.get_embeddings([text])[0].values];
    - [generate_content t prompt]: [model.generate_content(prompt).text];
    - [nearer q a b]: [a] is at most as far from [q] as [b] is (Euclidean
      distance, computed by the store). *)
Record Env := {
  lib : Lib;
  use_mock_ai : bool;
  firebase_ok : bool;
  model_ok : bool;
  embedding_model_ok : bool;
  uuid4 : nat -> str;
  utcnow : nat -> Z;
  storage_fault : nat -> option exn;
  get_embeddings : nat -> str -> Result vector;
  generate_content : nat -> str -> Result str;
  nearer : vector -> vector -> vector -> bool
}.

Definition set_bucket (f : gmap str bytes -> gmap str bytes) (w : World) :=
  {| bucket := f (bucket w); documents := documents w;
     embeddings := embeddings w; trace := trace w |}.
Definition set_documents (f : gmap str Document -> gmap str Document)
  (w : World) :=
  {| bucket := bucket w; documents := f (documents w);
     embeddings := embeddings w; trace := trace w |}.
Definition set_embeddings
  (f : gmap str (gmap str Embedding) -> gmap str (gmap str Embedding))
  (w : World) :=
  {| bucket := bucket w; documents := documents w;
     embeddings := f (embeddings w); trace := trace w |}.
Definition log (e : Event) (w : World) :=
  {| bucket := bucket w; documents := documents w;
     embeddings := embeddings w; trace := trace w ++ [e] |}.
Definition extend (evs : list Event) (w : World) :=
  {| bucket := bucket w; documents := documents w;
     embeddings := embeddings w; trace := trace w ++ evs |}.

(** Storage and the two collections: everything but the log of calls. *)
Definition stores (w : World) :=
  (bucket w, documents w, embeddings w).

(** The prompts sent to the generative model, in order. *)
Definition prompts_sent (evs : list Event) : list str :=
  flat_map (fun ev => match ev with EvGenerate p => [p] | _ => [] end) evs.

(** The texts sent to the embedding model, in order. *)
Definition texts_embedded (evs : list Event) : list str :=
  flat_map (fun ev => match ev with EvEmbed t => [t] | _ => [] end) evs.

(** The batches committed, in order. *)
Definition commits (evs : list Event) : list (str * nat) :=
  flat_map (fun ev => match ev with
                      | EvBatchCommit id n => [(id, n)]
                      | _ => []
                      end) evs.

(** The statuses written to the [documents] collection, in order. *)
Definition status_writes (evs : list Event) : list (str * str) :=
  flat_map (fun ev => match ev with
                      | EvDocSet id st | EvDocUpdate id st => [(id, st)]
                      | _ => []
                      end) evs.

Section Program.
Variable env : Env.

Definition now : M World nat := gets (fun w => length (trace w)).

(** The handle [db] (or [bucket]): using it when it is [None] raises. *)
Definition handle : M World unit :=
  if firebase_ok env then ret tt
  else raise (AttributeError (u "'NoneType' object has no attribute")).

(** One request to Storage or Firestore. *)
Definition request (ev : Event) : M World unit :=
  let* _ := handle in
  let* t := now in
  match storage_fault env t with
  | Some e => let* _ := modify (log EvFault) in raise e
  | None => modify (log ev)
  end.

(** [blob.upload_from_file] *)
Definition blob_upload (path : str) (data : bytes) : M World unit :=
  let* _ := request (EvBlobUpload path) in
  modify (set_bucket (insert path data)).

(** [blob.download_as_bytes] *)
Definition blob_download (path : str) : M World bytes :=
  let* _ := request (EvBlobDownload path) in
  let* b := gets (fun w => bucket w !! path) in
  match b with
  | Some data => ret data
  | None => raise (ServiceError (u "404 No such object"))
  end.

(** [doc_ref.get()]: [None] when the snapshot does not exist. *)
Definition doc_get (id : str) : M World (option Document) :=
  let* _ := request (EvDocGet id) in
  gets (fun w => documents w !! id).

(** [doc_ref.set(d)] *)
Definition doc_set (id : str) (d : Document) : M World unit :=
  let* _ := request (EvDocSet id (status d)) in
  modify (set_documents (insert id d)).

Definition with_status (st : str) (d : Document) : Document :=
  {| user_id := user_id d; file_name := file_name d;
     storage_path := storage_path d; created_at := created_at d;
     status := st |}.

(** [doc_ref.update({'status': st})]: the document must exist. *)
Definition doc_update_status (id : str) (st : str) : M World unit :=
  let* _ := handle in
  let* t := now in
  let* d := gets (fun w => documents w !! id) in
  match storage_fault env t, d with
  | Some e, _ => let* _ := modify (log EvFault) in raise e
  | None, None =>
      let* _ := modify (log EvFault) in
      raise (ServiceError (u "404 No document to update"))
  | None, Some d =>
      let* _ := modify (log (EvDocUpdate id st)) in
      modify (set_documents (insert id (with_status st d)))
  end.

(** The writes of a batch, applied to a document's subcollection. *)
Definition apply_batch (batch : list (str * Embedding))
  (coll : gmap str Embedding) : gmap str Embedding :=
  fold_left (fun c kv => <[fst kv := snd kv]> c) batch coll.

Definition subcollection (id : str) (w : World) : gmap str Embedding :=
  default ∅ (embeddings w !! id).

(** [batch.commit()]: all the writes or none. *)
Definition batch_commit (id : str) (batch : list (str * Embedding))
  : M World unit :=
  let* _ := request (EvBatchCommit id (length batch)) in
  modify (fun w =>
    set_embeddings (insert id (apply_batch batch (subcollection id w))) w).

(** [find_nearest(..., limit=5)] and [query.stream()]: the text chunks of
    the five nearest records. *)
Definition find_nearest (id : str) (q : vector) : M World (list str) :=
  let* _ := request (EvFindNearest id) in
  let* coll := gets (subcollection id) in
  let records := map snd (map_to_list coll) in
  let ranked :=
    sort_by (fun a b => nearer env q (embedding a) (embedding b)) records in
  ret (map text_chunk (take 5 ranked)).

Definition embed (text : str) : M World vector :=
  let* t := now in
  let* _ := modify (log (EvEmbed text)) in
  lift (get_embeddings env t text).

Definition generate (prompt : str) : M World str :=
  let* t := now in
  let* _ := modify (log (EvGenerate prompt)) in
  lift (generate_content env t prompt).

(** [for page in pdf_reader.pages: full_text += page.extract_text() + "\n"] *)
Fixpoint concat_pages (pages : list (Result str)) (full_text : str)
  : Result str :=
  match pages with
  | [] => Ok full_text
  | Raise e :: _ => Raise e
  | Ok t :: rest => concat_pages rest (full_text ++ t ++ [ch_newline])
  end.

(** [extract_text_from_pdf(document_id)]; [None] is the absence signal. *)
Definition extract_text_from_pdf (document_id : str) : M World (option str) :=
  try_except
    (let* doc_snapshot := doc_get document_id in
     match doc_snapshot with
     | None => ret None
     | Some d =>
         if negb (truthy (storage_path d)) then ret None
         else
           let* pdf_content := blob_download (storage_path d) in
           let* pages := lift (pdf_pages (lib env) pdf_content) in
           let* full_text := lift (concat_pages pages []) in
           ret (Some full_text)
     end)
    (fun _ => ret None).

Definition chunk_key (i : nat) : str := u "chunk_" ++ str_of_nat i.

(** The loop of [create_and_store_embeddings]: one embedding call per chunk,
    each write queued in the batch. *)
Fixpoint embed_chunks (chunks : list str) (i : nat)
  (batch : list (str * Embedding)) : M World (list (str * Embedding)) :=
  match chunks with
  | [] => ret batch
  | chunk :: rest =>
      let* embedding_vector := embed chunk in
      embed_chunks rest (S i)
        (batch ++ [(chunk_key i,
                    {| text_chunk := chunk; embedding := embedding_vector |})])
  end.

Definition status_uploaded : str := u "uploaded".
Definition status_processed : str := u "processed".

(** [create_and_store_embeddings(document_id, text_content)] *)
Definition create_and_store_embeddings (document_id text_content : str)
  : M World bool :=
  if negb (embedding_model_ok env) then ret false
  else
    try_except
      (let chunks := split_text (lib env) 1000 100 text_content in
       let* _ := handle in
       let* batch := embed_chunks chunks 0 [] in
       let* _ := batch_commit document_id batch in
       let* _ := doc_update_status document_id status_processed in
       ret true)
      (fun _ => ret false).

Definition temp_user_id : str := u "temp_user_id_123".

(** [upload_pdf], lines 193 to 208: the file goes to Storage, then the
    metadata record is written; the result is the document identifier. *)
Definition store_upload (pdf_file : FileStorage) : M World str :=
  let* t := now in
  let doc_id := uuid4 env t in
  let file_path :=
    u "uploads/" ++ temp_user_id ++ u "/" ++ doc_id ++ u "/" ++
    filename pdf_file in
  let* _ := blob_upload file_path (content pdf_file) in
  let* t' := now in
  let* _ :=
    doc_set doc_id
      {| user_id := temp_user_id; file_name := filename pdf_file;
         storage_path := file_path; created_at := utcnow env t';
         status := status_uploaded |} in
  ret doc_id.

(** [upload_pdf], lines 212 to 217: extraction, then embedding when there is
    text. *)
Definition embedding_process (doc_id : str) : M World unit :=
  let* text_content := extract_text_from_pdf doc_id in
  match text_content with
  | Some t =>
      if truthy t
      then let* _ := create_and_store_embeddings doc_id t in ret tt
      else ret tt
  | None => ret tt
  end.

Definition error_body (message : str) : list (str * str) :=
  [(u "status", u "error"); (u "message", message)].

Definition upload_success (doc_id : str) : Response :=
  Jsonify 201
    [(u "status", u "success");
     (u "message", u "PDF uploaded and processing started!");
     (u "document_id", doc_id)].

(** [upload_pdf()] *)
Definition upload_pdf (req : UploadRequest) : M World Response :=
  match files req !! u "pdf_file" with
  | None => ret (Jsonify 400 (error_body (u "No PDF file found in request")))
  | Some pdf_file =>
      if str_eqb (filename pdf_file) []
      then ret (Jsonify 400 (error_body (u "No file selected")))
      else if truthy (filename pdf_file)
              && endswith (filename pdf_file) (u ".pdf")
      then
        try_except
          (let* doc_id := store_upload pdf_file in
           let* _ := embedding_process doc_id in
           ret (upload_success doc_id))
          (fun e =>
             ret (Jsonify 500
                    (error_body (u "An error occurred: " ++ exn_str e))))
      else
        ret (Jsonify 400
               (error_body (u "Invalid file type. Only PDFs are allowed.")))
  end.

Definition flashcards_page (cards : json) : Response :=
  RenderTemplate (u "flashcards.html") [(u "flashcards", cards)].

Definition mock_flashcards : json :=
  JArr [flashcard (u "What is the capital of France?") (u "Paris");
        flashcard (u "How many planets are in our solar system?")
          (u "Eight")].

Definition flashcards_prompt (text : str) : str :=
  lines
    [ [];
      u "    Based on the following text, generate a series of question and answer flashcards.";
      u "    Return the response as a valid JSON array of objects, where each object has a "
        ++ quoted "question" ++ u " key and an " ++ quoted "answer"
        ++ u " key.";
      u "    Text to analyze:";
      u "    " ++ text;
      u "    " ].

(** [response.text.strip().replace("```json", "").replace("```", "")] *)
Definition cleaned_response (text : str) : str :=
  replace (u "```") [] (replace (u "```json") [] (strip text)).

(** [if key in card: card[key] = markdown2.markdown(card[key])] *)
Definition convert_field (key : str) (card : json) : Result json :=
  match card with
  | JObj d =>
      match dict_get key d with
      | Some v =>
          match markdown_value (lib env) v with
          | Ok v' => Ok (JObj (dict_set key v' d))
          | Raise e => Raise e
          end
      | None => Ok card
      end
  | JStr s =>
      if contains key s
      then Raise (TypeError (u "string indices must be integers"))
      else Ok card
  | JArr items =>
      if existsb (fun x => match x with
                           | JStr s => str_eqb s key
                           | _ => false
                           end) items
      then Raise (TypeError (u "list indices must be integers or slices"))
      else Ok card
  | _ => Raise (TypeError (u "argument is not iterable"))
  end.

Definition convert_card (card : json) : Result json :=
  match convert_field (u "question") card with
  | Ok card' => convert_field (u "answer") card'
  | Raise e => Raise e
  end.

(** Lines 304 to 313: from the text of the reply to the cards rendered. *)
Definition parse_flashcards (text : str) : Result json :=
  match json_loads (lib env) (cleaned_response text) with
  | Raise e => Raise e
  | Ok flashcards_data =>
      match iterate flashcards_data with
      | Raise e => Raise e
      | Ok cards =>
          match for_each convert_card cards with
          | Raise e => Raise e
          | Ok cards' => Ok (after_loop flashcards_data cards')
          end
      end
  end.

Definition error_card (e : exn) : json :=
  JArr [flashcard (u "An error occurred") (exn_str e)].

(** [generate_flashcards(doc_id)] *)
Definition generate_flashcards (doc_id : str) : M World Response :=
  if use_mock_ai env then ret (flashcards_page mock_flashcards)
  else if negb (model_ok env) then ret (flashcards_page (JArr []))
  else
    let* text := extract_text_from_pdf doc_id in
    match text with
    | None => ret (flashcards_page (JArr []))
    | Some text =>
        if negb (truthy text) then ret (flashcards_page (JArr []))
        else
          try_except
            (let* response := generate (flashcards_prompt text) in
             let* flashcards_data := lift (parse_flashcards response) in
             ret (flashcards_page flashcards_data))
            (fun e => ret (flashcards_page (error_card e)))
    end.

Definition no_relevant_information : str :=
  u "I'm sorry, I couldn't find any relevant information in the document to answer that.".

Definition answer_body (st answer : str) : list (str * str) :=
  [(u "status", st); (u "answer", answer)].

Definition question_prompt (context question : str) : str :=
  lines
    [ [];
      u "        You are a helpful assistant. Answer the following question based ONLY on the provided context.";
      u "        If the answer is not in the context, say "
        ++ quoted "I'm sorry, I couldn't find that information in the document.";
      [];
      u "        Context:";
      u "        " ++ context;
      [];
      u "        Question:";
      u "        " ++ question;
      [];
      u "        Answer:";
      u "        " ].

(** [ask_question(doc_id)] *)
Definition ask_question (doc_id : str) (req : AskRequest)
  : M World Response :=
  if negb (model_ok env) || negb (embedding_model_ok env)
  then ret (Jsonify 500
              (answer_body (u "error") (u "AI models are not initialized.")))
  else
    match question req with
    | None =>
        ret (Jsonify 400 (answer_body (u "error") (u "No question provided.")))
    | Some question =>
        if negb (truthy question)
        then ret (Jsonify 400
                    (answer_body (u "error") (u "No question provided.")))
        else
          try_except
            (let* question_embedding := embed question in
             let* relevant_chunks := find_nearest doc_id question_embedding in
             match relevant_chunks with
             | [] =>
                 ret (Jsonify 200
                        (answer_body (u "success") no_relevant_information))
             | _ :: _ =>
                 let context := join [ch_newline; ch_newline] relevant_chunks in
                 let* answer :=
                   generate (question_prompt context question) in
                 ret (Jsonify 200
                        (answer_body (u "success")
                           (markdown (lib env) answer)))
             end)
            (fun e =>
               ret (Jsonify 500
                      (answer_body (u "error")
                         (u "An error occurred: " ++ exn_str e))))
    end.

Definition summary_page (key : string) (text : str) : Response :=
  RenderTemplate (u "summary.html") [(u key, JStr text)].

(** [get_pdf_text(doc_id)]; the character count is shown in decimal. *)
Definition get_pdf_text (doc_id : str) : M World Response :=
  let* extracted_text := extract_text_from_pdf doc_id in
  match extracted_text with
  | Some text =>
      if truthy text then
        ret (Jsonify 200
               [(u "status", u "success");
                (u "document_id", doc_id);
                (u "character_count", str_of_nat (length text));
                (u "extracted_text_preview", take 500 text ++ u "...")])
      else
        ret (Jsonify 500
               (error_body
                  (u "Failed to extract text. Check server logs for details.")))
  | None =>
      ret (Jsonify 500
             (error_body
                (u "Failed to extract text. Check server logs for details.")))
  end.

Definition summary_prompt (text : str) : str :=
  u "Provide a concise, easy-to-understand summary of the following text:"
  ++ [ch_newline; ch_newline] ++ text.

(** [summarize_pdf(doc_id)] *)
Definition summarize_pdf (doc_id : str) : M World Response :=
  if use_mock_ai env
  then ret (summary_page "summary_text" (u "This is a mock summary..."))
  else if negb (model_ok env)
  then ret (summary_page "summary_text"
              (u "Error: Gemini AI model is not initialized."))
  else
    let* text := extract_text_from_pdf doc_id in
    let failed :=
      summary_page "summary_text"
        (u "Error: Failed to extract text from the PDF.") in
    match text with
    | None => ret failed
    | Some text =>
        if negb (truthy text) then ret failed
        else
          try_except
            (let* response := generate (summary_prompt text) in
             ret (summary_page "summary_html" (markdown (lib env) response)))
            (fun e =>
               ret (summary_page "summary_html"
                      (u "An error occurred with the AI model: "
                       ++ exn_str e)))
    end.

End Program.

(** *** Runs of the embedding loop

    [embeds env t chunks vs]: the loop, started at time [t], gets the
    vectors [vs] for the chunks [chunks], one call each. *)
Fixpoint embeds (env : Env) (t : nat) (chunks : list str) (vs : list vector)
  : Prop :=
  match chunks, vs with
  | [], [] => True
  | chunk :: rest, v :: vs' =>
      get_embeddings env t chunk = Ok v /\ embeds env (S t) rest vs'
  | _, _ => False
  end.

(** [embedding_fails env t chunks vs e]: the loop, started at time [t], gets
    the vectors [vs] for the first chunks, and the call for the next chunk
    raises [e]. *)
Fixpoint embedding_fails (env : Env) (t : nat) (chunks : list str)
  (vs : list vector) (e : exn) : Prop :=
  match chunks, vs with
  | chunk :: _, [] => get_embeddings env t chunk = Raise e
  | chunk :: rest, v :: vs' =>
      get_embeddings env t chunk = Ok v /\
      embedding_fails env (S t) rest vs' e
  | [], _ => False
  end.

(** The writes queued for the chunks [chunks], numbered from [i]. *)
Fixpoint records (i : nat) (chunks : list str) (vs : list vector)
  : list (str * Embedding) :=
  match chunks, vs with
  | chunk :: rest, v :: vs' =>
      (chunk_key i, {| text_chunk := chunk; embedding := v |})
      :: records (S i) rest vs'
  | _, _ => []
  end.

(** The world a full run of [create_and_store_embeddings] leaves: every
    chunk embedded, the batch of all the records committed, then the status
    of the document updated. *)
Definition processed (document_id : str) (d : Document) (chunks : list str)
  (vs : list vector) (w : World) : World :=
  {| bucket := bucket w;
     documents :=
       <[document_id := with_status status_processed d]> (documents w);
     embeddings :=
       <[document_id :=
           apply_batch (records 0 chunks vs) (subcollection document_id w)]>
         (embeddings w);
     trace :=
       trace w ++ map EvEmbed chunks
       ++ [EvBatchCommit document_id (length chunks);
           EvDocUpdate document_id status_processed] |}.

(** The events a run added to the log. *)
Definition new_events (w w' : World) : list Event :=
  drop (length (trace w)) (trace w').

(** [m] writes nothing to the [documents] collection: the collection is as
    before and the events added to the log hold no status write. *)
Definition quiet {A} (m : M World A) : Prop :=
  forall w,
    documents (snd (m w)) = documents w /\
    exists evs,
      trace (snd (m w)) = trace w ++ evs /\ status_writes evs = [].

(** [w'] differs from [w] at most in the record and the embedding records
    of the document [id], in the object stored under [path], and in the
    log. *)
Definition elsewhere (id path : str) (w w' : World) : Prop :=
  (forall other, other <> id -> documents w' !! other = documents w !! other)
  /\
  (forall other,
     other <> id -> embeddings w' !! other = embeddings w !! other) /\
  (forall p, p <> path -> bucket w' !! p = bucket w !! p).

End Gemini.

(** ** The groq variant: [groq_version/app.py] *)

Module Groq.
Import Py Exn Json Web Monad.
Local Open Scope monad_scope.

(** Rows of the two tables, in the order of the [INSERT] columns. *)
Record DocumentRow := {
  id : str;
  user_id : str;
  file_name : str
}.

Record EmbeddingRow := {
  document_id : str;
  content : str;
  embedding : vector
}.

(** A store event is logged when the call succeeded, [EvFault] when it
    failed; the two model events are logged when the call is made. *)
Inductive Event :=
  | EvSave (path : str)
  | EvRead (path : str)
  | EvInsertDocument (id : str)
  | EvInsertEmbedding (id : str) (content : str)
  | EvSelect (id : str)
  | EvFault
  | EvEmbed (text : str)
  | EvGenerate (prompt : str).

(** The upload folder, the two tables of the database (the connection is in
    autocommit mode: a statement that succeeded stays), and the log of
    calls. *)
Record World := {
  folder : gmap str bytes;
  documents : list DocumentRow;
  embeddings : list EmbeddingRow;
  trace : list Event
}.

(** The answer of [requests.post]: [res.status_code], [res.text] and
    [res.json()["choices"][0]["message"]["content"]]. *)
Record HttpReply := {
  reply_status : nat;
  reply_text : str;
  reply_content : Result str
}.

(** The process and the services around it; every outcome of a call is a
    function of the time of the call.
    - [fs_fault t], [db_fault t]: the exception of a file operation or of a
      [cur.execute] made at time [t], if it fails;
    - [encode t text]: [embedder.encode(text).tolist()];
    - [post t prompt]: the chat completion request of [groq_generate];
    - [nearer q a b]: [a] is at most as far from [q] as [b] is (the
      operator of the vector extension);
    - [scan_order t a b]: a [SELECT] without [ORDER BY] made at time [t]
      returns the row [a] no later than the row [b]; the order of such a
      scan is the database's, the program does not fix it. *)
Record Env := {
  lib : Lib;
  uuid4 : nat -> str;
  fs_fault : nat -> option exn;
  db_fault : nat -> option exn;
  encode : nat -> str -> Result vector;
  post : nat -> str -> Result HttpReply;
  nearer : vector -> vector -> vector -> bool;
  scan_order : nat -> EmbeddingRow -> EmbeddingRow -> bool
}.

Definition set_folder (f : gmap str bytes -> gmap str bytes) (w : World) :=
  {| folder := f (folder w); documents := documents w;
     embeddings := embeddings w; trace := trace w |}.
Definition set_documents (f : list DocumentRow -> list DocumentRow)
  (w : World) :=
  {| folder := folder w; documents := f (documents w);
     embeddings := embeddings w; trace := trace w |}.
Definition set_embeddings (f : list EmbeddingRow -> list EmbeddingRow)
  (w : World) :=
  {| folder := folder w; documents := documents w;
     embeddings := f (embeddings w); trace := trace w |}.
Definition log (e : Event) (w : World) :=
  {| folder := folder w; documents := documents w;
     embeddings := embeddings w; trace := trace w ++ [e] |}.

(** The upload folder and the two tables: everything but the log of calls. *)
Definition stores (w : World) :=
  (folder w, documents w, embeddings w).

(** The prompts sent to the generative model, in order. *)
Definition prompts_sent (evs : list Event) : list str :=
  flat_map (fun ev => match ev with EvGenerate p => [p] | _ => [] end) evs.

(** The texts sent to the encoder, in order. *)
Definition texts_embedded (evs : list Event) : list str :=
  flat_map (fun ev => match ev with EvEmbed t => [t] | _ => [] end) evs.

Section Program.
Variable env : Env.

Definition now : M World nat := gets (fun w => length (trace w)).

(** One call to the file system or the database. *)
Definition call (fault : nat -> option exn) (ev : Event) : M World unit :=
  let* t := now in
  match fault t with
  | Some e => let* _ := modify (log EvFault) in raise e
  | None => modify (log ev)
  end.

(** [embed_text(text)] *)
Definition embed_text (text : str) : M World vector :=
  let* t := now in
  let* _ := modify (log (EvEmbed text)) in
  lift (encode env t text).

(** [groq_generate(prompt)] *)
Definition groq_generate (prompt : str) : M World str :=
  let* t := now in
  let* _ := modify (log (EvGenerate prompt)) in
  let* res := lift (post env t prompt) in
  if negb (reply_status res =? 200)%nat
  then raise (RuntimeError (u "Groq error: " ++ reply_text res))
  else lift (reply_content res).

(** [pdf.save(path)] *)
Definition save (path : str) (data : bytes) : M World unit :=
  let* _ := call (fs_fault env) (EvSave path) in
  modify (set_folder (insert path data)).

(** Opening the file at [path], as [PdfReader(path)] does. *)
Definition read_file (path : str) : M World bytes :=
  let* _ := call (fs_fault env) (EvRead path) in
  let* b := gets (fun w => folder w !! path) in
  match b with
  | Some data => ret data
  | None => raise (ServiceError (u "No such file or directory"))
  end.

(** The generator of [extract_text_from_pdf]: the text of each page whose
    text is not empty. *)
Fixpoint page_texts (pages : list (Result str)) : Result (list str) :=
  match pages with
  | [] => Ok []
  | Raise e :: _ => Raise e
  | Ok t :: rest =>
      match page_texts rest with
      | Raise e => Raise e
      | Ok ts => Ok (if truthy t then t :: ts else ts)
      end
  end.

(** [extract_text_from_pdf(path)] *)
Definition extract_text_from_pdf (path : str) : M World str :=
  let* data := read_file path in
  let* pages := lift (pdf_pages (lib env) data) in
  let* texts := lift (page_texts pages) in
  ret (join [ch_newline] texts).

(** [os.path.join(a, b)] *)
Definition path_join (a b : str) : str :=
  if startswith (u "/") b then b
  else if negb (truthy a) || endswith a (u "/") then a ++ b
  else a ++ u "/" ++ b.

Definition UPLOAD_FOLDER : str := u "uploads".

Definition insert_document (row : DocumentRow) : M World unit :=
  let* _ := call (db_fault env) (EvInsertDocument (id row)) in
  modify (set_documents (fun t => t ++ [row])).

Definition insert_embedding (row : EmbeddingRow) : M World unit :=
  let* _ :=
    call (db_fault env) (EvInsertEmbedding (document_id row) (content row)) in
  modify (set_embeddings (fun t => t ++ [row])).

Definition of_document (doc_id : str) (row : EmbeddingRow) : bool :=
  str_eqb (document_id row) doc_id.

(** [SELECT content FROM embeddings WHERE document_id=%s LIMIT n]: the
    statement has no [ORDER BY], so the rows of the document come in the
    order of the database's scan, and the first [n] of them are kept. *)
Definition select_content (doc_id : str) (n : nat) : M World (list str) :=
  let* t := now in
  let* _ := call (db_fault env) (EvSelect doc_id) in
  let* rows := gets embeddings in
  let scanned :=
    sort_by (scan_order env t)
      (filter (fun r => of_document doc_id r = true) rows) in
  ret (map content (take n scanned)).

(** The same with [ORDER BY embedding <-> q]. *)
Definition select_nearest (doc_id : str) (q : vector) (n : nat)
  : M World (list str) :=
  let* _ := call (db_fault env) (EvSelect doc_id) in
  let* rows := gets embeddings in
  let ranked :=
    sort_by (fun a b => nearer env q (embedding a) (embedding b))
      (filter (fun r => of_document doc_id r = true) rows) in
  ret (map content (take n ranked)).

(** [upload_pdf], lines 96 to 105: the file is saved, then the document row
    is inserted; the result is the identifier and the path. *)
Definition store_upload (pdf : FileStorage) : M World (str * str) :=
  let* t := now in
  let doc_id := uuid4 env t in
  let filename := doc_id ++ u "_" ++ Web.filename pdf in
  let path := path_join UPLOAD_FOLDER filename in
  let* _ := save path (Web.content pdf) in
  let* _ :=
    insert_document
      {| id := doc_id; user_id := u "temp_user"; file_name := filename |} in
  ret (doc_id, path).

(** [upload_pdf], lines 115 to 120: each chunk is embedded and inserted. *)
Fixpoint store_chunks (doc_id : str) (chunks : list str) : M World unit :=
  match chunks with
  | [] => ret tt
  | chunk :: rest =>
      let* emb := embed_text chunk in
      let* _ :=
        insert_embedding
          {| document_id := doc_id; content := chunk; embedding := emb |} in
      store_chunks doc_id rest
  end.

(** [upload_pdf], lines 107 to 120. *)
Definition ingest (doc_id path : str) : M World unit :=
  let* text := extract_text_from_pdf path in
  let chunks := split_text (lib env) 1000 100 text in
  store_chunks doc_id chunks.

Definition upload_success (doc_id : str) : Response :=
  Jsonify 200 [(u "status", u "success"); (u "document_id", doc_id)].

(** [upload_pdf()] *)
Definition upload_pdf (req : UploadRequest) : M World Response :=
  try_except
    (match files req !! u "pdf_file" with
     | None => ret (Jsonify 400 [(u "error", u "No PDF uploaded")])
     | Some pdf =>
         if negb (truthy (Web.filename pdf))
         then ret (Jsonify 400 [(u "error", u "No PDF uploaded")])
         else
           let* '(doc_id, path) := store_upload pdf in
           let* _ := ingest doc_id path in
           ret (upload_success doc_id)
     end)
    (fun e => ret (Jsonify 500 [(u "error", exn_str e)])).

Definition flashcards_page (cards : json) : Response :=
  RenderTemplate (u "flashcards.html") [(u "flashcards", cards)].

Definition flashcards_prompt (text : str) : str :=
  lines
    [ [];
      u "You are an AI that ONLY outputs valid JSON.";
      u "DO NOT include explanations, markdown, or extra text.";
      [];
      u "Task:";
      u "Generate 8 flashcards from the text below.";
      [];
      u "Output format (STRICT):";
      u "[";
      u "  {" ++ quoted "question" ++ u ": " ++ quoted "Q1" ++ u ", "
        ++ quoted "answer" ++ u ": " ++ quoted "A1" ++ u "},";
      u "  {" ++ quoted "question" ++ u ": " ++ quoted "Q2" ++ u ", "
        ++ quoted "answer" ++ u ": " ++ quoted "A2" ++ u "}";
      u "]";
      [];
      u "Text:";
      text;
      [] ].

(** The rest of [s] after its first opening bracket. *)
Fixpoint after_first_open (s : str) : option str :=
  match s with
  | [] => None
  | c :: s' => if c =? ch_lbracket then Some s' else after_first_open s'
  end.

(** The longest prefix of [s] that ends with a closing bracket. *)
Fixpoint up_to_last_close (s : str) : option str :=
  match s with
  | [] => None
  | c :: s' =>
      match up_to_last_close s' with
      | Some p => Some (c :: p)
      | None => if c =? ch_rbracket then Some [c] else None
      end
  end.

(** [re.search(r"\[.*\]", s, re.DOTALL)] and [match.group()]: the leftmost
    match starts at the first opening bracket that a closing bracket
    follows, and the greedy star runs to the last closing bracket. *)
Definition search_brackets (s : str) : option str :=
  match after_first_open s with
  | None => None
  | Some s' =>
      match up_to_last_close s' with
      | None => None
      | Some p => Some (ch_lbracket :: p)
      end
  end.

(** [card[key] = markdown2.markdown(card[key])] *)
Definition render_field (key : str) (card : json) : Result json :=
  match card with
  | JObj d =>
      match dict_get key d with
      | None => Raise (KeyError key)
      | Some v =>
          match markdown_value (lib env) v with
          | Ok v' => Ok (JObj (dict_set key v' d))
          | Raise e => Raise e
          end
      end
  | JStr _ => Raise (TypeError (u "string indices must be integers"))
  | JArr _ => Raise (TypeError (u "list indices must be integers or slices"))
  | _ => Raise (TypeError (u "object is not subscriptable"))
  end.

Definition render_card (card : json) : Result json :=
  match render_field (u "question") card with
  | Ok card' => render_field (u "answer") card'
  | Raise e => Raise e
  end.

(** Lines 188 to 192: decoding the extracted text and rendering the cards. *)
Definition load_flashcards (json_text : str) : Result json :=
  match json_loads (lib env) json_text with
  | Raise e => Raise e
  | Ok flashcards =>
      match iterate flashcards with
      | Raise e => Raise e
      | Ok cards =>
          match for_each render_card cards with
          | Raise e => Raise e
          | Ok cards' => Ok (after_loop flashcards cards')
          end
      end
  end.

(** Lines 178 to 192: from the reply of the model to the cards rendered. *)
Definition parse_flashcards (reply : str) : Result json :=
  let response := strip reply in
  match search_brackets response with
  | None => Raise (RuntimeError (u "Model did not return valid JSON."))
  | Some json_text => load_flashcards json_text
  end.

Definition error_card (e : exn) : json :=
  JArr [flashcard (u "Error generating flashcards") (exn_str e)].

(** [generate_flashcards(doc_id)] *)
Definition generate_flashcards (doc_id : str) : M World Response :=
  try_except
    (let* rows := select_content doc_id 12 in
     let text := join (u " ") rows in
     if negb (truthy (strip text))
     then raise (RuntimeError
                   (u "No content available to generate flashcards."))
     else
       let* reply := groq_generate (flashcards_prompt text) in
       let* flashcards := lift (parse_flashcards reply) in
       ret (flashcards_page flashcards))
    (fun e => ret (flashcards_page (error_card e))).

Definition question_prompt (context question : str) : str :=
  lines
    [ [];
      u "    Answer ONLY using the context below.";
      u "    If the answer is not present, say you don't know or the question asked is irrelevant to the PDF uploaded.";
      [];
      u "    Context:";
      u "    " ++ context;
      [];
      u "    Question:";
      u "    " ++ question;
      u "    " ].

(** [ask_question(doc_id)]: nothing is caught here, an exception leaves the
    handler. *)
Definition ask_question (doc_id : str) (req : AskRequest)
  : M World Response :=
  match question req with
  | None => ret (Jsonify 400 [(u "error", u "No question")])
  | Some question =>
      if negb (truthy question)
      then ret (Jsonify 400 [(u "error", u "No question")])
      else
        let* q_emb := embed_text question in
        let* rows := select_nearest doc_id q_emb 5 in
        let context := join [ch_newline; ch_newline] rows in
        let* answer := groq_generate (question_prompt context question) in
        ret (Jsonify 200
               [(u "status", u "success");
                (u "answer", markdown (lib env) answer)])
  end.

Definition summary_prompt (text : str) : str :=
  u "Summarize the following content clearly:" ++ [ch_newline] ++ text.

(** [summarize(doc_id)]: nothing is caught here either. *)
Definition summarize (doc_id : str) : M World Response :=
  let* rows := select_content doc_id 10 in
  let text := join (u " ") rows in
  let* summary := groq_generate (summary_prompt text) in
  ret (RenderTemplate (u "summary.html")
         [(u "summary_html", JStr (markdown (lib env) summary))]).

End Program.

(** *** Runs of the storing loop

    [stores_chunks env t chunks vs]: the loop, started at time [t], encodes
    every chunk of [chunks] to the vectors [vs] and inserts every row. *)
Fixpoint stores_chunks (env : Env) (t : nat) (chunks : list str)
  (vs : list vector) : Prop :=
  match chunks, vs with
  | [], [] => True
  | chunk :: rest, v :: vs' =>
      encode env t chunk = Ok v /\ db_fault env (S t) = None /\
      stores_chunks env (S (S t)) rest vs'
  | _, _ => False
  end.

(** [loop_fails env t chunks vs e]: the loop, started at time [t], encodes
    and inserts the first chunks, with vectors [vs], and fails with [e] on
    the next one, in the encoder or in the insertion. *)
Fixpoint loop_fails (env : Env) (t : nat) (chunks : list str)
  (vs : list vector) (e : exn) : Prop :=
  match chunks, vs with
  | chunk :: _, [] =>
      encode env t chunk = Raise e \/
      exists v, encode env t chunk = Ok v /\ db_fault env (S t) = Some e
  | chunk :: rest, v :: vs' =>
      encode env t chunk = Ok v /\ db_fault env (S t) = None /\
      loop_fails env (S (S t)) rest vs' e
  | [], _ => False
  end.

(** The rows of the chunks that have a vector. *)
Definition rows (doc_id : str) (chunks : list str) (vs : list vector)
  : list EmbeddingRow :=
  zip_with
    (fun chunk v =>
       {| document_id := doc_id; content := chunk; embedding := v |})
    chunks vs.

(** The events a run added to the log. *)
Definition new_events (w w' : World) : list Event :=
  drop (length (trace w)) (trace w').

(** [w'] holds the rows of [w], in their order, followed by rows that carry
    the identifier [id]; its folder differs from that of [w] at most in the
    file at [path]. *)
Definition grows (id path : str) (w w' : World) : Prop :=
  (exists new,
     documents w' = documents w ++ new /\
     Forall (fun d => Groq.id d = id) new) /\
  (exists new,
     embeddings w' = embeddings w ++ new /\
     Forall (fun r => document_id r = id) new) /\
  (forall p, p <> path -> folder w' !! p = folder w !! p).

End Groq.

(** ** A concrete environment

    Small instances of the libraries and services, on which the handlers
    run by computation.  The decoder is the model above; the PDF reader, the
    splitter and the Markdown renderer are stand-ins of the right type. *)

Module Demo.
Import Py Exn Json Web.

Fixpoint split_on (sep : N) (s : list N) : list (list N) :=
  match s with
  | [] => [[]]
  | c :: s' =>
      match split_on sep s' with
      | cur :: rest =>
          if c =? sep then [] :: cur :: rest else (c :: cur) :: rest
      | [] => [[c]]
      end
  end.

(** A file is readable when it starts with the PDF magic; its pages are
    separated by form feeds. *)
Definition pdf_pages (b : bytes) : Result (list (Result str)) :=
  if startswith (u "%PDF") b
  then Ok (map Ok (split_on 12 (drop 4 b)))
  else Raise (ServiceError (u "EOF marker not found")).

Fixpoint windows (fuel size step : nat) (s : str) : list str :=
  match fuel with
  | O => []
  | S fuel' =>
      if (length s <=? size)%nat then [s]
      else take size s :: windows fuel' size step (drop step s)
  end.

(** Hard cuts of [size] characters, [overlap] of them shared. *)
Definition split_text (size overlap : nat) (text : str) : list str :=
  let t := strip text in
  if truthy t then windows (length t) size (size - overlap) t else [].

Definition markdown (s : str) : str := u "<p>" ++ s ++ u "</p>".

Definition lib : Lib :=
  {| Web.pdf_pages := pdf_pages; Web.split_text := split_text;
     Web.markdown := markdown; Web.json_loads := loads |}.

Definition uuid4 (t : nat) : str := u "doc-" ++ str_of_nat t.

Definition vector_of (text : str) : vector := [Z.of_nat (length text)].

(** All services up and answering [reply]. *)
Definition gemini (reply : str) : Gemini.Env :=
  {| Gemini.lib := lib; Gemini.use_mock_ai := false;
     Gemini.firebase_ok := true; Gemini.model_ok := true;
     Gemini.embedding_model_ok := true; Gemini.uuid4 := uuid4;
     Gemini.utcnow := fun t => Z.of_nat t;
     Gemini.storage_fault := fun _ => None;
     Gemini.get_embeddings := fun _ text => Ok (vector_of text);
     Gemini.generate_content := fun _ _ => Ok reply;
     Gemini.nearer := fun _ _ _ => true |}.

(** The same, the embedding call made at time [t] failing. *)
Definition gemini_embed_fails_at (t : nat) : Gemini.Env :=
  {| Gemini.lib := lib; Gemini.use_mock_ai := false;
     Gemini.firebase_ok := true; Gemini.model_ok := true;
     Gemini.embedding_model_ok := true; Gemini.uuid4 := uuid4;
     Gemini.utcnow := fun t => Z.of_nat t;
     Gemini.storage_fault := fun _ => None;
     Gemini.get_embeddings := fun t' text =>
       if (t' =? t)%nat then Raise (ServiceError (u "429 Quota exceeded"))
       else Ok (vector_of text);
     Gemini.generate_content := fun _ _ => Ok (u "[]");
     Gemini.nearer := fun _ _ _ => true |}.

Definition gemini_world : Gemini.World :=
  {| Gemini.bucket := ∅; Gemini.documents := ∅; Gemini.embeddings := ∅;
     Gemini.trace := [] |}.

Definition groq (reply : str) : Groq.Env :=
  {| Groq.lib := lib; Groq.uuid4 := uuid4;
     Groq.fs_fault := fun _ => None; Groq.db_fault := fun _ => None;
     Groq.encode := fun _ text => Ok (vector_of text);
     Groq.post := fun _ _ =>
       Ok {| Groq.reply_status := 200; Groq.reply_text := reply;
             Groq.reply_content := Ok reply |};
     Groq.nearer := fun _ _ _ => true;
     Groq.scan_order := fun _ _ _ => true |}.

(** The same, the encoder failing at time [t]. *)
Definition groq_encode_fails_at (t : nat) : Groq.Env :=
  {| Groq.lib := lib; Groq.uuid4 := uuid4;
     Groq.fs_fault := fun _ => None; Groq.db_fault := fun _ => None;
     Groq.encode := fun t' text =>
       if (t' =? t)%nat then Raise (RuntimeError (u "CUDA out of memory"))
       else Ok (vector_of text);
     Groq.post := fun _ _ => Raise (ServiceError (u "Connection refused"));
     Groq.nearer := fun _ _ _ => true;
     Groq.scan_order := fun _ _ _ => true |}.

Definition groq_world : Groq.World :=
  {| Groq.folder := ∅; Groq.documents := []; Groq.embeddings := [];
     Groq.trace := [] |}.

Definition upload (name : string) (data : bytes) : UploadRequest :=
  {| files :=
       {[ u "pdf_file" := {| filename := u name; content := data |} ]} |}.

(** A readable file of two pages, and the worlds left by its upload. *)
Definition sample_pdf : bytes :=
  u "%PDF" ++ u "Cells divide." ++ [12] ++ u "Plants grow.".

Definition sample_text : str :=
  u "Cells divide." ++ [ch_newline] ++ u "Plants grow.".

Definition gemini_loaded : Gemini.World :=
  snd (Gemini.upload_pdf (gemini (u "ok")) (upload "bio.pdf" sample_pdf)
         gemini_world).

(** A text of 2000 characters: three chunks of at most 1000, the first
    of exactly 1000. *)
Definition long_text : str := repeat 97 2000.

(** The JSON text of an array of one card. *)
Definition one_card : str :=
  u "[{" ++ quoted "question" ++ u ": " ++ quoted "Q" ++ u ", "
  ++ quoted "answer" ++ u ": " ++ quoted "A" ++ u "}]".

Definition groq_loaded : Groq.World :=
  snd (Groq.upload_pdf (groq (u "ok")) (upload "bio.pdf" sample_pdf)
         groq_world).

End Demo.

(** * Properties *)

(** ** Reasoning about computations *)

Module Frame.
Import Exn Monad.

Section Rules.
Context {W X : Type}.
Variable proj : W -> X.

Lemma frames_ret {A} (a : A) : frames proj (ret a).
Proof. intros w. reflexivity. Qed.

Lemma frames_raise {A} (e : exn) : frames proj (@raise W A e).
Proof. intros w. reflexivity. Qed.

Lemma frames_lift {A} (r : Result A) : frames proj (lift r).
Proof. intros w. reflexivity. Qed.

Lemma frames_gets {A} (f : W -> A) : frames proj (gets f).
Proof. intros w. reflexivity. Qed.

Lemma frames_modify (f : W -> W) :
  (forall w, proj (f w) = proj w) -> frames proj (modify f).
Proof. intros H w. apply H. Qed.

Lemma frames_bind {A B} (m : M W A) (k : A -> M W B) :
  frames proj m -> (forall a, frames proj (k a)) -> frames proj (bind m k).
Proof.
  intros Hm Hk w. unfold bind. specialize (Hm w).
  destruct (m w) as [[a | e] w']; simpl in *.
  - rewrite Hk. exact Hm.
  - exact Hm.
Qed.

Lemma frames_try_except {A} (m : M W A) (h : exn -> M W A) :
  frames proj m -> (forall e, frames proj (h e)) ->
  frames proj (try_except m h).
Proof.
  intros Hm Hh w. unfold try_except. specialize (Hm w).
  destruct (m w) as [[a | e] w']; simpl in *.
  - exact Hm.
  - rewrite Hh. exact Hm.
Qed.

End Rules.

Lemma total_ret {W A} (a : A) : total (@ret W A a).
Proof. intros w. eexists _, _. reflexivity. Qed.

Lemma total_try_except {W A} (m : M W A) (h : exn -> M W A) :
  (forall e, total (h e)) -> total (try_except m h).
Proof.
  intros Hh w. unfold try_except.
  destruct (m w) as [[a | e] w'].
  - eexists _, _. reflexivity.
  - apply Hh.
Qed.

Lemma total_bind {W A B} (m : M W A) (k : A -> M W B) :
  total m -> (forall a, total (k a)) -> total (bind m k).
Proof.
  intros Hm Hk w. unfold bind.
  destruct (Hm w) as (a & w' & ->). apply Hk.
Qed.

End Frame.

Ltac frame_step :=
  first
    [ apply Frame.frames_ret | apply Frame.frames_raise
    | apply Frame.frames_lift | apply Frame.frames_gets
    | apply Frame.frames_modify; intros; reflexivity
    | apply Frame.frames_bind; [ | intros ]
    | apply Frame.frames_try_except; [ | intros ]
    | match goal with
      | |- Monad.frames _ (if ?b then _ else _) => destruct b
      | |- Monad.frames _ (match ?x with _ => _ end) => destruct x
      end ].

(** ** The stores a handler may write *)

Module GeminiFrame.
Import Py Exn Json Web Monad Gemini.

Section Reads.
Variable env : Env.

Lemma handle_frames : Monad.frames stores (handle env).
Proof. unfold handle. repeat frame_step. Qed.

Lemma request_frames ev : Monad.frames stores (request env ev).
Proof.
  unfold request, now. repeat (apply handle_frames || frame_step).
Qed.

Lemma embed_frames text : Monad.frames stores (embed env text).
Proof. unfold embed, now. repeat frame_step. Qed.

Lemma generate_frames prompt : Monad.frames stores (generate env prompt).
Proof. unfold generate, now. repeat frame_step. Qed.

Lemma find_nearest_frames id q : Monad.frames stores (find_nearest env id q).
Proof.
  unfold find_nearest. repeat (apply request_frames || frame_step).
Qed.

Lemma gemini_ask_question_frames doc_id req :
  Monad.frames stores (ask_question env doc_id req).
Proof.
  unfold ask_question.
  repeat (apply embed_frames || apply generate_frames
          || apply find_nearest_frames || frame_step).
Qed.

Lemma extract_text_from_pdf_frames document_id :
  Monad.frames stores (extract_text_from_pdf env document_id).
Proof.
  unfold extract_text_from_pdf, doc_get, blob_download.
  repeat (apply request_frames || frame_step).
Qed.

Lemma get_pdf_text_frames doc_id :
  Monad.frames stores (get_pdf_text env doc_id).
Proof.
  unfold get_pdf_text.
  repeat (apply extract_text_from_pdf_frames || frame_step).
Qed.

Lemma summarize_pdf_frames doc_id :
  Monad.frames stores (summarize_pdf env doc_id).
Proof.
  unfold summarize_pdf.
  repeat (apply extract_text_from_pdf_frames || apply generate_frames
          || frame_step).
Qed.

Lemma generate_flashcards_frames doc_id :
  Monad.frames stores (generate_flashcards env doc_id).
Proof.
  unfold generate_flashcards.
  repeat (apply extract_text_from_pdf_frames || apply generate_frames
          || frame_step).
Qed.

End Reads.
End GeminiFrame.

Module GroqFrame.
Import Py Exn Json Web Monad Groq.

Section Reads.
Variable env : Env.

Lemma call_frames fault ev : Monad.frames stores (call fault ev).
Proof. unfold call, now. repeat frame_step. Qed.

Lemma embed_text_frames text : Monad.frames stores (embed_text env text).
Proof. unfold embed_text, now. repeat frame_step. Qed.

Lemma groq_generate_frames prompt :
  Monad.frames stores (groq_generate env prompt).
Proof. unfold groq_generate, now. repeat frame_step. Qed.

Lemma select_nearest_frames doc_id q n :
  Monad.frames stores (select_nearest env doc_id q n).
Proof. unfold select_nearest. repeat (apply call_frames || frame_step). Qed.

Lemma select_content_frames doc_id n :
  Monad.frames stores (select_content env doc_id n).
Proof.
  unfold select_content, now. repeat (apply call_frames || frame_step).
Qed.

Lemma groq_ask_question_frames doc_id req :
  Monad.frames stores (ask_question env doc_id req).
Proof.
  unfold ask_question.
  repeat (apply embed_text_frames || apply groq_generate_frames
          || apply select_nearest_frames || frame_step).
Qed.

End Reads.
End GroqFrame.

(** * The claims *)

Import Py Exn Json Web.

(** ** C10: [ask_question] only reads *)

(** C10.  In either variant, handling an [ask_question] request leaves the
    document store and the embedding store (and the file store) as they
    were, whatever the request, the services' answers and the outcome: the
    handler inserts, updates and deletes nothing. *)
Theorem ask_question_leaves_stores_unchanged :
  (forall env doc_id req w,
     let w' := snd (Gemini.ask_question env doc_id req w) in
     Gemini.documents w' = Gemini.documents w /\
     Gemini.embeddings w' = Gemini.embeddings w /\
     Gemini.bucket w' = Gemini.bucket w) /\
  (forall env doc_id req w,
     let w' := snd (Groq.ask_question env doc_id req w) in
     Groq.documents w' = Groq.documents w /\
     Groq.embeddings w' = Groq.embeddings w /\
     Groq.folder w' = Groq.folder w).
Proof.
  split; intros env doc_id req w w'; subst w'.
  - pose proof (GeminiFrame.gemini_ask_question_frames env doc_id req w) as H.
    unfold Gemini.stores in H. inversion H. auto.
  - pose proof (GroqFrame.groq_ask_question_frames env doc_id req w) as H.
    unfold Groq.stores in H. inversion H. auto.
Qed.

(** ** C1: uploads that are turned away *)

(** C1, as stated, fails on the groq variant: an upload named [notes.txt]
    is not answered with 400, and by the time the reader rejects the file
    (status 500) it has been saved and its document row inserted. *)
Lemma groq_upload_keeps_non_pdf :
  let req := Demo.upload "notes.txt" [1; 2; 3] in
  let run := Groq.upload_pdf (Demo.groq (u "ok")) req Demo.groq_world in
  non_pdf_file req {| filename := u "notes.txt"; content := [1; 2; 3] |} /\
  fst run = Ok (Jsonify 500 [(u "error", u "EOF marker not found")]) /\
  Groq.folder (snd run) !! u "uploads/doc-0_notes.txt" = Some [1; 2; 3] /\
  Groq.documents (snd run) =
    [ {| Groq.id := u "doc-0"; Groq.user_id := u "temp_user";
         Groq.file_name := u "doc-0_notes.txt" |} ].
Proof. vm_compute. repeat split; reflexivity. Qed.

(** C1, amended.  In the gemini variant an upload whose file name does not
    end in [.pdf] is answered with 400 and the world is left untouched.  In
    the groq variant an upload whose file is absent or has an empty name is
    answered with 400 and the world is left untouched. *)
Theorem upload_rejects_invalid_file :
  (forall env req f w,
     non_pdf_file req f ->
     exists body,
       Gemini.upload_pdf env req w = (Ok (Jsonify 400 body), w)) /\
  (forall env req w,
     (files req !! u "pdf_file" = None \/
      exists f, files req !! u "pdf_file" = Some f /\ filename f = []) ->
     Groq.upload_pdf env req w =
       (Ok (Jsonify 400 [(u "error", u "No PDF uploaded")]), w)).
Proof.
  split.
  - intros env req f w [Hf Hext]. unfold Gemini.upload_pdf. rewrite Hf.
    destruct (str_eqb (filename f) []); [eexists; reflexivity |].
    rewrite Hext, andb_false_r. eexists; reflexivity.
  - intros env req w [Hnone | (f & Hf & Hname)];
      unfold Groq.upload_pdf, Monad.try_except.
    + rewrite Hnone. reflexivity.
    + rewrite Hf, Hname. reflexivity.
Qed.

(** On the demo environment: [notes.txt] sent to the gemini variant, and an
    upload without a file sent to the groq variant. *)
Lemma upload_rejects_invalid_file_witness :
  (exists body,
     Gemini.upload_pdf (Demo.gemini (u "ok"))
       (Demo.upload "notes.txt" [1; 2; 3]) Demo.gemini_world =
     (Ok (Jsonify 400 body), Demo.gemini_world)) /\
  Groq.upload_pdf (Demo.groq (u "ok")) {| files := ∅ |} Demo.groq_world =
    (Ok (Jsonify 400 [(u "error", u "No PDF uploaded")]), Demo.groq_world).
Proof.
  destruct upload_rejects_invalid_file as (Hgemini & Hgroq).
  split.
  - apply (Hgemini _ _ {| filename := u "notes.txt"; content := [1; 2; 3] |}).
    split; reflexivity.
  - apply Hgroq. left. reflexivity.
Defined.

(** ** C2: what a stored upload is answered *)

Module GeminiTotal.
Import Monad Gemini.

Lemma extract_text_from_pdf_total env document_id :
  Monad.total (extract_text_from_pdf env document_id).
Proof.
  unfold extract_text_from_pdf. apply Frame.total_try_except.
  intros e. apply Frame.total_ret.
Qed.

Lemma create_and_store_embeddings_total env document_id text_content :
  Monad.total (create_and_store_embeddings env document_id text_content).
Proof.
  unfold create_and_store_embeddings.
  destruct (negb (embedding_model_ok env)).
  - apply Frame.total_ret.
  - apply Frame.total_try_except. intros e. apply Frame.total_ret.
Qed.

(** Extraction and embedding swallow every exception. *)
Lemma embedding_process_total env doc_id :
  Monad.total (embedding_process env doc_id).
Proof.
  unfold embedding_process. apply Frame.total_bind.
  - apply extract_text_from_pdf_total.
  - intros [t |]; [| apply Frame.total_ret].
    destruct (Py.truthy t); [| apply Frame.total_ret].
    apply Frame.total_bind.
    + apply create_and_store_embeddings_total.
    + intros b. apply Frame.total_ret.
Qed.

End GeminiTotal.

(** C2, as stated, fails on the groq variant.  A readable two-page file is
    stored and answered 200, not 201; an unreadable one is stored all the
    same (file saved, row inserted) and answered 500 with no document
    identifier, because extraction failed downstream. *)
Lemma groq_upload_answers_200_or_500 :
  let good :=
    Groq.upload_pdf (Demo.groq (u "ok"))
      (Demo.upload "notes.pdf" (u "%PDF" ++ u "one" ++ [12] ++ u "two"))
      Demo.groq_world in
  let bad :=
    Groq.upload_pdf (Demo.groq (u "ok"))
      (Demo.upload "notes.pdf" [1; 2; 3]) Demo.groq_world in
  fst good =
    Ok (Jsonify 200
          [(u "status", u "success"); (u "document_id", u "doc-0")]) /\
  Groq.store_upload (Demo.groq (u "ok"))
    {| filename := u "notes.pdf"; content := [1; 2; 3] |} Demo.groq_world =
    (Ok (u "doc-0", u "uploads/doc-0_notes.pdf"),
     {| Groq.folder := {[ u "uploads/doc-0_notes.pdf" := [1; 2; 3] ]};
        Groq.documents :=
          [ {| Groq.id := u "doc-0"; Groq.user_id := u "temp_user";
               Groq.file_name := u "doc-0_notes.pdf" |} ];
        Groq.embeddings := [];
        Groq.trace := [Groq.EvSave (u "uploads/doc-0_notes.pdf");
                       Groq.EvInsertDocument (u "doc-0")] |}) /\
  fst bad = Ok (Jsonify 500 [(u "error", u "EOF marker not found")]).
Proof. vm_compute. repeat split; reflexivity. Qed.

(** C2, amended.  In the gemini variant, once the file is stored and the
    metadata record written, [upload_pdf] answers 201 with the generated
    identifier whatever extraction and embedding do.  In the groq variant a
    stored upload is answered 200 with the identifier when extraction and
    every embedding succeed, and 500 with the text of the exception when
    one of them fails. *)
Theorem stored_upload_response :
  (forall env req f w doc_id w1,
     files req !! u "pdf_file" = Some f ->
     endswith (filename f) (u ".pdf") = true ->
     Gemini.store_upload env f w = (Ok doc_id, w1) ->
     fst (Gemini.upload_pdf env req w) =
       Ok (Jsonify 201
             [(u "status", u "success");
              (u "message", u "PDF uploaded and processing started!");
              (u "document_id", doc_id)])) /\
  (forall env req f w doc_id path w1,
     files req !! u "pdf_file" = Some f ->
     filename f <> [] ->
     Groq.store_upload env f w = (Ok (doc_id, path), w1) ->
     fst (Groq.upload_pdf env req w) =
       match fst (Groq.ingest env doc_id path w1) with
       | Ok _ =>
           Ok (Jsonify 200
                 [(u "status", u "success"); (u "document_id", doc_id)])
       | Raise e => Ok (Jsonify 500 [(u "error", exn_str e)])
       end).
Proof.
  split.
  - intros env req f w doc_id w1 Hf Hext Hstore.
    unfold Gemini.upload_pdf. rewrite Hf, Hext.
    destruct (filename f) as [| c name] eqn:Hname; [discriminate |].
    simpl. unfold Monad.try_except, Monad.bind. rewrite Hstore.
    destruct (GeminiTotal.embedding_process_total env doc_id w1)
      as ([] & w2 & ->).
    reflexivity.
  - intros env req f w doc_id path w1 Hf Hname Hstore.
    unfold Groq.upload_pdf, Monad.try_except. rewrite Hf.
    destruct (filename f) as [| c name]; [congruence |]. simpl.
    unfold Monad.bind. rewrite Hstore.
    destruct (Groq.ingest env doc_id path w1) as [[[] | e] w2]; reflexivity.
Qed.

(** On the demo environment: an unreadable [notes.pdf] is answered 201 by
    the gemini variant and 500 by the groq variant. *)
Lemma stored_upload_response_witness :
  fst (Gemini.upload_pdf (Demo.gemini (u "ok"))
         (Demo.upload "notes.pdf" [1; 2; 3]) Demo.gemini_world) =
    Ok (Jsonify 201
          [(u "status", u "success");
           (u "message", u "PDF uploaded and processing started!");
           (u "document_id", u "doc-0")]) /\
  fst (Groq.upload_pdf (Demo.groq (u "ok"))
         (Demo.upload "notes.pdf" [1; 2; 3]) Demo.groq_world) =
    Ok (Jsonify 500 [(u "error", u "EOF marker not found")]).
Proof.
  destruct stored_upload_response as [Hgemini Hgroq].
  pose (f := {| filename := u "notes.pdf"; content := [1; 2; 3] |}).
  split.
  - apply (Hgemini _ _ f _ _
             (snd (Gemini.store_upload (Demo.gemini (u "ok")) f
                     Demo.gemini_world)));
      [reflexivity | reflexivity | vm_compute; reflexivity].
  - rewrite (Hgroq _ _ f _ (u "doc-0") (u "uploads/doc-0_notes.pdf")
               (snd (Groq.store_upload (Demo.groq (u "ok")) f
                       Demo.groq_world)));
      [vm_compute; reflexivity | reflexivity | discriminate
      | vm_compute; reflexivity].
Defined.

(** ** C3: a question on a document without embeddings *)

Module GeminiRun.
Import Monad Gemini.

Lemma request_run env ev w :
  request env ev w =
  if firebase_ok env then
    match storage_fault env (length (trace w)) with
    | Some e => (Raise e, log EvFault w)
    | None => (Ok tt, log ev w)
    end
  else (Raise (AttributeError (u "'NoneType' object has no attribute")), w).
Proof.
  unfold request, handle, now, bind, gets, modify, raise, ret.
  destruct (firebase_ok env); [| reflexivity].
  destruct (storage_fault env (length (trace w))); reflexivity.
Qed.

Lemma embed_run env text w :
  embed env text w =
  (get_embeddings env (length (trace w)) text, log (EvEmbed text) w).
Proof.
  unfold embed, now, bind, gets, modify, lift. reflexivity.
Qed.

Lemma generate_run env prompt w :
  generate env prompt w =
  (generate_content env (length (trace w)) prompt, log (EvGenerate prompt) w).
Proof.
  unfold generate, now, bind, gets, modify, lift. reflexivity.
Qed.

Lemma gemini_prompts_sent_app evs evs' :
  prompts_sent (evs ++ evs') = prompts_sent evs ++ prompts_sent evs'.
Proof. apply flat_map_app. Qed.

(** With no record under [id], the query yields no chunk. *)
Lemma find_nearest_empty env id q w :
  subcollection id w = ∅ ->
  find_nearest env id q w =
  match request env (EvFindNearest id) w with
  | (Ok _, w') => (Ok [], w')
  | (Raise e, w') => (Raise e, w')
  end.
Proof.
  intros Hzero. unfold find_nearest, bind.
  pose proof (GeminiFrame.request_frames env (EvFindNearest id) w) as Hfr.
  destruct (request env (EvFindNearest id) w) as [[[] | e] w'];
    [| reflexivity].
  unfold gets, ret, subcollection in *. simpl in Hfr.
  inversion Hfr as [[Hb Hd He]]. rewrite He, Hzero.
  rewrite map_to_list_empty. reflexivity.
Qed.

End GeminiRun.

Module GroqRun.
Import Monad Groq.

Lemma call_run fault ev w :
  call fault ev w =
  match fault (length (trace w)) with
  | Some e => (Raise e, log EvFault w)
  | None => (Ok tt, log ev w)
  end.
Proof.
  unfold call, now, bind, gets, modify, raise.
  destruct (fault (length (trace w))); reflexivity.
Qed.

Lemma embed_text_run env text w :
  embed_text env text w =
  (encode env (length (trace w)) text, log (EvEmbed text) w).
Proof.
  unfold embed_text, now, bind, gets, modify, lift. reflexivity.
Qed.

(** The model is called, whatever comes back. *)
Lemma groq_generate_logs env prompt w :
  trace (snd (groq_generate env prompt w)) = trace w ++ [EvGenerate prompt].
Proof.
  unfold groq_generate, now, bind, gets, modify, lift, raise. simpl.
  destruct (post env (length (trace w)) prompt) as [res | e]; [| reflexivity].
  destruct (negb (reply_status res =? 200)%nat); reflexivity.
Qed.

Lemma groq_prompts_sent_app evs evs' :
  prompts_sent (evs ++ evs') = prompts_sent evs ++ prompts_sent evs'.
Proof. apply flat_map_app. Qed.

(** The provider call, by what comes back. *)
Lemma groq_generate_run env prompt w :
  groq_generate env prompt w =
  (match post env (length (trace w)) prompt with
   | Raise e => Raise e
   | Ok res =>
       if (reply_status res =? 200)%nat then reply_content res
       else Raise (RuntimeError (u "Groq error: " ++ reply_text res))
   end,
   log (EvGenerate prompt) w).
Proof.
  unfold groq_generate, now, bind, gets, modify, lift, raise.
  cbn iota beta.
  destruct (post env (length (trace w)) prompt) as [res | e]; [| reflexivity].
  destruct (reply_status res =? 200)%nat; reflexivity.
Qed.

End GroqRun.

(** C3, as stated, fails on the groq variant: with both tables empty, a
    question is still sent to the model (with an empty context), and the
    answer is the model's, not a canned one. *)
Lemma groq_question_without_embeddings_calls_model :
  let run :=
    Groq.ask_question (Demo.groq (u "I don't know")) (u "doc-0")
      {| question := Some (u "What?") |} Demo.groq_world in
  Groq.embeddings Demo.groq_world = [] /\
  fst run =
    Ok (Jsonify 200
          [(u "status", u "success");
           (u "answer", u "<p>I don't know</p>")]) /\
  Groq.prompts_sent (Groq.trace (snd run)) =
    [Groq.question_prompt [] (u "What?")].
Proof. vm_compute. repeat split; reflexivity. Qed.

(** C3, amended.  In the gemini variant, a question on a document with no
    embedding record never reaches the generative model, whatever the
    request and the services do; and when both models are initialised, a
    question is given, its embedding succeeds and the vector query
    succeeds, the answer is the canned one.  The groq variant has no such
    branch: once the question is embedded and the rows selected, the model
    is called with an empty context, and what the handler returns is what
    the call gives: a reply with status 200 is rendered to HTML and
    answered with status 200; any other status, or an exception of the
    request or of the reading of the reply, leaves the handler as an
    exception. *)
Theorem question_without_embeddings :
  (forall env doc_id req w,
     Gemini.subcollection doc_id w = ∅ ->
     Gemini.prompts_sent
       (Gemini.trace (snd (Gemini.ask_question env doc_id req w))) =
     Gemini.prompts_sent (Gemini.trace w)) /\
  (forall env doc_id req q v w,
     Gemini.subcollection doc_id w = ∅ ->
     Gemini.model_ok env = true ->
     Gemini.embedding_model_ok env = true ->
     Gemini.firebase_ok env = true ->
     question req = Some q -> q <> [] ->
     Gemini.get_embeddings env (length (Gemini.trace w)) q = Ok v ->
     Gemini.storage_fault env (S (length (Gemini.trace w))) = None ->
     fst (Gemini.ask_question env doc_id req w) =
       Ok (Jsonify 200
             [(u "status", u "success");
              (u "answer", Gemini.no_relevant_information)])) /\
  (forall env doc_id req q v w,
     filter (fun r => Groq.of_document doc_id r = true) (Groq.embeddings w)
       = [] ->
     question req = Some q -> q <> [] ->
     Groq.encode env (length (Groq.trace w)) q = Ok v ->
     Groq.db_fault env (S (length (Groq.trace w))) = None ->
     let run := Groq.ask_question env doc_id req w in
     let prompt := Groq.question_prompt [] q in
     Groq.prompts_sent (Groq.trace (snd run)) =
       Groq.prompts_sent (Groq.trace w) ++ [prompt] /\
     fst run =
       match Groq.post env (S (S (length (Groq.trace w)))) prompt with
       | Raise e => Raise e
       | Ok res =>
           if (Groq.reply_status res =? 200)%nat then
             match Groq.reply_content res with
             | Ok answer =>
                 Ok (Jsonify 200
                       [(u "status", u "success");
                        (u "answer", markdown (Groq.lib env) answer)])
             | Raise e => Raise e
             end
           else Raise (RuntimeError (u "Groq error: " ++ Groq.reply_text res))
       end).
Proof.
  split; [| split].
  - intros env doc_id req w Hzero. unfold Gemini.ask_question.
    destruct (negb (Gemini.model_ok env)
              || negb (Gemini.embedding_model_ok env)); [reflexivity |].
    destruct (question req) as [q |]; [| reflexivity].
    destruct (negb (truthy q)); [reflexivity |].
    unfold Monad.try_except, Monad.bind.
    rewrite GeminiRun.embed_run.
    destruct (Gemini.get_embeddings env (length (Gemini.trace w)) q)
      as [v | e].
    + rewrite GeminiRun.find_nearest_empty by exact Hzero.
      rewrite GeminiRun.request_run.
      destruct (Gemini.firebase_ok env);
        [destruct (Gemini.storage_fault env _) |];
        simpl; rewrite ?GeminiRun.gemini_prompts_sent_app; simpl;
        rewrite ?app_nil_r; reflexivity.
    + simpl. rewrite GeminiRun.gemini_prompts_sent_app. simpl. apply app_nil_r.
  - intros env doc_id req q v w Hzero Hm Hem Hfb Hq Hne Hv Hfault.
    unfold Gemini.ask_question. rewrite Hm, Hem, Hq.
    destruct q as [| c q]; [congruence |]. simpl.
    unfold Monad.try_except, Monad.bind.
    rewrite GeminiRun.embed_run, Hv.
    rewrite GeminiRun.find_nearest_empty by exact Hzero.
    rewrite GeminiRun.request_run, Hfb. simpl.
    rewrite length_app, Nat.add_1_r, Hfault. reflexivity.
  - intros env doc_id req q v w Hzero Hq Hne Hv Hfault run prompt.
    assert (Hrows :
      Groq.select_nearest env doc_id v 5 (Groq.log (Groq.EvEmbed q) w) =
      (Ok [], Groq.log (Groq.EvSelect doc_id) (Groq.log (Groq.EvEmbed q) w))).
    { unfold Groq.select_nearest, Monad.bind. rewrite GroqRun.call_run.
      replace (length (Groq.trace (Groq.log (Groq.EvEmbed q) w)))
        with (S (length (Groq.trace w)))
        by (simpl; rewrite length_app; simpl; lia).
      rewrite Hfault. unfold Monad.gets, Monad.ret. cbn iota beta.
      change (Groq.embeddings
                (Groq.log (Groq.EvSelect doc_id)
                   (Groq.log (Groq.EvEmbed q) w)))
        with (Groq.embeddings w).
      rewrite Hzero. reflexivity. }
    assert (Hrun : run =
      (match Groq.post env (S (S (length (Groq.trace w)))) prompt with
       | Raise e => Raise e
       | Ok res =>
           if (Groq.reply_status res =? 200)%nat then
             match Groq.reply_content res with
             | Ok answer =>
                 Ok (Jsonify 200
                       [(u "status", u "success");
                        (u "answer", markdown (Groq.lib env) answer)])
             | Raise e => Raise e
             end
           else Raise (RuntimeError (u "Groq error: " ++ Groq.reply_text res))
       end,
       Groq.log (Groq.EvGenerate prompt)
         (Groq.log (Groq.EvSelect doc_id) (Groq.log (Groq.EvEmbed q) w)))).
    { subst run. unfold Groq.ask_question. rewrite Hq.
      destruct q as [| c q]; [congruence |].
      cbn [truthy negb]. cbv iota.
      unfold Monad.bind at 1. rewrite GroqRun.embed_text_run, Hv.
      unfold Monad.bind at 1. rewrite Hrows.
      unfold Monad.bind. rewrite GroqRun.groq_generate_run.
      replace (length (Groq.trace
                 (Groq.log (Groq.EvSelect doc_id)
                    (Groq.log (Groq.EvEmbed (c :: q)) w))))
        with (S (S (length (Groq.trace w))))
        by (simpl; rewrite !length_app; simpl; lia).
      change (Groq.question_prompt (join [ch_newline; ch_newline] [])
                (c :: q))
        with prompt.
      destruct (Groq.post env (S (S (length (Groq.trace w)))) prompt)
        as [res | e]; [| reflexivity].
      destruct (Groq.reply_status res =? 200)%nat; [| reflexivity].
      destruct (Groq.reply_content res); reflexivity. }
    rewrite Hrun. cbn [fst snd]. split; [| reflexivity].
    simpl. rewrite !GroqRun.groq_prompts_sent_app. simpl.
    rewrite !app_nil_r. reflexivity.
Qed.

(** On the demo environment, both stores empty, the question [What?]. *)
Lemma question_without_embeddings_witness :
  let req := {| question := Some (u "What?") |} in
  Gemini.prompts_sent
    (Gemini.trace
       (snd (Gemini.ask_question (Demo.gemini (u "ok")) (u "doc-0") req
               Demo.gemini_world))) =
    Gemini.prompts_sent (Gemini.trace Demo.gemini_world) /\
  fst (Gemini.ask_question (Demo.gemini (u "ok")) (u "doc-0") req
         Demo.gemini_world) =
    Ok (Jsonify 200
          [(u "status", u "success");
           (u "answer", Gemini.no_relevant_information)]) /\
  Groq.prompts_sent
    (Groq.trace
       (snd (Groq.ask_question (Demo.groq (u "ok")) (u "doc-0") req
               Demo.groq_world))) =
    Groq.prompts_sent (Groq.trace Demo.groq_world)
    ++ [Groq.question_prompt [] (u "What?")] /\
  fst (Groq.ask_question (Demo.groq (u "ok")) (u "doc-0") req
         Demo.groq_world) =
    Ok (Jsonify 200
          [(u "status", u "success"); (u "answer", u "<p>ok</p>")]).
Proof.
  destruct question_without_embeddings as (Hsilent & Hcanned & Hgroq).
  intros req. split; [| split].
  - apply Hsilent. vm_compute. reflexivity.
  - apply (Hcanned _ _ req (u "What?") (Demo.vector_of (u "What?")));
      try reflexivity; discriminate.
  - exact (Hgroq (Demo.groq (u "ok")) (u "doc-0") req (u "What?")
             (Demo.vector_of (u "What?")) Demo.groq_world eq_refl eq_refl
             ltac:(discriminate) eq_refl eq_refl).
Defined.

(** ** C4: a reply that cannot be decoded *)

(** C4.  In both variants [generate_flashcards] never lets an exception
    out, and a reply of the model whose text, once cleaned (gemini) or cut
    down to its bracketed part (groq), is refused by the JSON decoder (or,
    in the groq variant, has no bracketed part at all) is rendered as a
    list of exactly one card, the error card carrying the text of the
    exception. *)
Theorem flashcards_decoding_failure :
  (forall env doc_id w,
     exists page w', Gemini.generate_flashcards env doc_id w = (Ok page, w')) /\
  (forall env doc_id w text w1 reply e,
     Gemini.use_mock_ai env = false ->
     Gemini.model_ok env = true ->
     Gemini.extract_text_from_pdf env doc_id w = (Ok (Some text), w1) ->
     text <> [] ->
     Gemini.generate_content env (length (Gemini.trace w1))
       (Gemini.flashcards_prompt text) = Ok reply ->
     json_loads (Gemini.lib env) (Gemini.cleaned_response reply) = Raise e ->
     fst (Gemini.generate_flashcards env doc_id w) =
       Ok (RenderTemplate (u "flashcards.html")
             [(u "flashcards",
               JArr [flashcard (u "An error occurred") (exn_str e)])])) /\
  (forall env doc_id w,
     exists page w', Groq.generate_flashcards env doc_id w = (Ok page, w')) /\
  (forall env doc_id w rows w1 reply w2,
     Groq.select_content env doc_id 12 w = (Ok rows, w1) ->
     strip (join (u " ") rows) <> [] ->
     Groq.groq_generate env (Groq.flashcards_prompt (join (u " ") rows)) w1
       = (Ok reply, w2) ->
     forall e,
       match Groq.search_brackets (strip reply) with
       | None => e = RuntimeError (u "Model did not return valid JSON.")
       | Some json_text => json_loads (Groq.lib env) json_text = Raise e
       end ->
       fst (Groq.generate_flashcards env doc_id w) =
         Ok (RenderTemplate (u "flashcards.html")
               [(u "flashcards",
                 JArr [flashcard (u "Error generating flashcards")
                         (exn_str e)])])).
Proof.
  split; [| split; [| split]].
  - intros env doc_id. unfold Gemini.generate_flashcards.
    destruct (Gemini.use_mock_ai env); [apply Frame.total_ret |].
    destruct (negb (Gemini.model_ok env)); [apply Frame.total_ret |].
    apply Frame.total_bind;
      [apply GeminiTotal.extract_text_from_pdf_total |].
    intros [text |]; [| apply Frame.total_ret].
    destruct (negb (truthy text)); [apply Frame.total_ret |].
    apply Frame.total_try_except. intros e. apply Frame.total_ret.
  - intros env doc_id w text w1 reply e Hmock Hmodel Hext Htext Hreply Hjson.
    unfold Gemini.generate_flashcards. rewrite Hmock, Hmodel. simpl.
    unfold Monad.bind at 1. rewrite Hext.
    destruct text as [| c text]; [congruence |]. simpl.
    unfold Monad.try_except, Monad.bind.
    rewrite GeminiRun.generate_run, Hreply.
    unfold Monad.lift, Gemini.parse_flashcards. rewrite Hjson. reflexivity.
  - intros env doc_id. unfold Groq.generate_flashcards.
    apply Frame.total_try_except. intros e. apply Frame.total_ret.
  - intros env doc_id w rows w1 reply w2 Hrows Htext Hreply e He.
    unfold Groq.generate_flashcards, Monad.try_except.
    unfold Monad.bind at 1. rewrite Hrows.
    destruct (strip (join (u " ") rows)) as [| c t] eqn:Hstrip;
      [congruence |].
    simpl. unfold Monad.bind at 1. rewrite Hreply.
    unfold Monad.bind, Monad.lift, Groq.parse_flashcards.
    destruct (Groq.search_brackets (strip reply)) as [json_text |].
    + unfold Groq.load_flashcards. rewrite He. reflexivity.
    + rewrite He. reflexivity.
Qed.

(** On the demo environment, after the upload of a two-page file: a reply
    in prose, with no JSON in it, for both variants. *)
Lemma flashcards_decoding_failure_witness :
  let reply := u "Sorry, no cards today." in
  fst (Gemini.generate_flashcards (Demo.gemini reply) (u "doc-0")
         Demo.gemini_loaded) =
    Ok (RenderTemplate (u "flashcards.html")
          [(u "flashcards",
            JArr [flashcard (u "An error occurred")
                    (u "Expecting value: line 1 column 1 (char 0)")])]) /\
  fst (Groq.generate_flashcards (Demo.groq reply) (u "doc-0")
         Demo.groq_loaded) =
    Ok (RenderTemplate (u "flashcards.html")
          [(u "flashcards",
            JArr [flashcard (u "Error generating flashcards")
                    (u "Model did not return valid JSON.")])]).
Proof.
  destruct flashcards_decoding_failure as (_ & Hgemini & _ & Hgroq).
  intros reply. split.
  - apply (Hgemini (Demo.gemini reply) (u "doc-0") Demo.gemini_loaded
             (Demo.sample_text ++ [ch_newline])
             (snd (Gemini.extract_text_from_pdf (Demo.gemini reply)
                     (u "doc-0") Demo.gemini_loaded))
             reply (JSONDecodeError (u "Expecting value") reply 0));
      try reflexivity; try discriminate; vm_compute; reflexivity.
  - apply (Hgroq (Demo.groq reply) (u "doc-0") Demo.groq_loaded
             [Demo.sample_text]
             (snd (Groq.select_content (Demo.groq reply) (u "doc-0") 12
                     Demo.groq_loaded))
             reply
             (snd (Groq.groq_generate (Demo.groq reply)
                     (Groq.flashcards_prompt
                        (join (u " ") [Demo.sample_text]))
                     (snd (Groq.select_content (Demo.groq reply) (u "doc-0")
                             12 Demo.groq_loaded)))))
      with (e := RuntimeError (u "Model did not return valid JSON."));
      try reflexivity; try discriminate; vm_compute; reflexivity.
Defined.

(** ** C8: what text extraction returns when there is no text *)

Module Blank.
Import Monad.

Lemma page_texts_blank pages :
  all_blank pages -> Groq.page_texts pages = Ok [].
Proof.
  induction 1 as [| p pages Hp _ IH]; [reflexivity |].
  subst p. simpl. rewrite IH. reflexivity.
Qed.

End Blank.

(** C8, as stated, fails on the gemini variant: for a stored file of one
    page whose text is empty, extraction returns the one-character string
    made of a newline, which is neither [None] nor empty. *)
Lemma gemini_blank_page_yields_newline :
  let env := Demo.gemini (u "ok") in
  let w :=
    snd (Gemini.upload_pdf env (Demo.upload "blank.pdf" (u "%PDF"))
           Demo.gemini_world) in
  pdf_pages (Gemini.lib env) (u "%PDF") = Ok [Ok []] /\
  fst (Gemini.extract_text_from_pdf env (u "doc-0") w) =
    Ok (Some [ch_newline]).
Proof. vm_compute. split; reflexivity. Qed.

(** C8, amended.  Gemini variant: extraction never raises; it returns
    [None] when the document record is missing, when the stored file is
    missing, and when the file is unreadable.  Groq variant: for a readable
    file whose pages all yield the empty string extraction returns the
    empty string; a missing or unreadable file raises, and the exception
    leaves the function. *)
Theorem extraction_without_text :
  (forall env document_id w,
     exists r w',
       Gemini.extract_text_from_pdf env document_id w = (Ok r, w')) /\
  (forall env document_id w,
     Gemini.documents w !! document_id = None ->
     fst (Gemini.extract_text_from_pdf env document_id w) = Ok None) /\
  (forall env document_id w d,
     Gemini.documents w !! document_id = Some d ->
     Gemini.bucket w !! Gemini.storage_path d = None ->
     fst (Gemini.extract_text_from_pdf env document_id w) = Ok None) /\
  (forall env document_id w d data e,
     Gemini.documents w !! document_id = Some d ->
     Gemini.bucket w !! Gemini.storage_path d = Some data ->
     pdf_pages (Gemini.lib env) data = Raise e ->
     fst (Gemini.extract_text_from_pdf env document_id w) = Ok None) /\
  (forall env path w data pages,
     Groq.fs_fault env (length (Groq.trace w)) = None ->
     Groq.folder w !! path = Some data ->
     pdf_pages (Groq.lib env) data = Ok pages ->
     all_blank pages ->
     fst (Groq.extract_text_from_pdf env path w) = Ok []) /\
  (forall env path w,
     Groq.folder w !! path = None ->
     exists e, fst (Groq.extract_text_from_pdf env path w) = Raise e) /\
  (forall env path w data e,
     Groq.fs_fault env (length (Groq.trace w)) = None ->
     Groq.folder w !! path = Some data ->
     pdf_pages (Groq.lib env) data = Raise e ->
     fst (Groq.extract_text_from_pdf env path w) = Raise e).
Proof.
  repeat apply conj.
  - intros env document_id. apply GeminiTotal.extract_text_from_pdf_total.
  - intros env document_id w Hdoc.
    unfold Gemini.extract_text_from_pdf, Monad.try_except, Gemini.doc_get.
    unfold Monad.bind. rewrite GeminiRun.request_run.
    destruct (Gemini.firebase_ok env); [| reflexivity].
    destruct (Gemini.storage_fault env _); [reflexivity |].
    unfold Monad.gets. simpl. rewrite Hdoc. reflexivity.
  - intros env document_id w d Hdoc Hblob.
    unfold Gemini.extract_text_from_pdf, Monad.try_except, Gemini.doc_get.
    unfold Monad.bind at 1 2. rewrite GeminiRun.request_run.
    destruct (Gemini.firebase_ok env) eqn:Hfb; [| reflexivity].
    destruct (Gemini.storage_fault env _); [reflexivity |].
    unfold Monad.gets. simpl. rewrite Hdoc.
    destruct (truthy (Gemini.storage_path d)); [| reflexivity]. simpl.
    unfold Gemini.blob_download, Monad.bind. rewrite GeminiRun.request_run.
    rewrite Hfb. destruct (Gemini.storage_fault env _); [reflexivity |].
    unfold Monad.gets. simpl. rewrite Hblob. reflexivity.
  - intros env document_id w d data e Hdoc Hblob Hpdf.
    unfold Gemini.extract_text_from_pdf, Monad.try_except, Gemini.doc_get.
    unfold Monad.bind at 1 2. rewrite GeminiRun.request_run.
    destruct (Gemini.firebase_ok env) eqn:Hfb; [| reflexivity].
    destruct (Gemini.storage_fault env _); [reflexivity |].
    unfold Monad.gets. simpl. rewrite Hdoc.
    destruct (truthy (Gemini.storage_path d)); [| reflexivity]. simpl.
    unfold Gemini.blob_download, Monad.bind. rewrite GeminiRun.request_run.
    rewrite Hfb. destruct (Gemini.storage_fault env _); [reflexivity |].
    unfold Monad.gets, Monad.lift. simpl. rewrite Hblob. simpl.
    rewrite Hpdf. reflexivity.
  - intros env path w data pages Hf Hfile Hpdf Hblank.
    unfold Groq.extract_text_from_pdf, Groq.read_file, Monad.bind.
    rewrite GroqRun.call_run, Hf. unfold Monad.gets, Monad.lift. simpl.
    rewrite Hfile. simpl. rewrite Hpdf, (Blank.page_texts_blank pages Hblank).
    reflexivity.
  - intros env path w Hfile.
    unfold Groq.extract_text_from_pdf, Groq.read_file, Monad.bind.
    rewrite GroqRun.call_run.
    destruct (Groq.fs_fault env _) as [e |]; [exists e; reflexivity |].
    unfold Monad.gets. simpl. rewrite Hfile. eexists. reflexivity.
  - intros env path w data e Hf Hfile Hpdf.
    unfold Groq.extract_text_from_pdf, Groq.read_file, Monad.bind.
    rewrite GroqRun.call_run, Hf. unfold Monad.gets, Monad.lift. simpl.
    rewrite Hfile. simpl. rewrite Hpdf. reflexivity.
Qed.

(** On the demo environment: a missing record, a missing file and an
    unreadable file for the gemini variant; a file of one blank page, a
    missing file and an unreadable file for the groq variant. *)
Lemma extraction_without_text_witness :
  let genv := Demo.gemini (u "ok") in
  let blank :=
    snd (Gemini.upload_pdf genv (Demo.upload "blank.pdf" (u "%PDF"))
           Demo.gemini_world) in
  let broken :=
    snd (Gemini.upload_pdf genv (Demo.upload "broken.pdf" [1; 2; 3])
           Demo.gemini_world) in
  let lost := Gemini.set_bucket (fun _ => ∅) blank in
  let qenv := Demo.groq (u "ok") in
  let qblank :=
    snd (Groq.upload_pdf qenv (Demo.upload "blank.pdf" (u "%PDF"))
           Demo.groq_world) in
  let qbroken :=
    snd (Groq.upload_pdf qenv (Demo.upload "broken.pdf" [1; 2; 3])
           Demo.groq_world) in
  fst (Gemini.extract_text_from_pdf genv (u "doc-0") Demo.gemini_world)
    = Ok None /\
  fst (Gemini.extract_text_from_pdf genv (u "doc-0") lost) = Ok None /\
  fst (Gemini.extract_text_from_pdf genv (u "doc-0") broken) = Ok None /\
  fst (Groq.extract_text_from_pdf qenv (u "uploads/doc-0_blank.pdf") qblank)
    = Ok [] /\
  (exists e,
     fst (Groq.extract_text_from_pdf qenv (u "uploads/none.pdf")
            Demo.groq_world) = Raise e) /\
  fst (Groq.extract_text_from_pdf qenv (u "uploads/doc-0_broken.pdf")
         qbroken)
    = Raise (ServiceError (u "EOF marker not found")).
Proof.
  destruct extraction_without_text
    as (_ & Hnodoc & Hnofile & Hunreadable & Hqblank & Hqnofile
        & Hqunreadable).
  intros genv blank broken lost qenv qblank qbroken.
  pose (d (name : string) :=
    {| Gemini.user_id := Gemini.temp_user_id; Gemini.file_name := u name;
       Gemini.storage_path := u "uploads/temp_user_id_123/doc-0/" ++ u name;
       Gemini.created_at := 1%Z;
       Gemini.status := Gemini.status_processed |}).
  repeat apply conj.
  - apply Hnodoc. vm_compute. reflexivity.
  - apply (Hnofile genv _ lost (d "blank.pdf"%string)); vm_compute; reflexivity.
  - apply (Hunreadable genv _ broken
             (Gemini.with_status Gemini.status_uploaded (d "broken.pdf"%string))
             [1; 2; 3] (ServiceError (u "EOF marker not found")));
      vm_compute; reflexivity.
  - apply (Hqblank qenv _ qblank (u "%PDF") [Ok []]);
      try (vm_compute; reflexivity).
    repeat constructor.
  - apply Hqnofile. vm_compute. reflexivity.
  - apply (Hqunreadable qenv _ qbroken [1; 2; 3]); vm_compute; reflexivity.
Defined.

(** ** C9: the bracketed part of a reply *)

Module Brackets.
Import Groq.

Lemma free_of_incl c s s' :
  (forall x, In x s' -> In x s) -> free_of c s -> free_of c s'.
Proof.
  unfold free_of. rewrite !Forall_forall. intros Hincl H x Hx.
  apply H. apply list_elem_of_In, Hincl, list_elem_of_In, Hx.
Qed.

(** Stripping on the left stops at the first character that is not a
    space, and keeps what follows. *)
Lemma lstrip_stop pre c rest :
  isspace c = false ->
  exists pre',
    lstrip (pre ++ c :: rest) = pre' ++ c :: rest /\
    (forall x, In x pre' -> In x pre).
Proof.
  intros Hc. induction pre as [| a pre IH].
  - exists []. simpl. rewrite Hc. split; [reflexivity | tauto].
  - simpl. destruct (isspace a).
    + destruct IH as (pre' & Heq & Hin). exists pre'. split; [exact Heq |].
      intros x Hx. right. apply Hin, Hx.
    + exists (a :: pre). split; [reflexivity | tauto].
Qed.

Lemma rstrip_stop rest c post :
  isspace c = false ->
  exists post',
    rstrip (rest ++ c :: post) = rest ++ c :: post' /\
    (forall x, In x post' -> In x post).
Proof.
  intros Hc. unfold rstrip.
  replace (rev (rest ++ c :: post)) with (rev post ++ c :: rev rest)
    by (rewrite rev_app_distr; simpl; rewrite <- app_assoc; reflexivity).
  destruct (lstrip_stop (rev post) c (rev rest) Hc) as (p & Heq & Hin).
  exists (rev p). split.
  - rewrite Heq, rev_app_distr. simpl. rewrite rev_involutive, <- app_assoc.
    reflexivity.
  - intros x Hx. apply in_rev in Hx. apply Hin in Hx.
    apply in_rev. exact Hx.
Qed.

Lemma after_first_open_app pre rest :
  free_of ch_lbracket pre ->
  after_first_open (pre ++ ch_lbracket :: rest) = Some rest.
Proof.
  induction 1 as [| a pre Ha _ IH]; simpl.
  - reflexivity.
  - destruct (N.eqb_spec a ch_lbracket); [contradiction | exact IH].
Qed.

Lemma up_to_last_close_free post :
  free_of ch_rbracket post -> up_to_last_close post = None.
Proof.
  induction 1 as [| a post Ha _ IH]; simpl; [reflexivity |].
  rewrite IH. destruct (N.eqb_spec a ch_rbracket); [contradiction |].
  reflexivity.
Qed.

Lemma up_to_last_close_app mid s p :
  up_to_last_close s = Some p ->
  up_to_last_close (mid ++ s) = Some (mid ++ p).
Proof.
  intros H. induction mid as [| a mid IH]; simpl; [exact H |].
  rewrite IH. reflexivity.
Qed.

(** The span from the first opening bracket to the last closing one is
    the array itself when the prose around it has no bracket of its own. *)
Lemma search_brackets_span pre mid post :
  free_of ch_lbracket pre ->
  free_of ch_rbracket post ->
  search_brackets (strip (pre ++ [ch_lbracket] ++ mid ++ [ch_rbracket] ++ post))
  = Some ([ch_lbracket] ++ mid ++ [ch_rbracket]).
Proof.
  intros Hpre Hpost. unfold strip. simpl.
  destruct (lstrip_stop pre ch_lbracket (mid ++ ch_rbracket :: post))
    as (pre' & -> & Hin); [reflexivity |].
  replace (pre' ++ ch_lbracket :: mid ++ ch_rbracket :: post)
    with ((pre' ++ ch_lbracket :: mid) ++ ch_rbracket :: post)
    by (rewrite <- app_assoc; reflexivity).
  destruct (rstrip_stop (pre' ++ ch_lbracket :: mid) ch_rbracket post)
    as (post' & -> & Hin'); [reflexivity |].
  rewrite <- app_assoc. simpl. unfold search_brackets.
  rewrite after_first_open_app by (eapply free_of_incl; eauto).
  rewrite (up_to_last_close_app mid (ch_rbracket :: post') [ch_rbracket]).
  - reflexivity.
  - simpl. rewrite up_to_last_close_free by (eapply free_of_incl; eauto).
    reflexivity.
Qed.

Lemma render_card_of env qa :
  render_card env (card_of qa) = Ok (rendered (lib env) qa).
Proof.
  destruct qa as [q a]. unfold render_card, render_field, card_of, flashcard.
  reflexivity.
Qed.

Lemma for_each_render env qas :
  for_each (render_card env) (map card_of qas)
  = Ok (map (rendered (lib env)) qas).
Proof.
  induction qas as [| qa qas IH]; [reflexivity |].
  cbn [map for_each]. rewrite render_card_of, IH. reflexivity.
Qed.

End Brackets.

(** C9, as stated, fails when the prose has a bracket of its own: the
    match runs from the first opening bracket of the reply to its last
    closing bracket, so a valid array followed by [(see [1])] is handed to
    the decoder with part of the prose, and the page shows the error card. *)
Lemma groq_prose_with_bracket_breaks_extraction :
  let reply := u "Here are your cards: " ++ Demo.one_card ++ u " (see [1])" in
  loads Demo.one_card = Ok (JArr [flashcard (u "Q") (u "A")]) /\
  Groq.search_brackets (strip reply) = Some (Demo.one_card ++ u " (see [1]") /\
  fst (Groq.generate_flashcards (Demo.groq reply) (u "doc-0")
         Demo.groq_loaded) =
    Ok (RenderTemplate (u "flashcards.html")
          [(u "flashcards",
            JArr [flashcard (u "Error generating flashcards")
                    (u "Extra data: line 1 column 36 (char 35)")])]).
Proof. vm_compute. repeat split; reflexivity. Qed.

(** C9, amended.  In the groq variant the text handed to the decoder is
    the span from the first opening bracket of the reply to its last closing
    bracket.  So when the reply is a bracketed array between a leading prose
    without opening bracket and a trailing prose without closing bracket,
    that span is the array: the reply is parsed as the array alone would
    be, and if the array decodes to cards with a string question and a
    string answer, the page shows those cards, each field rendered. *)
Theorem bracketed_array_in_prose :
  forall env pre mid post,
    let array := [ch_lbracket] ++ mid ++ [ch_rbracket] in
    free_of ch_lbracket pre ->
    free_of ch_rbracket post ->
    Groq.search_brackets (strip (pre ++ array ++ post)) = Some array /\
    Groq.parse_flashcards env (pre ++ array ++ post) =
      Groq.load_flashcards env array /\
    (forall qas,
       json_loads (Groq.lib env) array = Ok (JArr (map card_of qas)) ->
       Groq.parse_flashcards env (pre ++ array ++ post) =
         Ok (JArr (map (rendered (Groq.lib env)) qas))) /\
    (forall doc_id w rows w1 w2 qas,
       Groq.select_content env doc_id 12 w = (Ok rows, w1) ->
       strip (join (u " ") rows) <> [] ->
       Groq.groq_generate env (Groq.flashcards_prompt (join (u " ") rows)) w1
         = (Ok (pre ++ array ++ post), w2) ->
       json_loads (Groq.lib env) array = Ok (JArr (map card_of qas)) ->
       fst (Groq.generate_flashcards env doc_id w) =
         Ok (RenderTemplate (u "flashcards.html")
               [(u "flashcards",
                 JArr (map (rendered (Groq.lib env)) qas))])).
Proof.
  intros env pre mid post array Hpre Hpost.
  assert (Hspan :
    Groq.search_brackets (strip (pre ++ array ++ post)) = Some array).
  { unfold array. rewrite <- !app_assoc.
    apply Brackets.search_brackets_span; assumption. }
  assert (Hparse :
    Groq.parse_flashcards env (pre ++ array ++ post) =
    Groq.load_flashcards env array).
  { unfold Groq.parse_flashcards. rewrite Hspan. reflexivity. }
  assert (Hcards : forall qas,
    json_loads (Groq.lib env) array = Ok (JArr (map card_of qas)) ->
    Groq.parse_flashcards env (pre ++ array ++ post) =
      Ok (JArr (map (rendered (Groq.lib env)) qas))).
  { intros qas Hjson. rewrite Hparse. unfold Groq.load_flashcards.
    rewrite Hjson. cbn [iterate]. rewrite Brackets.for_each_render.
    reflexivity. }
  repeat apply conj; try assumption.
  intros doc_id w rows w1 w2 qas Hrows Htext Hreply Hjson.
  unfold Groq.generate_flashcards, Monad.try_except.
  unfold Monad.bind at 1. rewrite Hrows.
  destruct (strip (join (u " ") rows)) as [| c t] eqn:Hstrip; [congruence |].
  simpl. unfold Monad.bind at 1. rewrite Hreply.
  unfold Monad.bind, Monad.lift. rewrite (Hcards qas Hjson). reflexivity.
Qed.

(** On the demo environment: the array of one card between two pieces of
    prose without brackets. *)
Lemma bracketed_array_in_prose_witness :
  let reply := u "Here are your cards: " ++ Demo.one_card ++ u " Enjoy!" in
  Groq.search_brackets (strip reply) = Some Demo.one_card /\
  fst (Groq.generate_flashcards (Demo.groq reply) (u "doc-0")
         Demo.groq_loaded) =
    Ok (RenderTemplate (u "flashcards.html")
          [(u "flashcards",
            JArr [flashcard (u "<p>Q</p>") (u "<p>A</p>")])]).
Proof.
  intros reply.
  pose (mid := u "{" ++ quoted "question" ++ u ": " ++ quoted "Q" ++ u ", "
               ++ quoted "answer" ++ u ": " ++ quoted "A" ++ u "}").
  destruct (bracketed_array_in_prose (Demo.groq reply)
              (u "Here are your cards: ") mid (u " Enjoy!"))
    as (Hspan & _ & _ & Hpage).
  - vm_compute. repeat constructor; discriminate.
  - vm_compute. repeat constructor; discriminate.
  - split.
    + exact Hspan.
    + apply (Hpage (u "doc-0") Demo.groq_loaded [Demo.sample_text]
               (snd (Groq.select_content (Demo.groq reply) (u "doc-0") 12
                       Demo.groq_loaded))
               (snd (Groq.groq_generate (Demo.groq reply)
                       (Groq.flashcards_prompt
                          (join (u " ") [Demo.sample_text]))
                       (snd (Groq.select_content (Demo.groq reply)
                               (u "doc-0") 12 Demo.groq_loaded))))
               [(u "Q", u "A")]);
        try discriminate; vm_compute; reflexivity.
Defined.

(** ** C5: a failure in the middle of the embedding loop *)

Module GeminiLoop.
Import Monad Gemini.

Lemma extend_log evs e w : extend evs (log e w) = extend (e :: evs) w.
Proof.
  unfold extend, log. simpl. rewrite <- app_assoc. reflexivity.
Qed.

Lemma extend_nil w : extend [] w = w.
Proof. destruct w. unfold extend. simpl. rewrite app_nil_r. reflexivity. Qed.

Lemma gemini_length_trace_log e w :
  length (trace (log e w)) = S (length (trace w)).
Proof. simpl. rewrite length_app. simpl. lia. Qed.

(** Every call succeeds: the batch holds one write per chunk. *)
Lemma embed_chunks_ok env chunks :
  forall vs i batch w,
    embeds env (length (trace w)) chunks vs ->
    embed_chunks env chunks i batch w =
    (Ok (batch ++ records i chunks vs), extend (map EvEmbed chunks) w).
Proof.
  induction chunks as [| chunk rest IH]; intros [| v vs] i batch w H;
    simpl in H; try contradiction.
  - simpl. rewrite app_nil_r, extend_nil. reflexivity.
  - destruct H as [Hv Hrest]. cbn [embed_chunks]. unfold bind.
    rewrite GeminiRun.embed_run, Hv.
    rewrite (IH vs); [| rewrite gemini_length_trace_log; exact Hrest].
    rewrite extend_log, <- app_assoc. reflexivity.
Qed.

(** A call fails: the loop stops there, with the exception. *)
Lemma embed_chunks_fails env chunks :
  forall vs i batch w e,
    embedding_fails env (length (trace w)) chunks vs e ->
    embed_chunks env chunks i batch w =
    (Raise e, extend (map EvEmbed (take (S (length vs)) chunks)) w).
Proof.
  induction chunks as [| chunk rest IH]; intros vs i batch w e H;
    [destruct vs; contradiction |].
  destruct vs as [| v vs]; simpl in H.
  - cbn [embed_chunks]. unfold bind. rewrite GeminiRun.embed_run, H.
    reflexivity.
  - destruct H as [Hv Hrest]. cbn [embed_chunks]. unfold bind.
    rewrite GeminiRun.embed_run, Hv.
    rewrite (IH vs _ _ _ e); [| rewrite gemini_length_trace_log; exact Hrest].
    rewrite extend_log. reflexivity.
Qed.

(** One or the other. *)
Lemma embed_outcome env chunks :
  forall t,
    (exists vs, embeds env t chunks vs) \/
    (exists vs e, embedding_fails env t chunks vs e).
Proof.
  induction chunks as [| chunk rest IH]; intros t.
  - left. exists []. exact I.
  - destruct (get_embeddings env t chunk) as [v | e] eqn:Hv.
    + destruct (IH (S t)) as [[vs H] | (vs & e & H)].
      * left. exists (v :: vs). split; assumption.
      * right. exists (v :: vs), e. split; assumption.
    + right. exists [], e. exact Hv.
Qed.

End GeminiLoop.

Module GroqLoop.
Import Monad Groq.

Lemma insert_embedding_run env row w :
  insert_embedding env row w =
  match db_fault env (length (trace w)) with
  | Some e => (Raise e, log EvFault w)
  | None =>
      (Ok tt,
       set_embeddings (fun t => t ++ [row])
         (log (EvInsertEmbedding (document_id row) (content row)) w))
  end.
Proof.
  unfold insert_embedding, bind. rewrite GroqRun.call_run.
  destruct (db_fault env (length (trace w))); reflexivity.
Qed.

Lemma groq_length_trace_log e w :
  length (trace (log e w)) = S (length (trace w)).
Proof. simpl. rewrite length_app. simpl. lia. Qed.

(** One turn of the loop that succeeds. *)
Lemma store_chunks_step env doc_id chunk rest v w :
  encode env (length (trace w)) chunk = Ok v ->
  db_fault env (S (length (trace w))) = None ->
  store_chunks env doc_id (chunk :: rest) w =
  store_chunks env doc_id rest
    (set_embeddings
       (fun t => t ++ [ {| document_id := doc_id; content := chunk;
                           embedding := v |} ])
       (log (EvInsertEmbedding doc_id chunk) (log (EvEmbed chunk) w))).
Proof.
  intros Hv Hdb. cbn [store_chunks]. unfold bind at 1.
  rewrite GroqRun.embed_text_run, Hv. unfold bind at 1.
  rewrite insert_embedding_run, groq_length_trace_log, Hdb. reflexivity.
Qed.

(** Every chunk is encoded and inserted. *)
Lemma store_chunks_ok env doc_id chunks :
  forall vs w,
    stores_chunks env (length (trace w)) chunks vs ->
    exists w',
      store_chunks env doc_id chunks w = (Ok tt, w') /\
      embeddings w' = embeddings w ++ rows doc_id chunks vs /\
      documents w' = documents w /\ folder w' = folder w /\
      exists evs, trace w' = trace w ++ evs /\ texts_embedded evs = chunks.
Proof.
  induction chunks as [| chunk rest IH]; intros [| v vs] w H;
    simpl in H; try contradiction.
  - exists w. simpl. rewrite !app_nil_r. repeat split.
    exists []. rewrite app_nil_r. auto.
  - destruct H as (Hv & Hdb & Hrest).
    rewrite (store_chunks_step env doc_id chunk rest v w Hv Hdb).
    edestruct (IH vs) as (w' & Hrun & Hemb & Hdoc & Hfold & evs & Ht & Hevs);
      [| exists w'; split; [exact Hrun |]].
    + simpl. rewrite !length_app. simpl.
      replace (length (trace w) + 1 + 1)%nat with (S (S (length (trace w))))
        by lia.
      exact Hrest.
    + rewrite Hemb, Hdoc, Hfold, Ht. simpl.
      rewrite <- !app_assoc. repeat split.
      exists ([EvEmbed chunk; EvInsertEmbedding doc_id chunk] ++ evs).
      split; [reflexivity |]. simpl. rewrite Hevs. reflexivity.
Qed.

(** A turn fails: the rows inserted before it stay, and nothing else. *)
Lemma store_chunks_fails env doc_id chunks :
  forall vs w e,
    loop_fails env (length (trace w)) chunks vs e ->
    exists w',
      store_chunks env doc_id chunks w = (Raise e, w') /\
      embeddings w' = embeddings w ++ rows doc_id chunks vs /\
      documents w' = documents w /\ folder w' = folder w /\
      texts_embedded (trace w') =
        texts_embedded (trace w) ++ take (S (length vs)) chunks.
Proof.
  induction chunks as [| chunk rest IH]; intros vs w e H;
    [destruct vs; contradiction |].
  destruct vs as [| v vs]; simpl in H.
  - cbn [store_chunks]. unfold bind at 1. rewrite GroqRun.embed_text_run.
    destruct H as [Hv | (v & Hv & Hdb)]; rewrite Hv.
    + eexists. split; [reflexivity |]. simpl.
      unfold texts_embedded. rewrite flat_map_app. simpl.
      rewrite take_0, app_nil_r. auto.
    + unfold bind at 1.
      rewrite insert_embedding_run, groq_length_trace_log, Hdb.
      eexists. split; [reflexivity |]. simpl.
      unfold texts_embedded. rewrite !flat_map_app. simpl.
      rewrite take_0, !app_nil_r. auto.
  - destruct H as (Hv & Hdb & Hrest).
    rewrite (store_chunks_step env doc_id chunk rest v w Hv Hdb).
    edestruct (IH vs) as (w' & Hrun & Hemb & Hdoc & Hfold & Htexts);
      [| exists w'; split; [exact Hrun |]].
    + simpl. rewrite !length_app. simpl.
      replace (length (trace w) + 1 + 1)%nat with (S (S (length (trace w))))
        by lia.
      exact Hrest.
    + rewrite Hemb, Hdoc, Hfold, Htexts. simpl.
      unfold texts_embedded. rewrite !flat_map_app. simpl.
      rewrite <- !app_assoc. auto.
Qed.

Lemma loop_outcome env chunks :
  forall t,
    (exists vs, stores_chunks env t chunks vs) \/
    (exists vs e, loop_fails env t chunks vs e).
Proof.
  induction chunks as [| chunk rest IH]; intros t.
  - left. exists []. exact I.
  - destruct (encode env t chunk) as [v | e] eqn:Hv;
      [| right; exists [], e; left; exact Hv].
    destruct (db_fault env (S t)) as [e |] eqn:Hdb;
      [right; exists [], e; right; exists v; auto |].
    destruct (IH (S (S t))) as [[vs H] | (vs & e & H)].
    + left. exists (v :: vs). repeat split; assumption.
    + right. exists (v :: vs), e. repeat split; assumption.
Qed.

End GroqLoop.

Module GroqWrites.
Import Monad Groq.

Lemma call_keeps_embeddings fault ev :
  Monad.frames embeddings (call fault ev).
Proof. unfold call, now. repeat frame_step. Qed.

Lemma store_upload_keeps_embeddings env pdf :
  Monad.frames embeddings (store_upload env pdf).
Proof.
  unfold store_upload, save, insert_document, now.
  repeat (apply call_keeps_embeddings || frame_step).
Qed.

Lemma extract_keeps_embeddings env path :
  Monad.frames embeddings (extract_text_from_pdf env path).
Proof.
  unfold extract_text_from_pdf, read_file.
  repeat (apply call_keeps_embeddings || frame_step).
Qed.

End GroqWrites.

Lemma gemini_commits_of_embeds texts :
  Gemini.commits (map Gemini.EvEmbed texts) = [].
Proof. induction texts as [| t texts IH]; [reflexivity | exact IH]. Qed.

(** C5.  Gemini variant: when an embedding call of the per-chunk loop
    fails, [create_and_store_embeddings] returns [False]; the chunks after
    the failing one are never sent to the model, no batch is committed, and
    the embedding and document stores are as before, so a document that had
    no embedding record has none.  Groq variant: each row is inserted as
    soon as its chunk is encoded, so when a turn of the loop fails the
    table holds, beyond what it held, exactly the rows of the chunks
    encoded before it; [upload_pdf] then answers 500. *)
Theorem embedding_failure_mid_loop :
  (forall env document_id text_content vs e w,
     Gemini.embedding_model_ok env = true ->
     Gemini.firebase_ok env = true ->
     let chunks := split_text (Gemini.lib env) 1000 100 text_content in
     Gemini.embedding_fails env (length (Gemini.trace w)) chunks vs e ->
     let run :=
       Gemini.create_and_store_embeddings env document_id text_content w in
     fst run = Ok false /\
     Gemini.trace (snd run) =
       Gemini.trace w ++ map Gemini.EvEmbed (take (S (length vs)) chunks) /\
     Gemini.commits (Gemini.trace (snd run)) = Gemini.commits (Gemini.trace w)
     /\
     Gemini.embeddings (snd run) = Gemini.embeddings w /\
     Gemini.documents (snd run) = Gemini.documents w /\
     (Gemini.subcollection document_id w = ∅ ->
      Gemini.subcollection document_id (snd run) = ∅)) /\
  (forall env doc_id chunks vs e w,
     Groq.loop_fails env (length (Groq.trace w)) chunks vs e ->
     let run := Groq.store_chunks env doc_id chunks w in
     fst run = Raise e /\
     Groq.embeddings (snd run) =
       Groq.embeddings w ++ Groq.rows doc_id chunks vs /\
     Groq.texts_embedded (Groq.trace (snd run)) =
       Groq.texts_embedded (Groq.trace w) ++ take (S (length vs)) chunks) /\
  (forall env req f w doc_id path w1 text w2 vs e,
     files req !! u "pdf_file" = Some f ->
     filename f <> [] ->
     Groq.store_upload env f w = (Ok (doc_id, path), w1) ->
     Groq.extract_text_from_pdf env path w1 = (Ok text, w2) ->
     let chunks := split_text (Groq.lib env) 1000 100 text in
     Groq.loop_fails env (length (Groq.trace w2)) chunks vs e ->
     let run := Groq.upload_pdf env req w in
     fst run = Ok (Jsonify 500 [(u "error", exn_str e)]) /\
     Groq.embeddings (snd run) =
       Groq.embeddings w ++ Groq.rows doc_id chunks vs).
Proof.
  split; [| split].
  - intros env document_id text_content vs e w Hem Hfb chunks Hfail run.
    assert (Hrun : run =
      (Ok false,
       Gemini.extend (map Gemini.EvEmbed (take (S (length vs)) chunks)) w)).
    { subst run. unfold Gemini.create_and_store_embeddings.
      rewrite Hem. simpl. unfold Monad.try_except, Monad.bind.
      unfold Gemini.handle. rewrite Hfb. simpl.
      fold chunks.
      rewrite (GeminiLoop.embed_chunks_fails env chunks vs 0 [] w e Hfail).
      reflexivity. }
    rewrite Hrun. simpl. repeat split.
    + unfold Gemini.commits at 1. rewrite flat_map_app.
      fold (Gemini.commits (map Gemini.EvEmbed (take (S (length vs)) chunks))).
      rewrite gemini_commits_of_embeds, app_nil_r. reflexivity.
    + intros Hzero. exact Hzero.
  - intros env doc_id chunks vs e w Hfail run. subst run.
    destruct (GroqLoop.store_chunks_fails env doc_id chunks vs w e Hfail)
      as (w' & -> & Hemb & _ & _ & Htexts).
    simpl. auto.
  - intros env req f w doc_id path w1 text w2 vs e Hf Hname Hstore Hext
      chunks Hfail run.
    destruct (GroqLoop.store_chunks_fails env doc_id chunks vs w2 e Hfail)
      as (w' & Hloop & Hemb & _ & _ & _).
    assert (Hrun : run = (Ok (Jsonify 500 [(u "error", exn_str e)]), w')).
    { subst run. unfold Groq.upload_pdf, Monad.try_except. rewrite Hf.
      destruct (filename f) as [| c name]; [congruence |]. simpl.
      unfold Monad.bind at 1. rewrite Hstore.
      unfold Groq.ingest, Monad.bind. rewrite Hext. fold chunks.
      rewrite Hloop. reflexivity. }
    rewrite Hrun. simpl. split; [reflexivity |].
    rewrite Hemb.
    pose proof (GroqWrites.store_upload_keeps_embeddings env f w) as H1.
    pose proof (GroqWrites.extract_keeps_embeddings env path w1) as H2.
    rewrite Hstore in H1. rewrite Hext in H2. simpl in H1, H2.
    rewrite H2, H1. reflexivity.
Qed.

(** On the demo environment, a text of three chunks, the second embedding
    call failing: nothing is stored by the gemini variant, the first chunk
    is stored by the groq variant. *)
Lemma embedding_failure_mid_loop_witness :
  let genv := Demo.gemini_embed_fails_at 1 in
  let grun :=
    Gemini.create_and_store_embeddings genv (u "doc-0") Demo.long_text
      Demo.gemini_world in
  let qenv := Demo.groq_encode_fails_at 5 in
  let qrun :=
    Groq.upload_pdf qenv (Demo.upload "long.pdf" (u "%PDF" ++ Demo.long_text))
      Demo.groq_world in
  (fst grun = Ok false /\
   Gemini.texts_embedded (Gemini.trace (snd grun)) =
     [repeat 97 1000; repeat 97 1000] /\
   Gemini.embeddings (snd grun) = ∅) /\
  (fst qrun = Ok (Jsonify 500 [(u "error", u "CUDA out of memory")]) /\
   Groq.embeddings (snd qrun) =
     [ {| Groq.document_id := u "doc-0"; Groq.content := repeat 97 1000;
          Groq.embedding := [1000%Z] |} ]).
Proof.
  intros genv grun qenv qrun.
  destruct embedding_failure_mid_loop as (Hgemini & Hloop & Hupload).
  split.
  - destruct (Hgemini genv (u "doc-0") Demo.long_text [[1000%Z]]
                (ServiceError (u "429 Quota exceeded")) Demo.gemini_world)
      as (Hret & Htrace & _ & Hemb & _); try reflexivity.
    { vm_compute. split; reflexivity. }
    fold grun in Hret, Htrace, Hemb. rewrite Hret, Htrace, Hemb.
    split; [reflexivity | split; [vm_compute; reflexivity | reflexivity]].
  - pose (f := {| filename := u "long.pdf";
                  content := u "%PDF" ++ Demo.long_text |}).
    pose (w1 := snd (Groq.store_upload qenv f Demo.groq_world)).
    pose (w2 :=
      snd (Groq.extract_text_from_pdf qenv (u "uploads/doc-0_long.pdf") w1)).
    assert (Hfail :
      Groq.loop_fails qenv (length (Groq.trace w2))
        (split_text (Groq.lib qenv) 1000 100 Demo.long_text) [[1000%Z]]
        (RuntimeError (u "CUDA out of memory"))).
    { vm_compute. split; [reflexivity | split; [reflexivity | left]].
      reflexivity. }
    assert (Hname : filename f <> []) by discriminate.
    destruct (Hupload qenv (Demo.upload "long.pdf" (u "%PDF" ++ Demo.long_text))
                f Demo.groq_world (u "doc-0") (u "uploads/doc-0_long.pdf")
                w1 Demo.long_text w2 [[1000%Z]]
                (RuntimeError (u "CUDA out of memory"))
                eq_refl Hname)
      as (Hret & Hemb);
      [vm_compute; reflexivity | vm_compute; reflexivity | exact Hfail |].
    fold qrun in Hret, Hemb. rewrite Hret, Hemb.
    split; [reflexivity | vm_compute; reflexivity].
Defined.

(** ** C6: the status of a document *)

Module GeminiStatus.
Import Monad Gemini.

Lemma status_writes_app evs evs' :
  status_writes (evs ++ evs') = status_writes evs ++ status_writes evs'.
Proof. apply flat_map_app. Qed.

Lemma status_writes_of_embeds texts :
  status_writes (map EvEmbed texts) = [].
Proof. induction texts as [| t texts IH]; [reflexivity | exact IH]. Qed.

Lemma quiet_here {A} (r : Result A) w :
  documents (snd (r, w)) = documents w /\
  exists evs, trace (snd (r, w)) = trace w ++ evs /\ status_writes evs = [].
Proof. split; [reflexivity |]. exists []. rewrite app_nil_r. auto. Qed.

Lemma quiet_same (w : World) :
  documents w = documents w /\
  exists evs, trace w = trace w ++ evs /\ status_writes evs = [].
Proof. split; [reflexivity |]. exists []. rewrite app_nil_r. auto. Qed.

Lemma quiet_ret {A} (a : A) : quiet (ret a).
Proof. intros w. apply quiet_here. Qed.

Lemma quiet_raise {A} e : quiet (@raise World A e).
Proof. intros w. apply quiet_here. Qed.

Lemma quiet_lift {A} (r : Result A) : quiet (lift r).
Proof. intros w. apply quiet_here. Qed.

Lemma quiet_gets {A} (f : World -> A) : quiet (gets f).
Proof. intros w. apply quiet_here. Qed.

Lemma quiet_log ev : status_writes [ev] = [] -> quiet (modify (log ev)).
Proof.
  intros Hev w. split; [reflexivity |]. exists [ev]. auto.
Qed.

Lemma quiet_bind {A B} (m : M World A) (k : A -> M World B) :
  quiet m -> (forall a, quiet (k a)) -> quiet (bind m k).
Proof.
  intros Hm Hk w. unfold bind. destruct (Hm w) as (Hd & evs & Ht & Hs).
  destruct (m w) as [[a | e] w1]; simpl in *.
  - destruct (Hk a w1) as (Hd' & evs' & Ht' & Hs'). split.
    + rewrite Hd'. exact Hd.
    + exists (evs ++ evs'). rewrite Ht', Ht, <- app_assoc.
      rewrite status_writes_app, Hs, Hs'. auto.
  - split; [exact Hd |]. exists evs. auto.
Qed.

Lemma quiet_try_except {A} (m : M World A) (h : exn -> M World A) :
  quiet m -> (forall e, quiet (h e)) -> quiet (try_except m h).
Proof.
  intros Hm Hh w. unfold try_except.
  destruct (Hm w) as (Hd & evs & Ht & Hs).
  destruct (m w) as [[a | e] w1]; simpl in *.
  - split; [exact Hd |]. exists evs. auto.
  - destruct (Hh e w1) as (Hd' & evs' & Ht' & Hs'). split.
    + rewrite Hd'. exact Hd.
    + exists (evs ++ evs'). rewrite Ht', Ht, <- app_assoc.
      rewrite status_writes_app, Hs, Hs'. auto.
Qed.

End GeminiStatus.

Ltac quiet_step :=
  first
    [ apply GeminiStatus.quiet_ret | apply GeminiStatus.quiet_raise
    | apply GeminiStatus.quiet_lift | apply GeminiStatus.quiet_gets
    | apply GeminiStatus.quiet_log; reflexivity
    | apply GeminiStatus.quiet_bind; [ | intros ]
    | apply GeminiStatus.quiet_try_except; [ | intros ]
    | match goal with
      | |- Gemini.quiet (if ?b then _ else _) => destruct b
      | |- Gemini.quiet (match ?x with _ => _ end) => destruct x
      end ].

Module GeminiQuiet.
Import Monad Gemini GeminiStatus.

Lemma handle_quiet env : quiet (handle env).
Proof. unfold handle. repeat quiet_step. Qed.

(** A request that is not a write to [documents]. *)
Lemma request_quiet env ev :
  status_writes [ev] = [] -> quiet (request env ev).
Proof.
  intros Hev. unfold request, now.
  repeat (apply handle_quiet || quiet_step).
  apply quiet_log. exact Hev.
Qed.

Lemma extract_text_from_pdf_quiet env document_id :
  quiet (extract_text_from_pdf env document_id).
Proof.
  unfold extract_text_from_pdf, doc_get, blob_download.
  repeat first [apply request_quiet; reflexivity | quiet_step].
Qed.

(** The same, at a world. *)
Lemma extract_text_from_pdf_quiet_at env document_id w :
  documents (snd (extract_text_from_pdf env document_id w)) = documents w /\
  exists evs,
    trace (snd (extract_text_from_pdf env document_id w)) = trace w ++ evs /\
    status_writes evs = [].
Proof. apply extract_text_from_pdf_quiet. Qed.

End GeminiQuiet.

Module GeminiPipeline.
Import Monad Gemini GeminiStatus.

Lemma records_length env chunks :
  forall t vs i,
    embeds env t chunks vs -> length (records i chunks vs) = length chunks.
Proof.
  induction chunks as [| chunk rest IH]; intros t [| v vs] i H;
    simpl in H; try contradiction; [reflexivity |].
  destruct H as [_ H]. simpl. rewrite (IH (S t) vs (S i) H). reflexivity.
Qed.

(** Either the whole pipeline ran, or [False] is returned, [documents] is
    as before and the run added no status write to the log. *)
Lemma create_and_store_embeddings_elim env document_id text_content w
  (P : Result bool * World -> Prop) :
  let chunks := split_text (lib env) 1000 100 text_content in
  (forall w',
     documents w' = documents w ->
     (exists evs, trace w' = trace w ++ evs /\ status_writes evs = []) ->
     P (Ok false, w')) ->
  (forall vs d,
     embeds env (length (trace w)) chunks vs ->
     documents w !! document_id = Some d ->
     P (Ok true, processed document_id d chunks vs w)) ->
  P (create_and_store_embeddings env document_id text_content w).
Proof.
  intros chunks Hfalse Htrue.
  assert (Hstay : P (Ok false, w)).
  { apply Hfalse; apply quiet_same. }
  unfold create_and_store_embeddings.
  destruct (embedding_model_ok env); simpl; [| exact Hstay].
  fold chunks. unfold try_except. unfold bind at 1, handle.
  destruct (firebase_ok env) eqn:Hfb; [| exact Hstay].
  cbn [ret]. unfold bind at 1.
  destruct (GeminiLoop.embed_outcome env chunks (length (trace w)))
    as [[vs H] | (vs & e & H)].
  - rewrite (GeminiLoop.embed_chunks_ok env chunks vs 0 [] w H).
    unfold bind at 1, batch_commit. unfold bind at 1.
    rewrite GeminiRun.request_run, Hfb.
    destruct (storage_fault env _) as [e |] eqn:Hcommit.
    + apply Hfalse; [reflexivity |]. simpl.
      exists (map EvEmbed chunks ++ [EvFault]).
      rewrite <- app_assoc, status_writes_app, status_writes_of_embeds. auto.
    + unfold modify at 1. cbn iota beta.
      unfold doc_update_status, handle. rewrite Hfb.
      unfold bind, now, gets, ret, modify, raise. cbn [fst snd].
      match goal with
      | |- context [storage_fault env ?t] =>
          destruct (storage_fault env t) as [e |] eqn:Hupdate
      end.
      * apply Hfalse; [reflexivity |]. simpl.
        eexists. rewrite <- !app_assoc. split; [reflexivity |].
        rewrite status_writes_app, status_writes_of_embeds. reflexivity.
      * simpl. destruct (documents w !! document_id) as [d |] eqn:Hdoc.
        -- specialize (Htrue vs d H eq_refl).
           simpl. rewrite (records_length env chunks _ vs 0 H).
           match goal with
           | |- P (_, ?w') =>
               replace w' with (processed document_id d chunks vs w);
                 [exact Htrue |]
           end.
           unfold processed, set_documents, log, set_embeddings, extend,
             subcollection.
           simpl. rewrite <- !app_assoc. reflexivity.
        -- apply Hfalse; [reflexivity |]. simpl.
           eexists. rewrite <- !app_assoc. split; [reflexivity |].
           rewrite status_writes_app, status_writes_of_embeds. reflexivity.
  - rewrite (GeminiLoop.embed_chunks_fails env chunks vs 0 [] w e H).
    apply Hfalse; [reflexivity |]. simpl.
    eexists. split; [reflexivity |]. apply status_writes_of_embeds.
Qed.

End GeminiPipeline.

Module GeminiUpload.
Import Monad Gemini GeminiStatus.

(** The storing phase fails without a write to [documents], or sets the
    record of the new identifier, its status [uploaded]. *)
Lemma store_upload_elim env pdf_file w (P : Result str * World -> Prop) :
  let id := uuid4 env (length (trace w)) in
  (forall e w',
     documents w' = documents w ->
     (exists evs, trace w' = trace w ++ evs /\ status_writes evs = []) ->
     P (Raise e, w')) ->
  (forall w' d path,
     documents w' = <[id := d]> (documents w) ->
     status d = status_uploaded ->
     trace w' = trace w ++ [EvBlobUpload path; EvDocSet id status_uploaded] ->
     P (Ok id, w')) ->
  P (store_upload env pdf_file w).
Proof.
  intros id Hfail Hok.
  unfold store_upload, blob_upload, doc_set.
  unfold bind at 1, now, gets. cbn iota beta. fold id.
  unfold bind at 1. unfold bind at 1.
  rewrite GeminiRun.request_run.
  destruct (firebase_ok env) eqn:Hfb; [| apply Hfail; apply quiet_same].
  destruct (storage_fault env (length (trace w))) as [e |].
  { apply Hfail; [reflexivity |]. exists [EvFault]. auto. }
  unfold modify at 1. cbn iota beta.
  unfold bind at 1. cbn iota beta.
  unfold bind at 1. unfold bind at 1. cbn [status].
  rewrite GeminiRun.request_run, Hfb.
  destruct (storage_fault env _) as [e |].
  { apply Hfail; [reflexivity |]. simpl. eexists.
    rewrite <- !app_assoc. split; reflexivity. }
  unfold modify, bind, ret. cbn iota beta.
  eapply Hok; simpl.
  - reflexivity.
  - reflexivity.
  - rewrite <- !app_assoc. reflexivity.
Qed.

(** The three ways a request can go, by what it wrote to [documents]. *)
Lemma upload_pdf_elim env req w (P : Result Response * World -> Prop) :
  let id := uuid4 env (length (trace w)) in
  (forall r w',
     documents w' = documents w ->
     (exists evs, trace w' = trace w ++ evs /\ status_writes evs = []) ->
     P (Ok r, w')) ->
  (forall r w' d evs,
     trace w' = trace w ++ evs ->
     status_writes evs = [(id, status_uploaded)] ->
     documents w' !! id = Some d ->
     status d = status_uploaded ->
     P (Ok r, w')) ->
  (forall r w' d pre chunks,
     trace w' =
       trace w ++ pre ++ map EvEmbed chunks
       ++ [EvBatchCommit id (length chunks); EvDocUpdate id status_processed] ->
     status_writes pre = [(id, status_uploaded)] ->
     documents w' !! id = Some d ->
     status d = status_processed ->
     P (Ok r, w')) ->
  P (upload_pdf env req w).
Proof.
  intros id Hnone Huploaded Hprocessed.
  assert (Hrejected : forall r, P (Ok r, w)).
  { intros r. apply Hnone; apply quiet_same. }
  unfold upload_pdf.
  destruct (files req !! u "pdf_file") as [pdf_file |]; [| apply Hrejected].
  destruct (str_eqb (filename pdf_file) []); [apply Hrejected |].
  destruct (truthy (filename pdf_file)
            && endswith (filename pdf_file) (u ".pdf"));
    [| apply Hrejected].
  unfold try_except. unfold bind at 1.
  pattern (store_upload env pdf_file w). apply store_upload_elim; fold id.
  { intros e w' Hd Hq. apply Hnone; assumption. }
  intros w1 d path Hd1 Hst1 Ht1.
  assert (Hlookup1 : documents w1 !! id = Some d)
    by (rewrite Hd1; apply lookup_insert_eq).
  unfold bind at 1, embedding_process. unfold bind at 1.
  destruct (GeminiQuiet.extract_text_from_pdf_quiet_at env id w1)
    as (Hd2 & evs2 & Ht2 & Hs2).
  destruct (extract_text_from_pdf env id w1) as [[text | e] w2];
    simpl in Hd2, Ht2.
  2: { eapply (Huploaded _ w2 d ([_; _] ++ evs2)).
       - rewrite Ht2, Ht1, <- app_assoc. reflexivity.
       - rewrite status_writes_app, Hs2. reflexivity.
       - rewrite Hd2. exact Hlookup1.
       - exact Hst1. }
  assert (Hskip : forall r,
    P (Ok r, w2)).
  { intros r. eapply (Huploaded _ w2 d ([_; _] ++ evs2)).
    - rewrite Ht2, Ht1, <- app_assoc. reflexivity.
    - rewrite status_writes_app, Hs2. reflexivity.
    - rewrite Hd2. exact Hlookup1.
    - exact Hst1. }
  destruct text as [text |]; [| apply Hskip].
  destruct (truthy text); [| apply Hskip].
  unfold bind at 1.
  pattern (create_and_store_embeddings env id text w2).
  apply GeminiPipeline.create_and_store_embeddings_elim.
  - intros w3 Hd3 (evs3 & Ht3 & Hs3).
    eapply (Huploaded _ w3 d (([_; _] ++ evs2) ++ evs3)).
    + rewrite Ht3, Ht2, Ht1, <- !app_assoc. reflexivity.
    + rewrite !status_writes_app, Hs2, Hs3. reflexivity.
    + rewrite Hd3, Hd2. exact Hlookup1.
    + exact Hst1.
  - intros vs d2 Hvs Hdoc2.
    eapply (Hprocessed _ _ (with_status status_processed d2)
              ([_; _] ++ evs2)).
    + simpl. rewrite Ht2, Ht1, <- !app_assoc. reflexivity.
    + rewrite status_writes_app, Hs2. reflexivity.
    + simpl. apply lookup_insert_eq.
    + reflexivity.
Qed.

End GeminiUpload.

(** C6.  Gemini variant.  The storing phase of an upload writes the record
    with status [uploaded].  A run of [create_and_store_embeddings] either
    returns [False], leaving [documents] as it was and writing no status, or
    returns [True] after every chunk was embedded, the batch of all the
    records committed and, last, the status set to [processed].  So the
    statuses one upload request writes are none, or [uploaded], or
    [uploaded] then [processed] for the same new identifier, the second
    write coming right after the commit of the batch.  The other handlers
    leave [documents] as it is. *)
Theorem document_status_lifecycle :
  (forall env pdf_file w doc_id w1,
     Gemini.store_upload env pdf_file w = (Ok doc_id, w1) ->
     exists d,
       Gemini.documents w1 !! doc_id = Some d /\
       Gemini.status d = u "uploaded") /\
  (forall env document_id text_content w,
     let chunks := split_text (Gemini.lib env) 1000 100 text_content in
     let run :=
       Gemini.create_and_store_embeddings env document_id text_content w in
     (fst run = Ok false /\
      Gemini.documents (snd run) = Gemini.documents w /\
      exists evs,
        Gemini.trace (snd run) = Gemini.trace w ++ evs /\
        Gemini.status_writes evs = []) \/
     (exists vs d,
        Gemini.embeds env (length (Gemini.trace w)) chunks vs /\
        Gemini.documents w !! document_id = Some d /\
        run = (Ok true, Gemini.processed document_id d chunks vs w))) /\
  (forall env req w,
     let run := Gemini.upload_pdf env req w in
     let id := Gemini.uuid4 env (length (Gemini.trace w)) in
     exists evs,
       Gemini.trace (snd run) = Gemini.trace w ++ evs /\
       ((Gemini.status_writes evs = [] /\
         Gemini.documents (snd run) = Gemini.documents w) \/
        (Gemini.status_writes evs = [(id, u "uploaded")] /\
         exists d,
           Gemini.documents (snd run) !! id = Some d /\
           Gemini.status d = u "uploaded") \/
        (Gemini.status_writes evs = [(id, u "uploaded"); (id, u "processed")]
         /\
         (exists d,
            Gemini.documents (snd run) !! id = Some d /\
            Gemini.status d = u "processed") /\
         exists pre chunks,
           evs =
             pre ++ map Gemini.EvEmbed chunks
             ++ [Gemini.EvBatchCommit id (length chunks);
                 Gemini.EvDocUpdate id (u "processed")]))) /\
  (forall env doc_id req w,
     Gemini.documents (snd (Gemini.get_pdf_text env doc_id w))
       = Gemini.documents w /\
     Gemini.documents (snd (Gemini.summarize_pdf env doc_id w))
       = Gemini.documents w /\
     Gemini.documents (snd (Gemini.generate_flashcards env doc_id w))
       = Gemini.documents w /\
     Gemini.documents (snd (Gemini.ask_question env doc_id req w))
       = Gemini.documents w).
Proof.
  split; [| split; [| split]]; cycle 3.
  { intros env doc_id req w.
    pose proof (GeminiFrame.get_pdf_text_frames env doc_id w) as H1.
    pose proof (GeminiFrame.summarize_pdf_frames env doc_id w) as H2.
    pose proof (GeminiFrame.generate_flashcards_frames env doc_id w) as H3.
    pose proof (GeminiFrame.gemini_ask_question_frames env doc_id req w) as H4.
    unfold Gemini.stores in *.
    apply (f_equal (fun p => snd (fst p))) in H1, H2, H3, H4.
    simpl in *. auto. }
  - intros env pdf_file w doc_id w1.
    pattern (Gemini.store_upload env pdf_file w).
    apply GeminiUpload.store_upload_elim.
    + intros e w' _ _ H. discriminate.
    + intros w' d path Hd Hst _ H. inversion H; subst. exists d.
      rewrite Hd. split; [apply lookup_insert_eq | exact Hst].
  - intros env document_id text_content w chunks run. subst run.
    pattern (Gemini.create_and_store_embeddings env document_id text_content w).
    apply GeminiPipeline.create_and_store_embeddings_elim.
    + intros w' Hd Hq. left. auto.
    + intros vs d Hvs Hdoc. right. exists vs, d. auto.
  - intros env req w run id. subst run.
    pattern (Gemini.upload_pdf env req w).
    apply GeminiUpload.upload_pdf_elim; fold id.
    + intros r w' Hd (evs & Ht & Hs). exists evs. split; [exact Ht |].
      left. auto.
    + intros r w' d evs Ht Hs Hd Hst. exists evs. split; [exact Ht |].
      right. left. split; [exact Hs |]. exists d. auto.
    + intros r w' d pre chunks Ht Hs Hd Hst. eexists. split; [exact Ht |].
      right. right. split; [| split].
      * rewrite !GeminiStatus.status_writes_app, Hs,
          GeminiStatus.status_writes_of_embeds.
        reflexivity.
      * exists d. auto.
      * exists pre, chunks. reflexivity.
Qed.

(** On the demo environment: the record written by the storing phase. *)
Lemma document_status_lifecycle_witness :
  exists d,
    Gemini.documents
      (snd (Gemini.store_upload (Demo.gemini (u "ok"))
              {| filename := u "bio.pdf"; content := Demo.sample_pdf |}
              Demo.gemini_world))
      !! u "doc-0" = Some d /\
    Gemini.status d = u "uploaded".
Proof.
  apply (proj1 document_status_lifecycle (Demo.gemini (u "ok"))
           {| filename := u "bio.pdf"; content := Demo.sample_pdf |}
           Demo.gemini_world (u "doc-0")).
  vm_compute. reflexivity.
Defined.

(** * Further properties of the handlers *)

(** ** Uploads: the answer, and reading back what was stored *)

Module GeminiStore.
Import Monad Gemini.

(** The path under which an upload is stored. *)
Lemma store_upload_inv env pdf_file w doc_id w1 :
  store_upload env pdf_file w = (Ok doc_id, w1) ->
  let path :=
    u "uploads/" ++ temp_user_id ++ u "/" ++ doc_id ++ u "/"
    ++ filename pdf_file in
  firebase_ok env = true /\
  doc_id = uuid4 env (length (trace w)) /\
  w1 =
    {| bucket := <[path := content pdf_file]> (bucket w);
       documents :=
         <[doc_id :=
             {| user_id := temp_user_id; file_name := filename pdf_file;
                storage_path := path;
                created_at := utcnow env (S (length (trace w)));
                status := status_uploaded |}]> (documents w);
       embeddings := embeddings w;
       trace := trace w ++ [EvBlobUpload path; EvDocSet doc_id status_uploaded]
    |}.
Proof.
  unfold store_upload, blob_upload, doc_set.
  unfold bind at 1, now, gets. cbn iota beta.
  unfold bind at 1. unfold bind at 1.
  rewrite GeminiRun.request_run.
  destruct (firebase_ok env) eqn:Hfb; [| discriminate].
  destruct (storage_fault env (length (trace w))) as [e |]; [discriminate |].
  unfold modify at 1. cbn iota beta.
  unfold bind at 1. cbn iota beta.
  unfold bind at 1. unfold bind at 1. cbn [status].
  rewrite GeminiRun.request_run, Hfb.
  destruct (storage_fault env _) as [e |]; [discriminate |].
  unfold modify, bind, ret. cbn iota beta.
  intros H. inversion H; subst. cbn zeta.
  split; [reflexivity |]. split; [reflexivity |].
  unfold set_documents, set_bucket, log. simpl.
  rewrite length_app, <- app_assoc. simpl.
  rewrite Nat.add_1_r. reflexivity.
Qed.

(** The storing phase when neither request fails. *)
Lemma store_upload_ok env pdf_file w :
  firebase_ok env = true ->
  storage_fault env (length (trace w)) = None ->
  storage_fault env (S (length (trace w))) = None ->
  exists w1,
    store_upload env pdf_file w = (Ok (uuid4 env (length (trace w))), w1).
Proof.
  intros Hfb Hf0 Hf1.
  unfold store_upload, blob_upload, doc_set.
  unfold bind at 1, now, gets. cbn iota beta.
  unfold bind at 1. unfold bind at 1.
  rewrite GeminiRun.request_run, Hfb, Hf0.
  unfold modify at 1. cbn iota beta.
  unfold bind at 1. cbn iota beta.
  unfold bind at 1. unfold bind at 1. cbn [status].
  rewrite GeminiRun.request_run, Hfb.
  replace (length (trace (set_bucket
             (insert
                (u "uploads/" ++ temp_user_id ++ u "/"
                 ++ uuid4 env (length (trace w)) ++ u "/"
                 ++ filename pdf_file) (content pdf_file))
             (log (EvBlobUpload
                     (u "uploads/" ++ temp_user_id ++ u "/"
                      ++ uuid4 env (length (trace w)) ++ u "/"
                      ++ filename pdf_file)) w))))
    with (S (length (trace w)))
    by (simpl; rewrite length_app; simpl; lia).
  rewrite Hf1. unfold modify, bind, ret. cbn iota beta.
  eexists. reflexivity.
Qed.

(** Extraction when the record and the file are there, the two requests
    do not fail and every page is read. *)
Lemma gemini_extract_text_from_pdf_ok env document_id w d data pages text :
  firebase_ok env = true ->
  storage_fault env (length (trace w)) = None ->
  storage_fault env (S (length (trace w))) = None ->
  documents w !! document_id = Some d ->
  storage_path d <> [] ->
  bucket w !! storage_path d = Some data ->
  pdf_pages (lib env) data = Ok pages ->
  concat_pages pages [] = Ok text ->
  extract_text_from_pdf env document_id w =
  (Ok (Some text),
   extend [EvDocGet document_id; EvBlobDownload (storage_path d)] w).
Proof.
  intros Hfb Hf0 Hf1 Hdoc Hpath Hblob Hpdf Htext.
  unfold extract_text_from_pdf, try_except, doc_get.
  unfold bind at 1 2. rewrite GeminiRun.request_run, Hfb, Hf0.
  unfold gets. cbn iota beta.
  change (documents (log (EvDocGet document_id) w)) with (documents w).
  rewrite Hdoc.
  destruct (storage_path d) as [| c p] eqn:Hp; [congruence |].
  cbn [truthy negb]. cbv iota.
  unfold blob_download, bind. rewrite GeminiRun.request_run, Hfb.
  replace (length (trace (log (EvDocGet document_id) w)))
    with (S (length (trace w)))
    by (simpl; rewrite length_app; simpl; lia).
  rewrite Hf1. unfold gets, lift, ret. cbn iota beta.
  change (bucket (log (EvBlobDownload (c :: p))
                    (log (EvDocGet document_id) w)))
    with (bucket w).
  rewrite Hblob. cbn iota beta. rewrite Hpdf, Htext.
  unfold extend, log. simpl. rewrite <- app_assoc. reflexivity.
Qed.

(** The whole pipeline when nothing fails. *)
Lemma create_and_store_embeddings_ok env document_id text_content w d vs :
  let chunks := split_text (lib env) 1000 100 text_content in
  firebase_ok env = true ->
  embedding_model_ok env = true ->
  embeds env (length (trace w)) chunks vs ->
  storage_fault env (length (trace w) + length chunks) = None ->
  storage_fault env (S (length (trace w) + length chunks)) = None ->
  documents w !! document_id = Some d ->
  create_and_store_embeddings env document_id text_content w =
  (Ok true, processed document_id d chunks vs w).
Proof.
  intros chunks Hfb Hem Hvs Hcommit Hupdate Hdoc.
  unfold create_and_store_embeddings. rewrite Hem. cbn [negb]. cbv iota.
  fold chunks. unfold try_except. unfold bind at 1, handle. rewrite Hfb.
  cbn [ret]. unfold bind at 1.
  rewrite (GeminiLoop.embed_chunks_ok env chunks vs 0 [] w Hvs).
  unfold bind at 1, batch_commit. unfold bind at 1.
  rewrite GeminiRun.request_run, Hfb.
  replace (length (trace (extend (map EvEmbed chunks) w)))
    with (length (trace w) + length chunks)%nat
    by (simpl; rewrite length_app, length_map; reflexivity).
  rewrite Hcommit.
  unfold modify at 1. cbn iota beta.
  unfold doc_update_status, handle. rewrite Hfb.
  unfold bind, now, gets, ret, modify, raise. cbn [fst snd].
  cbn iota beta.
  match goal with
  | |- context [storage_fault env ?t] =>
      replace t with (S (length (trace w) + length chunks))%nat
        by (simpl; rewrite !length_app, length_map; simpl; lia)
  end.
  rewrite Hupdate. simpl. rewrite Hdoc.
  rewrite (GeminiPipeline.records_length env chunks _ vs 0 Hvs).
  unfold processed, set_documents, log, set_embeddings, extend, subcollection.
  simpl. rewrite <- !app_assoc. reflexivity.
Qed.

End GeminiStore.

Module GroqStore.
Import Monad Groq.

(** The storing phase, by the two faults that can stop it. *)
Lemma store_upload_run env pdf w :
  let doc_id := uuid4 env (length (trace w)) in
  let filename := doc_id ++ u "_" ++ Web.filename pdf in
  let path := path_join UPLOAD_FOLDER filename in
  store_upload env pdf w =
  match fs_fault env (length (trace w)) with
  | Some e => (Raise e, log EvFault w)
  | None =>
      match db_fault env (S (length (trace w))) with
      | Some e =>
          (Raise e,
           log EvFault
             (set_folder (insert path (Web.content pdf)) (log (EvSave path) w)))
      | None =>
          (Ok (doc_id, path),
           {| folder := <[path := Web.content pdf]> (folder w);
              documents :=
                documents w
                ++ [ {| id := doc_id; user_id := u "temp_user";
                        file_name := filename |} ];
              embeddings := embeddings w;
              trace := trace w ++ [EvSave path; EvInsertDocument doc_id] |})
      end
  end.
Proof.
  intros doc_id filename path.
  unfold store_upload, save, insert_document.
  unfold bind at 1, now, gets. cbn iota beta zeta.
  fold doc_id. fold filename. fold path.
  unfold bind at 1. unfold bind at 1. rewrite GroqRun.call_run.
  destruct (fs_fault env (length (trace w))) as [e |]; [reflexivity |].
  unfold modify at 1. cbn iota beta.
  unfold bind at 1. unfold bind at 1. rewrite GroqRun.call_run.
  replace (length (trace (set_folder (insert path (Web.content pdf))
                            (log (EvSave path) w))))
    with (S (length (trace w)))
    by (simpl; rewrite length_app; simpl; lia).
  destruct (db_fault env (S (length (trace w)))) as [e |]; [reflexivity |].
  unfold modify, bind, ret. cbn iota beta.
  unfold set_documents, set_folder, log. simpl.
  rewrite <- app_assoc. reflexivity.
Qed.

End GroqStore.

(** X1.  [upload_pdf] never lets an exception out, in either variant.  The
    gemini variant answers 400 to a rejected file without touching the
    world, 500 with the text of the exception when the storing phase
    raises, and 201 otherwise; the groq variant answers 400 without
    touching the world, 500 when storing or ingestion raises, and 200
    otherwise. *)
Theorem upload_is_always_answered :
  (forall env req w,
     exists resp w',
       Gemini.upload_pdf env req w = (Ok resp, w') /\
       match files req !! u "pdf_file" with
       | Some f =>
           if endswith (filename f) (u ".pdf") then
             match fst (Gemini.store_upload env f w) with
             | Ok doc_id => resp = Gemini.upload_success doc_id
             | Raise e =>
                 resp =
                   Jsonify 500
                     (Gemini.error_body
                        (u "An error occurred: " ++ exn_str e))
             end
           else status_code resp = 400%nat /\ w' = w
       | None => status_code resp = 400%nat /\ w' = w
       end) /\
  (forall env req w,
     exists resp w',
       Groq.upload_pdf env req w = (Ok resp, w') /\
       match files req !! u "pdf_file" with
       | Some f =>
           if truthy (filename f) then
             match Groq.store_upload env f w with
             | (Ok (doc_id, path), w1) =>
                 match fst (Groq.ingest env doc_id path w1) with
                 | Ok _ => resp = Groq.upload_success doc_id
                 | Raise e => resp = Jsonify 500 [(u "error", exn_str e)]
                 end
             | (Raise e, _) => resp = Jsonify 500 [(u "error", exn_str e)]
             end
           else status_code resp = 400%nat /\ w' = w
       | None => status_code resp = 400%nat /\ w' = w
       end).
Proof.
  split.
  - intros env req w. unfold Gemini.upload_pdf.
    destruct (files req !! u "pdf_file") as [f |];
      [| eexists _, _; repeat split].
    destruct (endswith (filename f) (u ".pdf")) eqn:Hext.
    + destruct (filename f) as [| c name] eqn:Hname; [discriminate |].
      simpl. unfold Monad.try_except, Monad.bind.
      destruct (Gemini.store_upload env f w) as [[doc_id | e] w1].
      * destruct (GeminiTotal.embedding_process_total env doc_id w1)
          as ([] & w2 & ->).
        eexists _, _. split; reflexivity.
      * eexists _, _. split; reflexivity.
    + rewrite andb_false_r.
      destruct (str_eqb (filename f) []); eexists _, _; repeat split.
  - intros env req w. unfold Groq.upload_pdf, Monad.try_except.
    destruct (files req !! u "pdf_file") as [f |];
      [| eexists _, _; repeat split].
    destruct (truthy (filename f)); simpl; [| eexists _, _; repeat split].
    unfold Monad.bind.
    destruct (Groq.store_upload env f w) as [[[doc_id path] | e] w1].
    + destruct (Groq.ingest env doc_id path w1) as [[[] | e] w2];
        eexists _, _; split; reflexivity.
    + eexists _, _. split; reflexivity.
Qed.

(** X2.  What was uploaded is what is read back.  Gemini variant: after a
    successful storing phase, when the two requests of the extraction do
    not fail, [extract_text_from_pdf] on the new identifier returns the
    text of the pages of the uploaded bytes ([None] when the reader or a
    page raises).  Groq variant: after a successful storing phase, when the
    file can be opened, [extract_text_from_pdf] on the returned path reads
    the uploaded bytes. *)
Theorem upload_then_extract :
  (forall env pdf_file w doc_id w1,
     Gemini.store_upload env pdf_file w = (Ok doc_id, w1) ->
     Gemini.storage_fault env (length (Gemini.trace w1)) = None ->
     Gemini.storage_fault env (S (length (Gemini.trace w1))) = None ->
     fst (Gemini.extract_text_from_pdf env doc_id w1) =
       match pdf_pages (Gemini.lib env) (content pdf_file) with
       | Ok pages =>
           match Gemini.concat_pages pages [] with
           | Ok text => Ok (Some text)
           | Raise _ => Ok None
           end
       | Raise _ => Ok None
       end) /\
  (forall env pdf w doc_id path w1,
     Groq.store_upload env pdf w = (Ok (doc_id, path), w1) ->
     Groq.fs_fault env (length (Groq.trace w1)) = None ->
     fst (Groq.extract_text_from_pdf env path w1) =
       match pdf_pages (Groq.lib env) (content pdf) with
       | Ok pages =>
           match Groq.page_texts pages with
           | Ok texts => Ok (join [ch_newline] texts)
           | Raise e => Raise e
           end
       | Raise e => Raise e
       end).
Proof.
  split.
  - intros env pdf_file w doc_id w1 Hstore Hf0 Hf1.
    destruct (GeminiStore.store_upload_inv env pdf_file w doc_id w1 Hstore)
      as (Hfb & _ & Hw1).
    unfold Gemini.extract_text_from_pdf, Monad.try_except, Gemini.doc_get.
    unfold Monad.bind at 1 2. rewrite GeminiRun.request_run, Hfb, Hf0.
    unfold Monad.gets. cbn iota beta.
    replace (Gemini.documents (Gemini.log (Gemini.EvDocGet doc_id) w1)
               !! doc_id)
      with (Some
              {| Gemini.user_id := Gemini.temp_user_id;
                 Gemini.file_name := filename pdf_file;
                 Gemini.storage_path :=
                   u "uploads/" ++ Gemini.temp_user_id ++ u "/" ++ doc_id
                   ++ u "/" ++ filename pdf_file;
                 Gemini.created_at :=
                   Gemini.utcnow env (S (length (Gemini.trace w)));
                 Gemini.status := Gemini.status_uploaded |})
      by (rewrite Hw1; simpl; symmetry; apply lookup_insert_eq).
    cbn [Gemini.storage_path].
    change (truthy (u "uploads/" ++ Gemini.temp_user_id ++ u "/" ++ doc_id
                    ++ u "/" ++ filename pdf_file)) with true.
    cbn [negb]. cbv iota.
    unfold Gemini.blob_download, Monad.bind. rewrite GeminiRun.request_run.
    rewrite Hfb.
    replace (length (Gemini.trace (Gemini.log (Gemini.EvDocGet doc_id) w1)))
      with (S (length (Gemini.trace w1)))
      by (simpl; rewrite length_app; simpl; lia).
    rewrite Hf1. unfold Monad.gets, Monad.lift. cbn iota beta.
    replace (Gemini.bucket
               (Gemini.log
                  (Gemini.EvBlobDownload
                     (u "uploads/" ++ Gemini.temp_user_id ++ u "/" ++ doc_id
                      ++ u "/" ++ filename pdf_file))
                  (Gemini.log (Gemini.EvDocGet doc_id) w1))
               !! (u "uploads/" ++ Gemini.temp_user_id ++ u "/" ++ doc_id
                   ++ u "/" ++ filename pdf_file))
      with (Some (content pdf_file))
      by (rewrite Hw1; simpl; symmetry; apply lookup_insert_eq).
    unfold Monad.ret. cbn iota beta.
    destruct (pdf_pages (Gemini.lib env) (content pdf_file)) as [pages | e];
      [| reflexivity].
    destruct (Gemini.concat_pages pages []); reflexivity.
  - intros env pdf w doc_id path w1 Hstore Hf.
    assert (Hfile : Groq.folder w1 !! path = Some (content pdf)).
    { rewrite GroqStore.store_upload_run in Hstore.
      destruct (Groq.fs_fault env _); [discriminate |].
      destruct (Groq.db_fault env _); [discriminate |].
      inversion Hstore; subst. simpl. apply lookup_insert_eq. }
    unfold Groq.extract_text_from_pdf, Groq.read_file, Monad.bind.
    rewrite GroqRun.call_run, Hf. unfold Monad.gets, Monad.lift, Monad.ret.
    cbn iota beta.
    change (Groq.folder (Groq.log (Groq.EvRead path) w1))
      with (Groq.folder w1).
    rewrite Hfile. cbn iota beta.
    destruct (pdf_pages (Groq.lib env) (content pdf)) as [pages | e];
      [| reflexivity].
    destruct (Groq.page_texts pages); reflexivity.
Qed.

(** On the demo environment: the sample file, read back by both variants. *)
Lemma upload_then_extract_witness :
  let f := {| filename := u "bio.pdf"; content := Demo.sample_pdf |} in
  fst (Gemini.extract_text_from_pdf (Demo.gemini (u "ok")) (u "doc-0")
         (snd (Gemini.store_upload (Demo.gemini (u "ok")) f
                 Demo.gemini_world))) =
    Ok (Some (Demo.sample_text ++ [ch_newline])) /\
  fst (Groq.extract_text_from_pdf (Demo.groq (u "ok"))
         (u "uploads/doc-0_bio.pdf")
         (snd (Groq.store_upload (Demo.groq (u "ok")) f Demo.groq_world))) =
    Ok Demo.sample_text.
Proof.
  intros f. destruct upload_then_extract as [Hgemini Hgroq]. split.
  - rewrite (Hgemini (Demo.gemini (u "ok")) f Demo.gemini_world (u "doc-0"));
      vm_compute; reflexivity.
  - rewrite (Hgroq (Demo.groq (u "ok")) f Demo.groq_world (u "doc-0"));
      vm_compute; reflexivity.
Defined.

(** ** A whole upload, when nothing fails *)

(** X3.  Gemini variant, end to end.  For a file named [*.pdf] whose pages
    are all read and give a non-empty text, with both services up, no
    request failing and every chunk embedded, [upload_pdf] answers 201 with
    the new identifier and leaves: the bytes in Storage under
    [uploads/temp_user_id_123/<id>/<name>]; the metadata record, its status
    [processed]; one embedding record per chunk, in one committed batch;
    and a log with one embedding call per chunk, in order, between the
    download and the commit. *)
Theorem gemini_upload_end_to_end :
  forall env req f w pages text vs,
    files req !! u "pdf_file" = Some f ->
    endswith (filename f) (u ".pdf") = true ->
    Gemini.firebase_ok env = true ->
    Gemini.embedding_model_ok env = true ->
    (forall t, Gemini.storage_fault env t = None) ->
    pdf_pages (Gemini.lib env) (content f) = Ok pages ->
    Gemini.concat_pages pages [] = Ok text ->
    text <> [] ->
    let id := Gemini.uuid4 env (length (Gemini.trace w)) in
    let path :=
      u "uploads/" ++ Gemini.temp_user_id ++ u "/" ++ id ++ u "/"
      ++ filename f in
    let chunks := split_text (Gemini.lib env) 1000 100 text in
    Gemini.embeds env (length (Gemini.trace w) + 4) chunks vs ->
    let run := Gemini.upload_pdf env req w in
    fst run = Ok (Gemini.upload_success id) /\
    Gemini.bucket (snd run) = <[path := content f]> (Gemini.bucket w) /\
    Gemini.documents (snd run) =
      <[id :=
          {| Gemini.user_id := Gemini.temp_user_id;
             Gemini.file_name := filename f;
             Gemini.storage_path := path;
             Gemini.created_at :=
               Gemini.utcnow env (S (length (Gemini.trace w)));
             Gemini.status := u "processed" |}]> (Gemini.documents w) /\
    Gemini.embeddings (snd run) =
      <[id :=
          Gemini.apply_batch (Gemini.records 0 chunks vs)
            (Gemini.subcollection id w)]> (Gemini.embeddings w) /\
    Gemini.trace (snd run) =
      Gemini.trace w
      ++ [Gemini.EvBlobUpload path; Gemini.EvDocSet id (u "uploaded");
          Gemini.EvDocGet id; Gemini.EvBlobDownload path]
      ++ map Gemini.EvEmbed chunks
      ++ [Gemini.EvBatchCommit id (length chunks);
          Gemini.EvDocUpdate id (u "processed")].
Proof.
  intros env req f w pages text vs Hf Hext Hfb Hem Hnofault Hpdf Hconcat
    Htext id path chunks Hvs run.
  destruct (GeminiStore.store_upload_ok env f w Hfb (Hnofault _) (Hnofault _))
    as [w1 Hstore]. fold id in Hstore.
  destruct (GeminiStore.store_upload_inv env f w id w1 Hstore)
    as (_ & _ & Hw1). fold path in Hw1.
  set (d1 :=
    {| Gemini.user_id := Gemini.temp_user_id; Gemini.file_name := filename f;
       Gemini.storage_path := path;
       Gemini.created_at := Gemini.utcnow env (S (length (Gemini.trace w)));
       Gemini.status := Gemini.status_uploaded |}) in Hw1.
  assert (Hlen1 : length (Gemini.trace w1) = (length (Gemini.trace w) + 2)%nat)
    by (rewrite Hw1; simpl; rewrite length_app; reflexivity).
  assert (Hdoc1 : Gemini.documents w1 !! id = Some d1)
    by (rewrite Hw1; apply lookup_insert_eq).
  assert (Hblob1 : Gemini.bucket w1 !! Gemini.storage_path d1
                   = Some (content f))
    by (rewrite Hw1; apply lookup_insert_eq).
  assert (Hpath : Gemini.storage_path d1 <> [])
    by (unfold d1, path, u; simpl; discriminate).
  pose proof (GeminiStore.gemini_extract_text_from_pdf_ok env id w1 d1 (content f)
                pages text Hfb (Hnofault _) (Hnofault _) Hdoc1 Hpath Hblob1
                Hpdf Hconcat) as Hextract.
  set (w2 :=
    Gemini.extend [Gemini.EvDocGet id;
                   Gemini.EvBlobDownload (Gemini.storage_path d1)] w1)
    in Hextract.
  assert (Hlen2 : length (Gemini.trace w2) = (length (Gemini.trace w) + 4)%nat)
    by (unfold w2; simpl; rewrite length_app, Hlen1; simpl; lia).
  assert (Hcreate :
    Gemini.create_and_store_embeddings env id text w2 =
    (Ok true, Gemini.processed id d1 chunks vs w2)).
  { apply GeminiStore.create_and_store_embeddings_ok;
      [exact Hfb | exact Hem | rewrite Hlen2; exact Hvs | apply Hnofault
      | apply Hnofault | exact Hdoc1]. }
  assert (Hrun : run =
    (Ok (Gemini.upload_success id), Gemini.processed id d1 chunks vs w2)).
  { subst run. unfold Gemini.upload_pdf. rewrite Hf, Hext.
    destruct (filename f) as [| c name] eqn:Hname; [discriminate |].
    simpl. unfold Monad.try_except. unfold Monad.bind at 1. rewrite Hstore.
    unfold Monad.bind at 1, Gemini.embedding_process.
    unfold Monad.bind at 1. rewrite Hextract.
    destruct text as [| c' text']; [congruence |]. cbn [truthy].
    unfold Monad.bind at 1. rewrite Hcreate. reflexivity. }
  rewrite Hrun. cbn [fst snd Gemini.processed Gemini.bucket Gemini.documents
                     Gemini.embeddings Gemini.trace].
  split; [reflexivity |]. split; [| split; [| split]].
  - unfold w2. simpl. rewrite Hw1. reflexivity.
  - unfold w2. simpl. rewrite Hw1. simpl. rewrite insert_insert_eq.
    reflexivity.
  - unfold w2, Gemini.subcollection. simpl. rewrite Hw1. reflexivity.
  - unfold w2. simpl. rewrite Hw1. simpl. rewrite <- !app_assoc.
    reflexivity.
Qed.

(** On the demo environment: the upload of the sample file. *)
Lemma gemini_upload_end_to_end_witness :
  let run :=
    Gemini.upload_pdf (Demo.gemini (u "ok"))
      (Demo.upload "bio.pdf" Demo.sample_pdf) Demo.gemini_world in
  fst run = Ok (Gemini.upload_success (u "doc-0")) /\
  Gemini.trace (snd run) =
    [Gemini.EvBlobUpload (u "uploads/temp_user_id_123/doc-0/bio.pdf");
     Gemini.EvDocSet (u "doc-0") (u "uploaded");
     Gemini.EvDocGet (u "doc-0");
     Gemini.EvBlobDownload (u "uploads/temp_user_id_123/doc-0/bio.pdf");
     Gemini.EvEmbed Demo.sample_text;
     Gemini.EvBatchCommit (u "doc-0") 1;
     Gemini.EvDocUpdate (u "doc-0") (u "processed")].
Proof.
  intros run.
  destruct (gemini_upload_end_to_end (Demo.gemini (u "ok"))
              (Demo.upload "bio.pdf" Demo.sample_pdf)
              {| filename := u "bio.pdf"; content := Demo.sample_pdf |}
              Demo.gemini_world
              [Ok (u "Cells divide."); Ok (u "Plants grow.")]
              (Demo.sample_text ++ [ch_newline])
              [Demo.vector_of Demo.sample_text])
    as (Hresp & _ & _ & _ & Htrace);
    try reflexivity; try discriminate.
  - vm_compute. split; [reflexivity | exact I].
  - split; [exact Hresp |]. fold run in Htrace. rewrite Htrace.
    vm_compute. reflexivity.
Defined.

Module GroqIngest.
Import Monad Groq.

(** Extraction when the file is there and every page is read. *)
Lemma groq_extract_text_from_pdf_ok env path w data pages texts :
  fs_fault env (length (trace w)) = None ->
  folder w !! path = Some data ->
  pdf_pages (lib env) data = Ok pages ->
  page_texts pages = Ok texts ->
  extract_text_from_pdf env path w =
  (Ok (join [ch_newline] texts), log (EvRead path) w).
Proof.
  intros Hf Hfile Hpdf Htexts.
  unfold extract_text_from_pdf, read_file, bind.
  rewrite GroqRun.call_run, Hf. unfold gets, lift, ret. cbn iota beta.
  change (folder (log (EvRead path) w)) with (folder w).
  rewrite Hfile. cbn iota beta. rewrite Hpdf, Htexts. reflexivity.
Qed.

(** When every turn succeeds there is one vector per chunk. *)
Lemma stores_chunks_length env chunks :
  forall t vs, stores_chunks env t chunks vs -> length vs = length chunks.
Proof.
  induction chunks as [| chunk rest IH]; intros t [| v vs] H;
    simpl in H; try contradiction; [reflexivity |].
  destruct H as (_ & _ & H). simpl. rewrite (IH _ _ H). reflexivity.
Qed.

(** The rows of a full run, read back. *)
Lemma rows_content doc_id chunks vs :
  length vs = length chunks ->
  map content (rows doc_id chunks vs) = chunks.
Proof.
  revert vs. induction chunks as [| chunk rest IH]; intros [| v vs] H;
    simpl in H; try discriminate; [reflexivity |].
  unfold rows in *. simpl. rewrite IH by lia. reflexivity.
Qed.

Lemma rows_of_document doc_id chunks vs :
  filter (fun r => of_document doc_id r = true) (rows doc_id chunks vs)
  = rows doc_id chunks vs.
Proof.
  revert vs. induction chunks as [| chunk rest IH]; intros [| v vs];
    try reflexivity.
  unfold rows in *. simpl. rewrite filter_cons_True.
  - rewrite IH. reflexivity.
  - unfold of_document. simpl. apply bool_decide_eq_true. reflexivity.
Qed.

End GroqIngest.

(** X4.  Groq variant, end to end.  For a file with a non-empty name whose
    pages are all read, when the file operations and the insertion of the
    document row do not fail and every chunk is encoded and inserted,
    [upload_pdf] answers 200 with the new identifier and leaves: the bytes
    in the upload folder under [<id>_<name>]; one more row in [documents];
    and, appended to [embeddings] in the order of the chunks, one row per
    chunk. *)
Theorem groq_upload_end_to_end :
  forall env req f w pages texts vs,
    files req !! u "pdf_file" = Some f ->
    filename f <> [] ->
    let t := length (Groq.trace w) in
    Groq.fs_fault env t = None ->
    Groq.db_fault env (S t) = None ->
    Groq.fs_fault env (S (S t)) = None ->
    pdf_pages (Groq.lib env) (content f) = Ok pages ->
    Groq.page_texts pages = Ok texts ->
    let id := Groq.uuid4 env t in
    let name := id ++ u "_" ++ filename f in
    let path := Groq.path_join Groq.UPLOAD_FOLDER name in
    let chunks :=
      split_text (Groq.lib env) 1000 100 (join [ch_newline] texts) in
    Groq.stores_chunks env (S (S (S t))) chunks vs ->
    let run := Groq.upload_pdf env req w in
    fst run = Ok (Groq.upload_success id) /\
    Groq.folder (snd run) = <[path := content f]> (Groq.folder w) /\
    Groq.documents (snd run) =
      Groq.documents w
      ++ [ {| Groq.id := id; Groq.user_id := u "temp_user";
              Groq.file_name := name |} ] /\
    Groq.embeddings (snd run) = Groq.embeddings w ++ Groq.rows id chunks vs /\
    map Groq.content (Groq.rows id chunks vs) = chunks.
Proof.
  intros env req f w pages texts vs Hf Hname t Hfs Hdb Hread Hpdf Htexts id
    name path chunks Hvs run.
  pose proof (GroqStore.store_upload_run env f w) as Hstore.
  cbn zeta in Hstore. fold t in Hstore. rewrite Hfs, Hdb in Hstore.
  fold id in Hstore. fold name in Hstore. fold path in Hstore.
  set (w1 :=
    {| Groq.folder := <[path := content f]> (Groq.folder w);
       Groq.documents :=
         Groq.documents w
         ++ [ {| Groq.id := id; Groq.user_id := u "temp_user";
                 Groq.file_name := name |} ];
       Groq.embeddings := Groq.embeddings w;
       Groq.trace := Groq.trace w ++ [Groq.EvSave path;
                                      Groq.EvInsertDocument id] |})
    in Hstore.
  assert (Hlen1 : length (Groq.trace w1) = S (S t))
    by (unfold w1, t; simpl; rewrite length_app; simpl; lia).
  assert (Hextract :
    Groq.extract_text_from_pdf env path w1 =
    (Ok (join [ch_newline] texts), Groq.log (Groq.EvRead path) w1)).
  { apply (GroqIngest.groq_extract_text_from_pdf_ok env path w1 (content f) pages);
      [rewrite Hlen1; exact Hread | apply lookup_insert_eq | exact Hpdf
      | exact Htexts]. }
  destruct (GroqLoop.store_chunks_ok env id chunks vs
              (Groq.log (Groq.EvRead path) w1))
    as (w3 & Hloop & Hemb & Hdocs & Hfold & _).
  { replace (length (Groq.trace (Groq.log (Groq.EvRead path) w1)))
      with (S (S (S t)))
      by (simpl; rewrite !length_app; unfold t; simpl; lia).
    exact Hvs. }
  assert (Hrun : run = (Ok (Groq.upload_success id), w3)).
  { assert (Htruthy : truthy (filename f) = true)
      by (destruct (filename f); [congruence | reflexivity]).
    subst run. unfold Groq.upload_pdf, Monad.try_except.
    rewrite Hf, Htruthy. cbn [negb]. cbv iota.
    unfold Monad.bind at 1. rewrite Hstore.
    unfold Groq.ingest. unfold Monad.bind at 1. unfold Monad.bind at 1.
    rewrite Hextract. fold chunks. rewrite Hloop. reflexivity. }
  rewrite Hrun. cbn [fst snd]. rewrite Hemb, Hdocs, Hfold.
  repeat split.
  apply GroqIngest.rows_content.
  apply (GroqIngest.stores_chunks_length env chunks _ vs Hvs).
Qed.

(** On the demo environment: the upload of the sample file. *)
Lemma groq_upload_end_to_end_witness :
  let run :=
    Groq.upload_pdf (Demo.groq (u "ok"))
      (Demo.upload "bio.pdf" Demo.sample_pdf) Demo.groq_world in
  fst run = Ok (Groq.upload_success (u "doc-0")) /\
  Groq.embeddings (snd run) =
    [ {| Groq.document_id := u "doc-0"; Groq.content := Demo.sample_text;
         Groq.embedding := [26%Z] |} ].
Proof.
  intros run.
  destruct (groq_upload_end_to_end (Demo.groq (u "ok"))
              (Demo.upload "bio.pdf" Demo.sample_pdf)
              {| filename := u "bio.pdf"; content := Demo.sample_pdf |}
              Demo.groq_world
              [Ok (u "Cells divide."); Ok (u "Plants grow.")]
              [u "Cells divide."; u "Plants grow."]
              [[26%Z]])
    as (Hresp & _ & _ & Hemb & _);
    try reflexivity; try discriminate.
  - vm_compute. repeat split; reflexivity.
  - split; [exact Hresp |]. fold run in Hemb. rewrite Hemb.
    vm_compute. reflexivity.
Defined.

(** ** The embedding records of a document *)

Module ChunkKeys.
Import Gemini.

Lemma u_inj s s' : u s = u s' -> s = s'.
Proof.
  unfold u. intros H.
  assert (Hl : list_ascii_of_string s = list_ascii_of_string s').
  { revert H. generalize (list_ascii_of_string s) (list_ascii_of_string s').
    induction l as [| a l IH]; intros [| b l'] H; simpl in H;
      try discriminate; [reflexivity |].
    inversion H as [[Hab Hl]]. f_equal.
    - rewrite <- (ascii_N_embedding a), <- (ascii_N_embedding b), Hab.
      reflexivity.
    - apply IH, Hl. }
  rewrite <- (string_of_list_ascii_of_string s),
    <- (string_of_list_ascii_of_string s'), Hl.
  reflexivity.
Qed.

Lemma str_of_nat_inj n m : str_of_nat n = str_of_nat m -> n = m.
Proof.
  unfold str_of_nat. intros H. apply u_inj in H.
  assert (Hd : Some (Nat.to_uint n) = Some (Nat.to_uint m)).
  { rewrite <- !NilEmpty.usu, H. reflexivity. }
  inversion Hd as [Hu].
  rewrite <- (DecimalNat.Unsigned.of_to n), <- (DecimalNat.Unsigned.of_to m), Hu.
  reflexivity.
Qed.

(** Two chunks never share a key. *)
Lemma chunk_key_inj i j : chunk_key i = chunk_key j -> i = j.
Proof.
  unfold chunk_key. intros H. apply app_inv_head in H.
  apply str_of_nat_inj, H.
Qed.

Lemma apply_batch_cons k r batch coll :
  apply_batch ((k, r) :: batch) coll = apply_batch batch (<[k := r]> coll).
Proof. reflexivity. Qed.

(** A key that is no chunk key of the batch is left alone. *)
Lemma apply_batch_other chunks :
  forall vs i (coll : gmap str Embedding) k,
    (forall j, (j < length chunks)%nat -> k <> chunk_key (i + j)) ->
    apply_batch (records i chunks vs) coll !! k = coll !! k.
Proof.
  induction chunks as [| chunk rest IH]; intros [| v vs] i coll k Hk;
    try reflexivity.
  cbn [records]. rewrite apply_batch_cons, IH.
  - apply lookup_insert_ne. intros Heq.
    apply (Hk 0%nat); [simpl; lia |]. rewrite Nat.add_0_r. auto.
  - intros j Hj. replace (S i + j)%nat with (i + S j)%nat by lia.
    apply Hk. simpl. lia.
Qed.

(** The record written under the key of the [j]-th chunk. *)
Lemma apply_batch_hit chunks :
  forall vs i (coll : gmap str Embedding) j c v,
    chunks !! j = Some c -> vs !! j = Some v ->
    apply_batch (records i chunks vs) coll !! chunk_key (i + j)
    = Some {| text_chunk := c; embedding := v |}.
Proof.
  induction chunks as [| chunk rest IH]; intros [| v0 vs] i coll j c v Hc Hv;
    try discriminate.
  cbn [records]. rewrite apply_batch_cons. destruct j as [| j].
  - inversion Hc; inversion Hv; subst. rewrite Nat.add_0_r.
    rewrite apply_batch_other; [apply lookup_insert_eq |].
    intros j _ Heq. apply chunk_key_inj in Heq. lia.
  - replace (i + S j)%nat with (S i + j)%nat by lia.
    apply IH; assumption.
Qed.

(** The vectors of a run that succeeded. *)
Lemma embeds_lookup env chunks :
  forall t vs j c,
    embeds env t chunks vs -> chunks !! j = Some c ->
    exists v, vs !! j = Some v /\ get_embeddings env (t + j) c = Ok v.
Proof.
  induction chunks as [| chunk rest IH]; intros t [| v vs] j c H Hc;
    simpl in H; try contradiction; try discriminate.
  destruct H as [Hv H]. destruct j as [| j].
  - inversion Hc; subst. exists v. rewrite Nat.add_0_r. auto.
  - destruct (IH (S t) vs j c H Hc) as (v' & Hv' & Hget).
    exists v'. split; [exact Hv' |].
    replace (t + S j)%nat with (S t + j)%nat by lia. exact Hget.
Qed.

End ChunkKeys.

(** X5.  Gemini variant.  After a run of [create_and_store_embeddings]
    that returned [True], the record [chunk_j] of the document holds the
    [j]-th chunk of the text and the vector the model returned for it; the
    records of the document under other keys, and the records of the other
    documents, are as before. *)
Theorem gemini_chunk_records :
  forall env document_id text_content w w',
    Gemini.create_and_store_embeddings env document_id text_content w
      = (Ok true, w') ->
    let chunks := split_text (Gemini.lib env) 1000 100 text_content in
    (forall j c,
       chunks !! j = Some c ->
       exists v,
         Gemini.get_embeddings env (length (Gemini.trace w) + j) c = Ok v /\
         Gemini.subcollection document_id w' !! Gemini.chunk_key j
           = Some {| Gemini.text_chunk := c; Gemini.embedding := v |}) /\
    (forall k,
       (forall j, (j < length chunks)%nat -> k <> Gemini.chunk_key j) ->
       Gemini.subcollection document_id w' !! k
         = Gemini.subcollection document_id w !! k) /\
    (forall other,
       other <> document_id ->
       Gemini.subcollection other w' = Gemini.subcollection other w).
Proof.
  intros env document_id text_content w w'.
  pattern (Gemini.create_and_store_embeddings env document_id text_content w).
  apply GeminiPipeline.create_and_store_embeddings_elim.
  - intros w0 _ _ H. discriminate.
  - intros vs d Hvs Hdoc H chunks. inversion H; subst w'. clear H.
    set (chunks0 := split_text (Gemini.lib env) 1000 100 text_content) in *.
    subst chunks.
    assert (Hsub :
      Gemini.subcollection document_id
        (Gemini.processed document_id d chunks0 vs w)
      = Gemini.apply_batch (Gemini.records 0 chunks0 vs)
          (Gemini.subcollection document_id w)).
    { unfold Gemini.subcollection at 1. simpl.
      rewrite lookup_insert_eq. reflexivity. }
    split; [| split].
    + intros j c Hc.
      destruct (ChunkKeys.embeds_lookup env chunks0 _ vs j c Hvs Hc)
        as (v & Hv & Hget).
      exists v. split; [exact Hget |]. rewrite Hsub.
      apply (ChunkKeys.apply_batch_hit chunks0 vs 0 _ j c v Hc Hv).
    + intros k Hk. rewrite Hsub. apply ChunkKeys.apply_batch_other.
      intros j Hj. simpl. apply Hk, Hj.
    + intros other Hother. unfold Gemini.subcollection. simpl.
      rewrite lookup_insert_ne by congruence. reflexivity.
Qed.

(** On the demo environment: the first chunk of a text of 2000 characters,
    stored for the uploaded sample document. *)
Lemma gemini_chunk_records_witness :
  let env := Demo.gemini (u "ok") in
  let w := Demo.gemini_loaded in
  let w' :=
    snd (Gemini.create_and_store_embeddings env (u "doc-0") Demo.long_text w)
  in
  exists v,
    Gemini.get_embeddings env (length (Gemini.trace w) + 0) (repeat 97 1000)
      = Ok v /\
    Gemini.subcollection (u "doc-0") w' !! Gemini.chunk_key 0
      = Some {| Gemini.text_chunk := repeat 97 1000; Gemini.embedding := v |}.
Proof.
  intros env w w'.
  refine (proj1 (gemini_chunk_records env (u "doc-0") Demo.long_text w w' _)
            0%nat (repeat 97 1000) _);
    vm_compute; reflexivity.
Defined.

(** X6.  Gemini variant.  When the splitter returns no chunk, a run of
    [create_and_store_embeddings] still commits a batch, an empty one, and
    marks the document [processed], without any call to the embedding
    model; the records of the document are as before. *)
Theorem gemini_no_chunk_is_processed :
  forall env document_id text_content w d,
    Gemini.firebase_ok env = true ->
    Gemini.embedding_model_ok env = true ->
    split_text (Gemini.lib env) 1000 100 text_content = [] ->
    Gemini.storage_fault env (length (Gemini.trace w)) = None ->
    Gemini.storage_fault env (S (length (Gemini.trace w))) = None ->
    Gemini.documents w !! document_id = Some d ->
    let run :=
      Gemini.create_and_store_embeddings env document_id text_content w in
    fst run = Ok true /\
    Gemini.new_events w (snd run) =
      [Gemini.EvBatchCommit document_id 0;
       Gemini.EvDocUpdate document_id (u "processed")] /\
    Gemini.documents (snd run) !! document_id =
      Some (Gemini.with_status (u "processed") d) /\
    Gemini.subcollection document_id (snd run) =
      Gemini.subcollection document_id w.
Proof.
  intros env document_id text_content w d Hfb Hem Hsplit Hf0 Hf1 Hdoc run.
  assert (Hrun : run = (Ok true, Gemini.processed document_id d [] [] w)).
  { subst run.
    pose proof (GeminiStore.create_and_store_embeddings_ok env document_id
                  text_content w d []) as H.
    cbn zeta in H. rewrite Hsplit in H.
    apply H; try assumption; try exact I;
      simpl; rewrite Nat.add_0_r; assumption. }
  rewrite Hrun. cbn [fst snd]. split; [reflexivity |].
  split; [| split].
  - unfold Gemini.new_events, Gemini.processed. simpl.
    apply drop_app_length.
  - unfold Gemini.processed. simpl. apply lookup_insert_eq.
  - unfold Gemini.subcollection at 1, Gemini.processed. simpl.
    rewrite lookup_insert_eq. reflexivity.
Qed.

(** On the demo environment: a text of blanks, for the uploaded sample
    document. *)
Lemma gemini_no_chunk_is_processed_witness :
  let run :=
    Gemini.create_and_store_embeddings (Demo.gemini (u "ok")) (u "doc-0")
      (u "   ") Demo.gemini_loaded in
  fst run = Ok true /\
  Gemini.new_events Demo.gemini_loaded (snd run) =
    [Gemini.EvBatchCommit (u "doc-0") 0;
     Gemini.EvDocUpdate (u "doc-0") (u "processed")].
Proof.
  intros run.
  destruct (gemini_no_chunk_is_processed (Demo.gemini (u "ok")) (u "doc-0")
              (u "   ") Demo.gemini_loaded
              {| Gemini.user_id := Gemini.temp_user_id;
                 Gemini.file_name := u "bio.pdf";
                 Gemini.storage_path :=
                   u "uploads/temp_user_id_123/doc-0/bio.pdf";
                 Gemini.created_at := 1%Z;
                 Gemini.status := u "processed" |})
    as (Hok & Hevents & _); try reflexivity.
  split; [exact Hok | exact Hevents].
Defined.

(** ** Retrieval *)

Module Nearest.
Import Monad.

Lemma insert_by_perm {A} (le : A -> A -> bool) x l :
  insert_by le x l ≡ₚ x :: l.
Proof.
  induction l as [| y l IH]; simpl; [reflexivity |].
  destruct (le x y); [reflexivity |].
  rewrite IH. apply Permutation_swap.
Qed.

(** Ranking reorders the records: none is lost, none is added. *)
Lemma sort_by_perm {A} (le : A -> A -> bool) l : sort_by le l ≡ₚ l.
Proof.
  unfold sort_by. induction l as [| x l IH]; simpl; [reflexivity |].
  rewrite insert_by_perm, IH. reflexivity.
Qed.

(** The first [n] of a ranking of [l], read through [f]. *)
Lemma ranked_take {A B} (le : A -> A -> bool) (f : A -> B) n l :
  length (map f (take n (sort_by le l))) = min n (length l) /\
  forall b, b ∈ map f (take n (sort_by le l)) -> exists a, a ∈ l /\ f a = b.
Proof.
  split.
  - rewrite length_map, length_take, (Permutation_length (sort_by_perm le l)).
    reflexivity.
  - intros b Hb. apply list_elem_of_fmap in Hb as (a & -> & Ha).
    exists a. split; [| reflexivity].
    rewrite <- (sort_by_perm le l). apply (subseteq_take n), Ha.
Qed.

Lemma find_nearest_run env id q w :
  Gemini.find_nearest env id q w =
  if Gemini.firebase_ok env then
    match Gemini.storage_fault env (length (Gemini.trace w)) with
    | Some e => (Raise e, Gemini.log Gemini.EvFault w)
    | None =>
        (Ok (map Gemini.text_chunk
               (take 5
                  (sort_by
                     (fun a b =>
                        Gemini.nearer env q (Gemini.embedding a)
                          (Gemini.embedding b))
                     (map snd (map_to_list (Gemini.subcollection id w)))))),
         Gemini.log (Gemini.EvFindNearest id) w)
    end
  else (Raise (AttributeError (u "'NoneType' object has no attribute")), w).
Proof.
  unfold Gemini.find_nearest, bind. rewrite GeminiRun.request_run.
  destruct (Gemini.firebase_ok env); [| reflexivity].
  destruct (Gemini.storage_fault env _); reflexivity.
Qed.

Lemma select_nearest_run env doc_id q n w :
  Groq.select_nearest env doc_id q n w =
  match Groq.db_fault env (length (Groq.trace w)) with
  | Some e => (Raise e, Groq.log Groq.EvFault w)
  | None =>
      (Ok (map Groq.content
             (take n
                (sort_by
                   (fun a b =>
                      Groq.nearer env q (Groq.embedding a) (Groq.embedding b))
                   (filter (fun r => Groq.of_document doc_id r = true)
                      (Groq.embeddings w))))),
       Groq.log (Groq.EvSelect doc_id) w)
  end.
Proof.
  unfold Groq.select_nearest, bind. rewrite GroqRun.call_run.
  destruct (Groq.db_fault env _); reflexivity.
Qed.

Lemma select_content_run env doc_id n w :
  Groq.select_content env doc_id n w =
  match Groq.db_fault env (length (Groq.trace w)) with
  | Some e => (Raise e, Groq.log Groq.EvFault w)
  | None =>
      (Ok (map Groq.content
             (take n
                (sort_by (Groq.scan_order env (length (Groq.trace w)))
                   (filter (fun r => Groq.of_document doc_id r = true)
                      (Groq.embeddings w))))),
       Groq.log (Groq.EvSelect doc_id) w)
  end.
Proof.
  unfold Groq.select_content. unfold bind at 1, Groq.now, gets.
  cbn iota beta. unfold bind. rewrite GroqRun.call_run.
  destruct (Groq.db_fault env _); reflexivity.
Qed.

(** The chunks of a gemini query: at most five, as many as there are
    records when there are fewer, each the text of a record of the
    document. *)
Lemma find_nearest_scope env id q w chunks w' :
  Gemini.find_nearest env id q w = (Ok chunks, w') ->
  length chunks = min 5 (size (Gemini.subcollection id w)) /\
  forall c,
    c ∈ chunks ->
    exists k r,
      Gemini.subcollection id w !! k = Some r /\ Gemini.text_chunk r = c.
Proof.
  rewrite find_nearest_run.
  destruct (Gemini.firebase_ok env); [| discriminate].
  destruct (Gemini.storage_fault env _); [discriminate |].
  intros H. inversion H; subst. clear H.
  match goal with
  | |- context [sort_by ?le ?l] =>
      destruct (ranked_take le Gemini.text_chunk 5 l) as [Hlen Hin]
  end.
  split.
  - rewrite Hlen, length_map, length_map_to_list. reflexivity.
  - intros c Hc. destruct (Hin c Hc) as (r & Hr & Htext).
    apply list_elem_of_fmap in Hr as ([k r'] & -> & Hkr).
    apply elem_of_map_to_list in Hkr. exists k, r'. auto.
Qed.

(** The rows of a groq query: at most [n], each the content of a row of
    the document. *)
Lemma select_nearest_scope env doc_id q n w rows w' :
  Groq.select_nearest env doc_id q n w = (Ok rows, w') ->
  length rows =
    min n (length (filter (fun r => Groq.of_document doc_id r = true)
                     (Groq.embeddings w))) /\
  forall c,
    c ∈ rows ->
    exists r,
      r ∈ Groq.embeddings w /\ Groq.document_id r = doc_id /\
      Groq.content r = c.
Proof.
  rewrite select_nearest_run.
  destruct (Groq.db_fault env _); [discriminate |].
  intros H. inversion H; subst. clear H.
  match goal with
  | |- context [sort_by ?le ?l] =>
      destruct (ranked_take le Groq.content n l) as [Hlen Hin]
  end.
  split; [exact Hlen |].
  intros c Hc. destruct (Hin c Hc) as (r & Hr & Hcontent).
  apply list_elem_of_filter in Hr as [Hdoc Hr].
  exists r. split; [exact Hr |]. split; [| exact Hcontent].
  unfold Groq.of_document, Json.str_eqb in Hdoc.
  apply bool_decide_eq_true in Hdoc. exact Hdoc.
Qed.

End Nearest.

(** X7.  Retrieval is scoped to the document and bounded.  A vector query
    of the gemini variant that succeeds returns at most five chunks, five
    when the document has five records or more, and each is the text of a
    record of that document.  A nearest-rows query of the groq variant that
    succeeds returns at most [n] contents, [n] when the document has [n]
    rows or more, and each is the content of a row of that document. *)
Theorem retrieval_is_scoped_and_bounded :
  (forall env id q w chunks w',
     Gemini.find_nearest env id q w = (Ok chunks, w') ->
     length chunks = min 5 (size (Gemini.subcollection id w)) /\
     forall c,
       c ∈ chunks ->
       exists k r,
         Gemini.subcollection id w !! k = Some r /\
         Gemini.text_chunk r = c) /\
  (forall env doc_id q n w rows w',
     Groq.select_nearest env doc_id q n w = (Ok rows, w') ->
     length rows =
       min n (length (filter (fun r => Groq.of_document doc_id r = true)
                        (Groq.embeddings w))) /\
     forall c,
       c ∈ rows ->
       exists r,
         r ∈ Groq.embeddings w /\ Groq.document_id r = doc_id /\
         Groq.content r = c).
Proof.
  split.
  - apply Nearest.find_nearest_scope.
  - apply Nearest.select_nearest_scope.
Qed.

(** On the demo environment, after the upload of the sample file: one
    chunk is stored, and one is returned. *)
Lemma retrieval_is_scoped_and_bounded_witness :
  length [Demo.sample_text] =
    min 5 (size (Gemini.subcollection (u "doc-0") Demo.gemini_loaded)) /\
  length [Demo.sample_text] =
    min 5
      (length (filter (fun r => Groq.of_document (u "doc-0") r = true)
                 (Groq.embeddings Demo.groq_loaded))).
Proof.
  destruct retrieval_is_scoped_and_bounded as [Hgemini Hgroq]. split.
  - refine (proj1 (Hgemini (Demo.gemini (u "ok")) (u "doc-0") []
                     Demo.gemini_loaded [Demo.sample_text]
                     (Gemini.log (Gemini.EvFindNearest (u "doc-0"))
                        Demo.gemini_loaded) _)).
    vm_compute. reflexivity.
  - refine (proj1 (Hgroq (Demo.groq (u "ok")) (u "doc-0") [] 5%nat
                     Demo.groq_loaded [Demo.sample_text]
                     (Groq.log (Groq.EvSelect (u "doc-0")) Demo.groq_loaded)
                     _)).
    vm_compute. reflexivity.
Defined.

(** ** Questions *)

(** X8.  Gemini variant: [ask_question], on a request whose body is a JSON
    object, always answers, it never raises.
    The check of the two models comes first: when one is missing the answer
    is 500, even if the request has no question.  Then a missing or empty
    question is answered 400.  In both cases nothing is called.  Otherwise
    the question is sent to the embedding model; when that call raises, the
    answer is 500 with the text of the exception and nothing else is
    called; when it returns, the answer is either 200 or 500 with the text
    of an exception. *)
Theorem gemini_question_is_always_answered :
  forall env doc_id req w,
    exists resp w',
      Gemini.ask_question env doc_id req w = (Ok resp, w') /\
      if negb (Gemini.model_ok env) || negb (Gemini.embedding_model_ok env)
      then
        resp =
          Jsonify 500
            (Gemini.answer_body (u "error")
               (u "AI models are not initialized.")) /\
        w' = w
      else
        match question req with
        | Some (c :: q) =>
            match
              Gemini.get_embeddings env (length (Gemini.trace w)) (c :: q)
            with
            | Raise e =>
                resp =
                  Jsonify 500
                    (Gemini.answer_body (u "error")
                       (u "An error occurred: " ++ exn_str e)) /\
                w' = Gemini.log (Gemini.EvEmbed (c :: q)) w
            | Ok _ =>
                (exists answer,
                   resp =
                     Jsonify 200 (Gemini.answer_body (u "success") answer)) \/
                (exists e,
                   resp =
                     Jsonify 500
                       (Gemini.answer_body (u "error")
                          (u "An error occurred: " ++ exn_str e)))
            end
        | _ =>
            resp =
              Jsonify 400
                (Gemini.answer_body (u "error") (u "No question provided.")) /\
            w' = w
        end.
Proof.
  intros env doc_id req w. unfold Gemini.ask_question.
  destruct (negb (Gemini.model_ok env)
            || negb (Gemini.embedding_model_ok env));
    [eexists _, _; split; [reflexivity | split; reflexivity] |].
  destruct (question req) as [[| c q] |];
    try (eexists _, _; split; [reflexivity | split; reflexivity]).
  cbn [truthy negb]. cbv iota.
  unfold Monad.try_except. unfold Monad.bind at 1.
  rewrite GeminiRun.embed_run.
  destruct (Gemini.get_embeddings env (length (Gemini.trace w)) (c :: q))
    as [v | e];
    [| eexists _, _; split; [reflexivity | split; reflexivity]].
  unfold Monad.bind at 1. rewrite Nearest.find_nearest_run.
  destruct (Gemini.firebase_ok env);
    [| eexists _, _; split; [reflexivity | right; eexists; reflexivity]].
  destruct (Gemini.storage_fault env _);
    [eexists _, _; split; [reflexivity | right; eexists; reflexivity] |].
  match goal with
  | |- context [map Gemini.text_chunk ?l] =>
      destruct (map Gemini.text_chunk l) as [| chunk chunks]
  end;
    [eexists _, _; split; [reflexivity | left; eexists; reflexivity] |].
  unfold Monad.bind. rewrite GeminiRun.generate_run.
  destruct (Gemini.generate_content env _ _);
    eexists _, _; (split; [reflexivity |]);
    [left | right]; eexists; reflexivity.
Qed.

(** X9.  Gemini variant, a question that is served.  With both models
    initialised, a non-empty question whose embedding succeeds, and a
    vector query that succeeds on a document with at least one record:
    between one and five chunks of that document are retrieved; exactly
    three calls are made, the embedding of the question, the vector query
    and one prompt, which is the template filled with the chunks joined by
    blank lines and with the question; and the answer is the reply of the
    model rendered to HTML, with status 200, or, when the model raises, 500
    with the text of the exception. *)
Theorem gemini_question_served_from_context :
  forall env doc_id req q v w,
    Gemini.model_ok env = true ->
    Gemini.embedding_model_ok env = true ->
    Gemini.firebase_ok env = true ->
    question req = Some q -> q <> [] ->
    let t := length (Gemini.trace w) in
    Gemini.get_embeddings env t q = Ok v ->
    Gemini.storage_fault env (S t) = None ->
    Gemini.subcollection doc_id w <> ∅ ->
    exists chunks,
      (0 < length chunks <= 5)%nat /\
      (forall c,
         c ∈ chunks ->
         exists k r,
           Gemini.subcollection doc_id w !! k = Some r /\
           Gemini.text_chunk r = c) /\
      let prompt :=
        Gemini.question_prompt (join [ch_newline; ch_newline] chunks) q in
      let run := Gemini.ask_question env doc_id req w in
      Gemini.new_events w (snd run) =
        [Gemini.EvEmbed q; Gemini.EvFindNearest doc_id;
         Gemini.EvGenerate prompt] /\
      fst run =
        match Gemini.generate_content env (S (S t)) prompt with
        | Ok answer =>
            Ok (Jsonify 200
                  (Gemini.answer_body (u "success")
                     (markdown (Gemini.lib env) answer)))
        | Raise e =>
            Ok (Jsonify 500
                  (Gemini.answer_body (u "error")
                     (u "An error occurred: " ++ exn_str e)))
        end.
Proof.
  intros env doc_id req q v w Hm Hem Hfb Hq Hne t Hv Hfault Hrecords.
  assert (Hlen1 : length (Gemini.trace (Gemini.log (Gemini.EvEmbed q) w))
                  = S t)
    by (simpl; rewrite length_app; simpl; unfold t; lia).
  pose proof (Nearest.find_nearest_run env doc_id v
                (Gemini.log (Gemini.EvEmbed q) w)) as Hfind.
  rewrite Hfb, Hlen1, Hfault in Hfind.
  change (Gemini.subcollection doc_id (Gemini.log (Gemini.EvEmbed q) w))
    with (Gemini.subcollection doc_id w) in Hfind.
  match type of Hfind with
  | _ = (Ok ?cs, _) => set (chunks := cs) in *; clearbody chunks
  end.
  destruct (Nearest.find_nearest_scope env doc_id v _ _ _ Hfind)
    as [Hlen Hin].
  change (Gemini.subcollection doc_id (Gemini.log (Gemini.EvEmbed q) w))
    with (Gemini.subcollection doc_id w) in Hlen, Hin.
  apply map_size_non_empty_iff in Hrecords.
  exists chunks. split; [lia |]. split; [exact Hin |].
  intros prompt run.
  assert (Hrun : run =
    (match Gemini.generate_content env (S (S t)) prompt with
     | Ok answer =>
         Ok (Jsonify 200
               (Gemini.answer_body (u "success")
                  (markdown (Gemini.lib env) answer)))
     | Raise e =>
         Ok (Jsonify 500
               (Gemini.answer_body (u "error")
                  (u "An error occurred: " ++ exn_str e)))
     end,
     Gemini.log (Gemini.EvGenerate prompt)
       (Gemini.log (Gemini.EvFindNearest doc_id)
          (Gemini.log (Gemini.EvEmbed q) w)))).
  { subst run. unfold Gemini.ask_question. rewrite Hm, Hem, Hq.
    destruct q as [| c q]; [congruence |].
    cbn [truthy negb orb]. cbv iota.
    unfold Monad.try_except. unfold Monad.bind at 1.
    rewrite GeminiRun.embed_run. fold t. rewrite Hv.
    unfold Monad.bind at 1. rewrite Hfind.
    destruct chunks as [| chunk chunks']; [cbn [length] in Hlen; lia |].
    unfold Monad.bind. rewrite GeminiRun.generate_run.
    replace (length (Gemini.trace
               (Gemini.log (Gemini.EvFindNearest doc_id)
                  (Gemini.log (Gemini.EvEmbed (c :: q)) w))))
      with (S (S t))
      by (simpl; rewrite !length_app; simpl; unfold t; lia).
    fold prompt.
    destruct (Gemini.generate_content env (S (S t)) prompt); reflexivity. }
  rewrite Hrun. cbn [fst snd]. split; [| reflexivity].
  unfold Gemini.new_events. simpl. rewrite <- !app_assoc. simpl.
  apply drop_app_length.
Qed.

(** On the demo environment, after the upload of the sample file. *)
Lemma gemini_question_served_from_context_witness :
  fst (Gemini.ask_question (Demo.gemini (u "A cell.")) (u "doc-0")
         {| question := Some (u "What divides?") |} Demo.gemini_loaded) =
    Ok (Jsonify 200 (Gemini.answer_body (u "success") (u "<p>A cell.</p>"))).
Proof.
  destruct (gemini_question_served_from_context (Demo.gemini (u "A cell."))
              (u "doc-0") {| question := Some (u "What divides?") |}
              (u "What divides?") (Demo.vector_of (u "What divides?"))
              Demo.gemini_loaded eq_refl eq_refl eq_refl eq_refl)
    as (chunks & _ & _ & H);
    [discriminate | reflexivity | reflexivity | vm_compute; discriminate |].
  cbn zeta in H. exact (proj2 H).
Defined.

(** X10.  Groq variant: [ask_question], on a request whose body is a JSON
    object, answers 400 to a missing or empty question, without any call; past that check nothing is caught, so an
    exception of the encoder, or of the query that follows it, leaves the
    handler instead of being turned into an answer, and the provider is not
    called. *)
Theorem groq_question_failures_escape :
  forall env doc_id req w,
    let run := Groq.ask_question env doc_id req w in
    match question req with
    | Some (c :: q) =>
        match Groq.encode env (length (Groq.trace w)) (c :: q) with
        | Raise e => run = (Raise e, Groq.log (Groq.EvEmbed (c :: q)) w)
        | Ok _ =>
            match Groq.db_fault env (S (length (Groq.trace w))) with
            | Some e =>
                run =
                  (Raise e,
                   Groq.log Groq.EvFault
                     (Groq.log (Groq.EvEmbed (c :: q)) w))
            | None =>
                exists prompt,
                  Groq.new_events w (snd run) =
                    [Groq.EvEmbed (c :: q); Groq.EvSelect doc_id;
                     Groq.EvGenerate prompt]
            end
        end
    | _ => run = (Ok (Jsonify 400 [(u "error", u "No question")]), w)
    end.
Proof.
  intros env doc_id req w run. subst run. unfold Groq.ask_question.
  destruct (question req) as [[| c q] |]; try reflexivity.
  cbn [truthy negb]. cbv iota.
  assert (Hlen1 :
    length (Groq.trace (Groq.log (Groq.EvEmbed (c :: q)) w))
    = S (length (Groq.trace w)))
    by (simpl; rewrite length_app; simpl; lia).
  destruct (Groq.encode env (length (Groq.trace w)) (c :: q)) as [v | e]
    eqn:Hv.
  - destruct (Groq.db_fault env (S (length (Groq.trace w)))) as [e |] eqn:Hf.
    + unfold Monad.bind at 1. rewrite GroqRun.embed_text_run, Hv.
      unfold Monad.bind at 1. rewrite Nearest.select_nearest_run, Hlen1, Hf.
      reflexivity.
    + eexists.
      unfold Monad.bind at 1. rewrite GroqRun.embed_text_run, Hv.
      unfold Monad.bind at 1. rewrite Nearest.select_nearest_run, Hlen1, Hf.
      unfold Monad.bind. rewrite GroqRun.groq_generate_run.
      destruct (Groq.post env _ _) as [res | e];
        [destruct (Groq.reply_status res =? 200)%nat;
           [destruct (Groq.reply_content res) |] |];
        unfold Groq.new_events; simpl; rewrite <- !app_assoc; simpl;
        apply drop_app_length.
  - unfold Monad.bind at 1. rewrite GroqRun.embed_text_run, Hv. reflexivity.
Qed.

(** X11.  Groq variant, a question that reaches the provider.  For a
    non-empty question that the encoder embeds, when the query succeeds: at
    most five contents of rows of the document are retrieved; the one
    prompt sent is the template filled with them, joined by blank lines,
    and with the question; a reply with status 200 is rendered to HTML and
    answered with status 200; any other status leaves the handler as a
    [RuntimeError] that carries the body of the reply, and so does an
    exception of the request or of the decoding of the reply. *)
Theorem groq_question_served_from_context :
  forall env doc_id req q v w,
    question req = Some q -> q <> [] ->
    let t := length (Groq.trace w) in
    Groq.encode env t q = Ok v ->
    Groq.db_fault env (S t) = None ->
    exists rows,
      (length rows <= 5)%nat /\
      (forall c,
         c ∈ rows ->
         exists r,
           r ∈ Groq.embeddings w /\ Groq.document_id r = doc_id /\
           Groq.content r = c) /\
      let prompt :=
        Groq.question_prompt (join [ch_newline; ch_newline] rows) q in
      let run := Groq.ask_question env doc_id req w in
      Groq.prompts_sent (Groq.new_events w (snd run)) = [prompt] /\
      fst run =
        match Groq.post env (S (S t)) prompt with
        | Raise e => Raise e
        | Ok res =>
            if (Groq.reply_status res =? 200)%nat then
              match Groq.reply_content res with
              | Ok answer =>
                  Ok (Jsonify 200
                        [(u "status", u "success");
                         (u "answer", markdown (Groq.lib env) answer)])
              | Raise e => Raise e
              end
            else Raise (RuntimeError (u "Groq error: " ++ Groq.reply_text res))
        end.
Proof.
  intros env doc_id req q v w Hq Hne t Hv Hfault.
  assert (Hlen1 : length (Groq.trace (Groq.log (Groq.EvEmbed q) w)) = S t)
    by (simpl; rewrite length_app; simpl; unfold t; lia).
  pose proof (Nearest.select_nearest_run env doc_id v 5
                (Groq.log (Groq.EvEmbed q) w)) as Hsel.
  rewrite Hlen1, Hfault in Hsel.
  change (Groq.embeddings (Groq.log (Groq.EvEmbed q) w))
    with (Groq.embeddings w) in Hsel.
  match type of Hsel with
  | _ = (Ok ?rs, _) => set (rows := rs) in *; clearbody rows
  end.
  destruct (Nearest.select_nearest_scope env doc_id v 5 _ _ _ Hsel)
    as [Hlen Hin].
  change (Groq.embeddings (Groq.log (Groq.EvEmbed q) w))
    with (Groq.embeddings w) in Hlen, Hin.
  exists rows. split; [lia |]. split; [exact Hin |].
  intros prompt run.
  assert (Hrun : run =
    (match Groq.post env (S (S t)) prompt with
     | Raise e => Raise e
     | Ok res =>
         if (Groq.reply_status res =? 200)%nat then
           match Groq.reply_content res with
           | Ok answer =>
               Ok (Jsonify 200
                     [(u "status", u "success");
                      (u "answer", markdown (Groq.lib env) answer)])
           | Raise e => Raise e
           end
         else Raise (RuntimeError (u "Groq error: " ++ Groq.reply_text res))
     end,
     Groq.log (Groq.EvGenerate prompt)
       (Groq.log (Groq.EvSelect doc_id) (Groq.log (Groq.EvEmbed q) w)))).
  { subst run. unfold Groq.ask_question. rewrite Hq.
    destruct q as [| c q]; [congruence |].
    cbn [truthy negb]. cbv iota.
    unfold Monad.bind at 1. rewrite GroqRun.embed_text_run. fold t.
    rewrite Hv.
    unfold Monad.bind at 1. rewrite Hsel.
    unfold Monad.bind. rewrite GroqRun.groq_generate_run.
    replace (length (Groq.trace
               (Groq.log (Groq.EvSelect doc_id)
                  (Groq.log (Groq.EvEmbed (c :: q)) w))))
      with (S (S t))
      by (simpl; rewrite !length_app; simpl; unfold t; lia).
    fold prompt.
    destruct (Groq.post env (S (S t)) prompt) as [res | e]; [| reflexivity].
    destruct (Groq.reply_status res =? 200)%nat; [| reflexivity].
    destruct (Groq.reply_content res); reflexivity. }
  rewrite Hrun. cbn [fst snd]. split; [| reflexivity].
  unfold Groq.new_events. simpl. rewrite <- !app_assoc. simpl.
  rewrite drop_app_length. reflexivity.
Qed.

(** On the demo environment, after the upload of the sample file. *)
Lemma groq_question_served_from_context_witness :
  fst (Groq.ask_question (Demo.groq (u "A cell.")) (u "doc-0")
         {| question := Some (u "What divides?") |} Demo.groq_loaded) =
    Ok (Jsonify 200
          [(u "status", u "success"); (u "answer", u "<p>A cell.</p>")]).
Proof.
  destruct (groq_question_served_from_context (Demo.groq (u "A cell."))
              (u "doc-0") {| question := Some (u "What divides?") |}
              (u "What divides?") (Demo.vector_of (u "What divides?"))
              Demo.groq_loaded eq_refl)
    as (rows & _ & _ & H); [discriminate | reflexivity | reflexivity |].
  cbn zeta in H. exact (proj2 H).
Defined.

(** ** The pages *)

Ltac trace_extension :=
  first
    [ reflexivity
    | symmetry; apply app_nil_r
    | rewrite <- app_assoc; reflexivity ].

Module GeminiPages.
Import Monad Gemini.

Lemma gemini_texts_embedded_app evs evs' :
  texts_embedded (evs ++ evs') = texts_embedded evs ++ texts_embedded evs'.
Proof. apply flat_map_app. Qed.

(** Extraction asks the store only: it calls neither model. *)
Lemma extract_text_from_pdf_calls env document_id w :
  exists r w',
    extract_text_from_pdf env document_id w = (Ok r, w') /\
    exists evs,
      trace w' = trace w ++ evs /\
      prompts_sent evs = [] /\ texts_embedded evs = [].
Proof.
  unfold extract_text_from_pdf, try_except, doc_get.
  unfold bind at 1 2. rewrite GeminiRun.request_run.
  destruct (firebase_ok env) eqn:Hfb;
    [| eexists _, _; split; [reflexivity |]; exists [];
       split; [trace_extension | split; reflexivity]].
  destruct (storage_fault env _);
    [eexists _, _; split; [reflexivity |]; eexists;
     split; [simpl; trace_extension | split; reflexivity] |].
  unfold gets. cbn iota beta.
  change (documents (log (EvDocGet document_id) w)) with (documents w).
  destruct (documents w !! document_id) as [d |];
    [| eexists _, _; split; [reflexivity |]; eexists;
       split; [simpl; trace_extension | split; reflexivity]].
  destruct (truthy (storage_path d)); cbn [negb]; cbv iota;
    [| eexists _, _; split; [reflexivity |]; eexists;
       split; [simpl; trace_extension | split; reflexivity]].
  unfold blob_download, bind. rewrite GeminiRun.request_run, Hfb.
  destruct (storage_fault env _);
    [eexists _, _; split; [reflexivity |]; eexists;
     split; [simpl; trace_extension | split; reflexivity] |].
  unfold gets, lift, ret. cbn iota beta.
  destruct (bucket _ !! storage_path d) as [data |]; cbn iota beta;
    [| eexists _, _; split; [reflexivity |]; eexists;
       split; [simpl; trace_extension | split; reflexivity]].
  destruct (pdf_pages (lib env) data) as [pages | e]; cbn iota beta;
    [| eexists _, _; split; [reflexivity |]; eexists;
       split; [simpl; trace_extension | split; reflexivity]].
  destruct (concat_pages pages []); cbn iota beta;
    eexists _, _; (split; [reflexivity |]); eexists;
    (split; [simpl; trace_extension | split; reflexivity]).
Qed.

End GeminiPages.

(** X12.  Gemini variant: the three pages that read a document, [get_text],
    [summarize] and [generate_flashcards], never raise, leave Storage and
    both collections as they were, and never call the embedding model.
    [get_text] calls no model at all and answers 200 exactly when
    extraction returned a non-empty text.  The other two send at most one
    prompt, and none at all, not even a request to the store, in mock mode
    or when the model is not initialised. *)
Theorem gemini_pages_only_read :
  forall env doc_id w,
    (exists resp w' evs,
       Gemini.get_pdf_text env doc_id w = (Ok resp, w') /\
       Gemini.stores w' = Gemini.stores w /\
       Gemini.trace w' = Gemini.trace w ++ evs /\
       Gemini.texts_embedded evs = [] /\
       Gemini.prompts_sent evs = [] /\
       (status_code resp = 200%nat <->
        exists c t,
          fst (Gemini.extract_text_from_pdf env doc_id w)
          = Ok (Some (c :: t)))) /\
    (exists resp w' evs,
       Gemini.summarize_pdf env doc_id w = (Ok resp, w') /\
       Gemini.stores w' = Gemini.stores w /\
       Gemini.trace w' = Gemini.trace w ++ evs /\
       Gemini.texts_embedded evs = [] /\
       (length (Gemini.prompts_sent evs) <= 1)%nat /\
       (Gemini.use_mock_ai env = true \/ Gemini.model_ok env = false ->
        w' = w)) /\
    (exists resp w' evs,
       Gemini.generate_flashcards env doc_id w = (Ok resp, w') /\
       Gemini.stores w' = Gemini.stores w /\
       Gemini.trace w' = Gemini.trace w ++ evs /\
       Gemini.texts_embedded evs = [] /\
       (length (Gemini.prompts_sent evs) <= 1)%nat /\
       (Gemini.use_mock_ai env = true \/ Gemini.model_ok env = false ->
        w' = w)).
Proof.
  intros env doc_id w.
  destruct (GeminiPages.extract_text_from_pdf_calls env doc_id w)
    as (r & w1 & Hrun & evs & Htrace & Hprompts & Htexts).
  split; [| split].
  - assert (H : exists resp w' evs,
       Gemini.get_pdf_text env doc_id w = (Ok resp, w') /\
       Gemini.trace w' = Gemini.trace w ++ evs /\
       Gemini.texts_embedded evs = [] /\
       Gemini.prompts_sent evs = [] /\
       (status_code resp = 200%nat <->
        exists c t,
          fst (Gemini.extract_text_from_pdf env doc_id w)
          = Ok (Some (c :: t)))).
    { unfold Gemini.get_pdf_text, Monad.bind. rewrite Hrun. cbn [fst].
      destruct r as [[| c t] |]; cbn [truthy]; cbv iota;
        eexists _, _, evs; (split; [reflexivity |]);
        (split; [exact Htrace |]); (split; [exact Htexts |]);
        (split; [exact Hprompts |]); cbn [status_code].
      - split; [discriminate | intros (c & t & H); discriminate].
      - split; [intros _; exists c, t; reflexivity | reflexivity].
      - split; [discriminate | intros (c & t & H); discriminate]. }
    destruct H as (resp & w' & evs' & Hrun' & H1 & H2 & H3 & H4).
    pose proof (GeminiFrame.get_pdf_text_frames env doc_id w) as Hframe.
    rewrite Hrun' in Hframe.
    exists resp, w', evs'. auto 10.
  - assert (H : exists resp w' evs,
       Gemini.summarize_pdf env doc_id w = (Ok resp, w') /\
       Gemini.trace w' = Gemini.trace w ++ evs /\
       Gemini.texts_embedded evs = [] /\
       (length (Gemini.prompts_sent evs) <= 1)%nat /\
       (Gemini.use_mock_ai env = true \/ Gemini.model_ok env = false ->
        w' = w)).
    { unfold Gemini.summarize_pdf.
      destruct (Gemini.use_mock_ai env);
        [eexists _, _, [];
         repeat (split;
                 [first [reflexivity | trace_extension | simpl; lia] |]);
         reflexivity |].
      destruct (Gemini.model_ok env); cbn [negb]; cbv iota;
        [| eexists _, _, [];
           repeat (split;
                   [first [reflexivity | trace_extension | simpl; lia] |]);
           reflexivity].
      unfold Monad.bind at 1. rewrite Hrun.
      destruct r as [[| c t] |]; cbn [truthy negb]; cbv iota;
        try (eexists _, _, evs; (split; [reflexivity |]);
             (split; [exact Htrace |]); (split; [exact Htexts |]);
             (split; [rewrite Hprompts; simpl; lia |]);
             intros [H | H]; discriminate).
      unfold Monad.try_except, Monad.bind. rewrite GeminiRun.generate_run.
      destruct (Gemini.generate_content env _ _);
        eexists _, _, (evs ++ [Gemini.EvGenerate _]);
        (split; [reflexivity |]);
        (split; [simpl; rewrite Htrace, <- app_assoc; reflexivity |]);
        (split;
         [rewrite GeminiPages.gemini_texts_embedded_app, Htexts;
          reflexivity |]);
        (split;
         [rewrite GeminiRun.gemini_prompts_sent_app, Hprompts; simpl; lia |]);
        intros [H | H]; discriminate. }
    destruct H as (resp & w' & evs' & Hrun' & H1 & H2 & H3 & H4).
    pose proof (GeminiFrame.summarize_pdf_frames env doc_id w) as Hframe.
    rewrite Hrun' in Hframe.
    exists resp, w', evs'. auto 10.
  - assert (H : exists resp w' evs,
       Gemini.generate_flashcards env doc_id w = (Ok resp, w') /\
       Gemini.trace w' = Gemini.trace w ++ evs /\
       Gemini.texts_embedded evs = [] /\
       (length (Gemini.prompts_sent evs) <= 1)%nat /\
       (Gemini.use_mock_ai env = true \/ Gemini.model_ok env = false ->
        w' = w)).
    { unfold Gemini.generate_flashcards.
      destruct (Gemini.use_mock_ai env);
        [eexists _, _, [];
         repeat (split;
                 [first [reflexivity | trace_extension | simpl; lia] |]);
         reflexivity |].
      destruct (Gemini.model_ok env); cbn [negb]; cbv iota;
        [| eexists _, _, [];
           repeat (split;
                   [first [reflexivity | trace_extension | simpl; lia] |]);
           reflexivity].
      unfold Monad.bind at 1. rewrite Hrun.
      destruct r as [[| c t] |]; cbn [truthy negb]; cbv iota;
        try (eexists _, _, evs; (split; [reflexivity |]);
             (split; [exact Htrace |]); (split; [exact Htexts |]);
             (split; [rewrite Hprompts; simpl; lia |]);
             intros [H | H]; discriminate).
      unfold Monad.try_except, Monad.bind. rewrite GeminiRun.generate_run.
      unfold Monad.lift, Monad.ret.
      destruct (Gemini.generate_content env _ _) as [reply | e];
        [destruct (Gemini.parse_flashcards env reply) |];
        eexists _, _, (evs ++ [Gemini.EvGenerate _]);
        (split; [reflexivity |]);
        (split; [simpl; rewrite Htrace, <- app_assoc; reflexivity |]);
        (split;
         [rewrite GeminiPages.gemini_texts_embedded_app, Htexts;
          reflexivity |]);
        (split;
         [rewrite GeminiRun.gemini_prompts_sent_app, Hprompts; simpl; lia |]);
        intros [H | H]; discriminate. }
    destruct H as (resp & w' & evs' & Hrun' & H1 & H2 & H3 & H4).
    pose proof (GeminiFrame.generate_flashcards_frames env doc_id w)
      as Hframe.
    rewrite Hrun' in Hframe.
    exists resp, w', evs'. auto 10.
Qed.

Module GroqPages.
Import Monad Groq.

Lemma groq_generate_flashcards_frames env doc_id :
  Monad.frames stores (generate_flashcards env doc_id).
Proof.
  unfold generate_flashcards.
  repeat (apply GroqFrame.select_content_frames
          || apply GroqFrame.groq_generate_frames || frame_step).
Qed.

Lemma summarize_frames env doc_id :
  Monad.frames stores (summarize env doc_id).
Proof.
  unfold summarize.
  repeat (apply GroqFrame.select_content_frames
          || apply GroqFrame.groq_generate_frames || frame_step).
Qed.

Lemma lstrip_blank s :
  Forall (fun c => isspace c = true) s -> lstrip s = [].
Proof.
  induction 1 as [| c s Hc _ IH]; [reflexivity |].
  simpl. rewrite Hc. exact IH.
Qed.

(** Stripping a string of white space leaves nothing. *)
Lemma strip_blank s :
  Forall (fun c => isspace c = true) s -> strip s = [].
Proof.
  intros H. unfold strip, rstrip. rewrite (lstrip_blank s H). reflexivity.
Qed.

Lemma join_blank parts :
  Forall (Forall (fun c => isspace c = true)) parts ->
  Forall (fun c => isspace c = true) (join (u " ") parts).
Proof.
  induction 1 as [| p rest Hp Hrest IH]; [constructor |].
  destruct rest as [| p' rest']; [exact Hp |].
  change (join (u " ") (p :: p' :: rest'))
    with (p ++ u " " ++ join (u " ") (p' :: rest')).
  apply Forall_app. split; [exact Hp |].
  apply Forall_app. split; [| exact IH].
  repeat constructor.
Qed.

End GroqPages.

(** X13.  Groq variant, the error cards of [generate_flashcards].  When
    the document has no row, or rows of white space only, the page shows
    one card, [No content available to generate flashcards.], and the
    provider is not called.  When the query fails, the card carries the
    text of its exception, and the provider is not called either.  When the
    provider answers with a status other than 200, the card carries [Groq
    error:] followed by the body of the answer.  Whatever happens, the
    upload folder and both tables are left as they were. *)
Theorem groq_flashcards_error_cards :
  (forall env doc_id w,
     Groq.db_fault env (length (Groq.trace w)) = None ->
     Forall (fun r => Forall (fun c => isspace c = true) (Groq.content r))
       (filter (fun r => Groq.of_document doc_id r = true)
          (Groq.embeddings w)) ->
     Groq.generate_flashcards env doc_id w =
       (Ok (Groq.flashcards_page
              (JArr [flashcard (u "Error generating flashcards")
                       (u "No content available to generate flashcards.")])),
        Groq.log (Groq.EvSelect doc_id) w)) /\
  (forall env doc_id w e,
     Groq.db_fault env (length (Groq.trace w)) = Some e ->
     Groq.generate_flashcards env doc_id w =
       (Ok (Groq.flashcards_page
              (JArr [flashcard (u "Error generating flashcards")
                       (exn_str e)])),
        Groq.log Groq.EvFault w)) /\
  (forall env doc_id w rows w1 res,
     Groq.select_content env doc_id 12 w = (Ok rows, w1) ->
     strip (join (u " ") rows) <> [] ->
     Groq.post env (length (Groq.trace w1))
       (Groq.flashcards_prompt (join (u " ") rows)) = Ok res ->
     Groq.reply_status res <> 200%nat ->
     fst (Groq.generate_flashcards env doc_id w) =
       Ok (Groq.flashcards_page
             (JArr [flashcard (u "Error generating flashcards")
                      (u "Groq error: " ++ Groq.reply_text res)]))) /\
  (forall env doc_id w,
     Groq.stores (snd (Groq.generate_flashcards env doc_id w))
     = Groq.stores w).
Proof.
  split; [| split; [| split]].
  - intros env doc_id w Hfault Hblank.
    unfold Groq.generate_flashcards, Monad.try_except.
    unfold Monad.bind at 1. rewrite Nearest.select_content_run, Hfault.
    rewrite GroqPages.strip_blank; [reflexivity |].
    apply GroqPages.join_blank. apply Forall_fmap.
    apply Forall_take. rewrite Nearest.sort_by_perm. exact Hblank.
  - intros env doc_id w e Hfault.
    unfold Groq.generate_flashcards, Monad.try_except.
    unfold Monad.bind at 1. rewrite Nearest.select_content_run, Hfault.
    reflexivity.
  - intros env doc_id w rows w1 res Hrows Htext Hpost Hstatus.
    unfold Groq.generate_flashcards, Monad.try_except.
    unfold Monad.bind at 1. rewrite Hrows.
    destruct (strip (join (u " ") rows)) as [| c t]; [congruence |].
    cbn [truthy negb]. cbv iota.
    unfold Monad.bind at 1. rewrite GroqRun.groq_generate_run, Hpost.
    apply Nat.eqb_neq in Hstatus. rewrite Hstatus. reflexivity.
  - intros env doc_id w. apply GroqPages.groq_generate_flashcards_frames.
Qed.

(** On the demo environment: a document that was never uploaded, a query
    that fails, and a provider that answers 429 after the upload of the
    sample file. *)
Lemma groq_flashcards_error_cards_witness :
  let down :=
    {| Groq.lib := Demo.lib; Groq.uuid4 := Demo.uuid4;
       Groq.fs_fault := fun _ => None;
       Groq.db_fault := fun _ => Some (ServiceError (u "connection closed"));
       Groq.encode := fun _ text => Ok (Demo.vector_of text);
       Groq.post := fun _ _ =>
         Ok {| Groq.reply_status := 429; Groq.reply_text := u "rate limit";
               Groq.reply_content := Raise (KeyError (u "choices")) |};
       Groq.nearer := fun _ _ _ => true;
       Groq.scan_order := fun _ _ _ => true |} in
  let limited :=
    {| Groq.lib := Demo.lib; Groq.uuid4 := Demo.uuid4;
       Groq.fs_fault := fun _ => None; Groq.db_fault := fun _ => None;
       Groq.encode := fun _ text => Ok (Demo.vector_of text);
       Groq.post := fun _ _ =>
         Ok {| Groq.reply_status := 429; Groq.reply_text := u "rate limit";
               Groq.reply_content := Raise (KeyError (u "choices")) |};
       Groq.nearer := fun _ _ _ => true;
       Groq.scan_order := fun _ _ _ => true |} in
  fst (Groq.generate_flashcards (Demo.groq (u "ok")) (u "doc-9")
         Demo.groq_loaded) =
    Ok (Groq.flashcards_page
          (JArr [flashcard (u "Error generating flashcards")
                   (u "No content available to generate flashcards.")])) /\
  fst (Groq.generate_flashcards down (u "doc-0") Demo.groq_loaded) =
    Ok (Groq.flashcards_page
          (JArr [flashcard (u "Error generating flashcards")
                   (u "connection closed")])) /\
  fst (Groq.generate_flashcards limited (u "doc-0") Demo.groq_loaded) =
    Ok (Groq.flashcards_page
          (JArr [flashcard (u "Error generating flashcards")
                   (u "Groq error: rate limit")])).
Proof.
  intros down limited.
  destruct groq_flashcards_error_cards as (Hnone & Hfault & Hstatus & _).
  split; [| split].
  - rewrite Hnone; [reflexivity | reflexivity |].
    vm_compute. constructor.
  - rewrite (Hfault down (u "doc-0") Demo.groq_loaded
               (ServiceError (u "connection closed")));
      reflexivity.
  - apply (Hstatus limited (u "doc-0") Demo.groq_loaded [Demo.sample_text]
             (Groq.log (Groq.EvSelect (u "doc-0")) Demo.groq_loaded)
             {| Groq.reply_status := 429; Groq.reply_text := u "rate limit";
                Groq.reply_content := Raise (KeyError (u "choices")) |});
      try (vm_compute; reflexivity); vm_compute; discriminate.
Defined.

(** X14.  Groq variant, [summarize].  The query has no [ORDER BY]: the
    page is built from ten rows of the document, or all of them when there
    are fewer, in the order the database returns them, which the program
    does not fix; their contents are joined by spaces and sent in one
    prompt, even when there is no row.  Nothing is caught: an exception of
    the query leaves the handler before the provider is called, and so do
    an exception of the provider and an answer with a status other than
    200.  The upload folder and both tables are left as they were. *)
Theorem groq_summary_run :
  forall env doc_id w,
    let t := length (Groq.trace w) in
    let run := Groq.summarize env doc_id w in
    Groq.stores (snd run) = Groq.stores w /\
    match Groq.db_fault env t with
    | Some e => run = (Raise e, Groq.log Groq.EvFault w)
    | None =>
        exists scanned,
          scanned ≡ₚ
            filter (fun r => Groq.of_document doc_id r = true)
              (Groq.embeddings w) /\
          let prompt :=
            Groq.summary_prompt
              (join (u " ") (map Groq.content (take 10 scanned))) in
          Groq.new_events w (snd run) =
            [Groq.EvSelect doc_id; Groq.EvGenerate prompt] /\
          fst run =
            match Groq.post env (S t) prompt with
            | Raise e => Raise e
            | Ok res =>
                if (Groq.reply_status res =? 200)%nat then
                  match Groq.reply_content res with
                  | Ok summary =>
                      Ok (RenderTemplate (u "summary.html")
                            [(u "summary_html",
                              JStr (markdown (Groq.lib env) summary))])
                  | Raise e => Raise e
                  end
                else
                  Raise
                    (RuntimeError (u "Groq error: " ++ Groq.reply_text res))
            end
    end.
Proof.
  intros env doc_id w t run.
  split; [apply GroqPages.summarize_frames |].
  destruct (Groq.db_fault env t) as [e |] eqn:Hfault.
  - subst run. unfold Groq.summarize, Monad.bind.
    rewrite Nearest.select_content_run. fold t. rewrite Hfault. reflexivity.
  - exists (sort_by (Groq.scan_order env t)
              (filter (fun r => Groq.of_document doc_id r = true)
                 (Groq.embeddings w))).
    split; [apply Nearest.sort_by_perm |].
    cbv zeta. subst run. unfold Groq.summarize, Monad.bind.
    rewrite Nearest.select_content_run. fold t. rewrite Hfault.
    rewrite GroqRun.groq_generate_run.
    replace (length (Groq.trace (Groq.log (Groq.EvSelect doc_id) w)))
      with (S t)
      by (simpl; rewrite length_app; simpl; unfold t; lia).
    destruct (Groq.post env (S t) _) as [res | e];
      [destruct (Groq.reply_status res =? 200)%nat;
         [destruct (Groq.reply_content res) |] |];
      (split; [| reflexivity]);
      unfold Groq.new_events; simpl; rewrite <- !app_assoc; simpl;
      apply drop_app_length.
Qed.

(** ** The text of a document, in the two variants *)

Module PageTexts.

Lemma concat_pages_ok ts :
  forall acc,
    Gemini.concat_pages (map Ok ts) acc
    = Ok (acc ++ flat_map (fun t => t ++ [ch_newline]) ts).
Proof.
  induction ts as [| t ts IH]; intros acc; simpl.
  - rewrite app_nil_r. reflexivity.
  - rewrite IH, <- !app_assoc. reflexivity.
Qed.

Lemma page_texts_ok ts :
  Groq.page_texts (map Ok ts) = Ok (filter (fun t => truthy t = true) ts).
Proof.
  induction ts as [| t ts IH]; [reflexivity |].
  simpl. rewrite IH. destruct t as [| c t]; reflexivity.
Qed.

Lemma page_texts_full ts :
  Forall (fun t => t <> []) ts -> Groq.page_texts (map Ok ts) = Ok ts.
Proof.
  induction 1 as [| t ts Ht _ IH]; [reflexivity |].
  simpl. rewrite IH. destruct t; [congruence | reflexivity].
Qed.

Lemma join_lines t ts :
  flat_map (fun t => t ++ [ch_newline]) (t :: ts)
  = join [ch_newline] (t :: ts) ++ [ch_newline].
Proof.
  revert t. induction ts as [| t' ts IH]; intros t.
  - simpl. rewrite app_nil_r. reflexivity.
  - change (join [ch_newline] (t :: t' :: ts))
      with (t ++ [ch_newline] ++ join [ch_newline] (t' :: ts)).
    change (flat_map (fun t => t ++ [ch_newline]) (t :: t' :: ts))
      with ((t ++ [ch_newline])
            ++ flat_map (fun t => t ++ [ch_newline]) (t' :: ts)).
    rewrite IH, <- !app_assoc. reflexivity.
Qed.

Lemma concat_pages_raise ts e rest :
  forall acc,
    Gemini.concat_pages (map Ok ts ++ Raise e :: rest) acc = Raise e.
Proof.
  induction ts as [| t ts IH]; intros acc; [reflexivity |].
  simpl. apply IH.
Qed.

Lemma page_texts_raise ts e rest :
  Groq.page_texts (map Ok ts ++ Raise e :: rest) = Raise e.
Proof.
  induction ts as [| t ts IH]; [reflexivity |].
  simpl. rewrite IH. reflexivity.
Qed.

End PageTexts.

(** X15.  The text the two variants make of the same pages.  The gemini
    variant ends the text of every page, empty or not, with a newline; the
    groq variant drops the pages without text and puts a newline between
    the others.  So on a file whose pages all have text the gemini text is
    the groq text followed by one newline.  In both variants the first page
    whose extraction raises stops the loop with its exception. *)
Theorem page_texts_of_the_two_variants :
  (forall ts : list str,
     Gemini.concat_pages (map Ok ts) []
     = Ok (flat_map (fun t => t ++ [ch_newline]) ts)) /\
  (forall ts : list str,
     Groq.page_texts (map Ok ts)
     = Ok (filter (fun t => truthy t = true) ts)) /\
  (forall ts : list str,
     ts <> [] ->
     Forall (fun t => t <> []) ts ->
     Groq.page_texts (map Ok ts) = Ok ts /\
     Gemini.concat_pages (map Ok ts) []
     = Ok (join [ch_newline] ts ++ [ch_newline])) /\
  (forall (ts : list str) e rest,
     Gemini.concat_pages (map Ok ts ++ Raise e :: rest) [] = Raise e /\
     Groq.page_texts (map Ok ts ++ Raise e :: rest) = Raise e).
Proof.
  split; [| split; [| split]].
  - intros ts. apply (PageTexts.concat_pages_ok ts []).
  - apply PageTexts.page_texts_ok.
  - intros ts Hne Hfull. split; [apply PageTexts.page_texts_full, Hfull |].
    rewrite (PageTexts.concat_pages_ok ts []).
    destruct ts as [| t ts]; [congruence |].
    rewrite PageTexts.join_lines. reflexivity.
  - intros ts e rest. split.
    + apply PageTexts.concat_pages_raise.
    + apply PageTexts.page_texts_raise.
Qed.

(** The two pages of the sample file. *)
Lemma page_texts_of_the_two_variants_witness :
  Groq.page_texts [Ok (u "Cells divide."); Ok (u "Plants grow.")]
  = Ok [u "Cells divide."; u "Plants grow."] /\
  Gemini.concat_pages [Ok (u "Cells divide."); Ok (u "Plants grow.")] []
  = Ok (Demo.sample_text ++ [ch_newline]).
Proof.
  destruct page_texts_of_the_two_variants as (_ & _ & H & _).
  apply (H [u "Cells divide."; u "Plants grow."]).
  - discriminate.
  - repeat constructor; discriminate.
Defined.

(** ** Reading back the rows of an upload *)

Module GroqRows.
Import Groq.

Lemma filter_other doc_id (old : list EmbeddingRow) :
  Forall (fun r => document_id r <> doc_id) old ->
  filter (fun r => of_document doc_id r = true) old = [].
Proof.
  induction 1 as [| r old Hr _ IH]; [reflexivity |].
  rewrite filter_cons_False; [exact IH |].
  unfold of_document, Json.str_eqb. intros H.
  apply bool_decide_eq_true in H. contradiction.
Qed.

End GroqRows.

(** X16.  Groq variant: the rows an upload inserted are what the pages
    read, and nothing else.  When the rows of a document are the rows of
    its chunks, appended to a table that held none for it, a
    [SELECT ... LIMIT n] for that document returns [n] of its chunks, or
    all of them when there are fewer: the first [n] of some rearrangement
    of the chunks.  Which chunks, and in which order, is the database's
    choice, since the query has no [ORDER BY]. *)
Theorem groq_chunks_read_back :
  forall env doc_id (chunks : list str) vs old w n,
    Groq.embeddings w = old ++ Groq.rows doc_id chunks vs ->
    Forall (fun r => Groq.document_id r <> doc_id) old ->
    length vs = length chunks ->
    Groq.db_fault env (length (Groq.trace w)) = None ->
    exists scanned,
      scanned ≡ₚ chunks /\
      fst (Groq.select_content env doc_id n w) = Ok (take n scanned).
Proof.
  intros env doc_id chunks vs old w n Hrows Hold Hlen Hfault.
  rewrite Nearest.select_content_run, Hfault, Hrows. cbn [fst].
  rewrite filter_app, (GroqRows.filter_other doc_id old Hold).
  rewrite app_nil_l, GroqIngest.rows_of_document.
  exists (Groq.content
          <$> sort_by (Groq.scan_order env (length (Groq.trace w)))
                (Groq.rows doc_id chunks vs)).
  split.
  - rewrite Nearest.sort_by_perm.
    change (Groq.content <$> Groq.rows doc_id chunks vs)
      with (map Groq.content (Groq.rows doc_id chunks vs)).
    rewrite (GroqIngest.rows_content doc_id chunks vs Hlen). reflexivity.
  - rewrite <- fmap_take. reflexivity.
Qed.

(** On the demo environment, after the upload of the sample file. *)
Lemma groq_chunks_read_back_witness :
  exists scanned,
    scanned ≡ₚ [Demo.sample_text] /\
    fst (Groq.select_content (Demo.groq (u "ok")) (u "doc-0") 12
           Demo.groq_loaded)
    = Ok (take 12 scanned).
Proof.
  apply (groq_chunks_read_back (Demo.groq (u "ok")) (u "doc-0")
           [Demo.sample_text] [[26%Z]] []);
    [vm_compute; reflexivity | constructor | reflexivity | reflexivity].
Defined.

(** ** The fields of a card *)

Module Cards.
Import Json.

Lemma dict_get_set_eq k v d : dict_get k (dict_set k v d) = Some v.
Proof.
  induction d as [| [k' v'] d IH]; simpl.
  - unfold str_eqb. rewrite bool_decide_eq_true_2; reflexivity.
  - destruct (str_eqb k k') eqn:Hk; simpl.
    + unfold str_eqb. rewrite bool_decide_eq_true_2; reflexivity.
    + rewrite Hk. exact IH.
Qed.

Lemma dict_get_set_ne k k' v d :
  k <> k' -> dict_get k (dict_set k' v d) = dict_get k d.
Proof.
  intros Hne. induction d as [| [k0 v0] d IH]; simpl.
  - unfold str_eqb. rewrite bool_decide_eq_false_2; [reflexivity | exact Hne].
  - destruct (str_eqb k' k0) eqn:Hk; simpl.
    + unfold str_eqb in *. apply bool_decide_eq_true in Hk. subst k0.
      rewrite !bool_decide_eq_false_2 by exact Hne. reflexivity.
    + rewrite IH. reflexivity.
Qed.

Lemma answer_is_not_question : u "answer" <> u "question".
Proof. discriminate. Qed.

End Cards.

(** X17.  The fields of a card, in the two variants.  A card that has both
    fields, as strings, is rendered the same way by both: each field is
    replaced by its HTML and the other keys are kept.  On a card without
    them the variants part: the gemini variant leaves the card as it is,
    the groq variant raises [KeyError] for the first field it misses. *)
Theorem card_fields_in_the_two_variants :
  (forall genv qenv d q a,
     Gemini.lib genv = Groq.lib qenv ->
     dict_get (u "question") d = Some (JStr q) ->
     dict_get (u "answer") d = Some (JStr a) ->
     Gemini.convert_card genv (JObj d) =
       Ok (JObj (dict_set (u "answer") (JStr (markdown (Gemini.lib genv) a))
                   (dict_set (u "question")
                      (JStr (markdown (Gemini.lib genv) q)) d))) /\
     Groq.render_card qenv (JObj d) = Gemini.convert_card genv (JObj d)) /\
  (forall genv d,
     dict_get (u "question") d = None ->
     dict_get (u "answer") d = None ->
     Gemini.convert_card genv (JObj d) = Ok (JObj d)) /\
  (forall qenv d,
     dict_get (u "question") d = None ->
     Groq.render_card qenv (JObj d) = Raise (KeyError (u "question"))) /\
  (forall qenv d q,
     dict_get (u "question") d = Some (JStr q) ->
     dict_get (u "answer") d = None ->
     Groq.render_card qenv (JObj d) = Raise (KeyError (u "answer"))).
Proof.
  split; [| split; [| split]].
  - intros genv qenv d q a Hlib Hq Ha.
    assert (Hgemini :
      Gemini.convert_card genv (JObj d) =
      Ok (JObj (dict_set (u "answer") (JStr (markdown (Gemini.lib genv) a))
                  (dict_set (u "question")
                     (JStr (markdown (Gemini.lib genv) q)) d)))).
    { unfold Gemini.convert_card, Gemini.convert_field. rewrite Hq.
      cbn [markdown_value].
      rewrite (Cards.dict_get_set_ne _ _ _ _ Cards.answer_is_not_question), Ha.
      reflexivity. }
    split; [exact Hgemini |]. rewrite Hgemini.
    unfold Groq.render_card, Groq.render_field. rewrite Hq.
    cbn [markdown_value].
    rewrite (Cards.dict_get_set_ne _ _ _ _ Cards.answer_is_not_question), Ha.
    cbn [markdown_value]. rewrite Hlib. reflexivity.
  - intros genv d Hq Ha.
    unfold Gemini.convert_card, Gemini.convert_field. rewrite Hq, Ha.
    reflexivity.
  - intros qenv d Hq. unfold Groq.render_card, Groq.render_field.
    rewrite Hq. reflexivity.
  - intros qenv d q Hq Ha. unfold Groq.render_card, Groq.render_field.
    rewrite Hq. cbn [markdown_value].
    rewrite (Cards.dict_get_set_ne _ _ _ _ Cards.answer_is_not_question), Ha.
    reflexivity.
Qed.

(** A card with both fields and a card with a question only. *)
Lemma card_fields_in_the_two_variants_witness :
  Groq.render_card (Demo.groq (u "ok")) (flashcard (u "Q") (u "A"))
  = Gemini.convert_card (Demo.gemini (u "ok")) (flashcard (u "Q") (u "A")) /\
  Groq.render_card (Demo.groq (u "ok")) (JObj [(u "question", JStr (u "Q"))])
  = Raise (KeyError (u "answer")).
Proof.
  destruct card_fields_in_the_two_variants as (Hboth & _ & _ & Hanswer).
  split.
  - apply (Hboth (Demo.gemini (u "ok")) (Demo.groq (u "ok")) _ (u "Q") (u "A"));
      reflexivity.
  - apply (Hanswer (Demo.groq (u "ok")) _ (u "Q")); reflexivity.
Defined.

(** ** The bracketed part of a reply, in general *)

Module BracketSpan.
Import Groq.

Lemma after_first_open_some s :
  forall s',
    after_first_open s = Some s' ->
    exists pre, s = pre ++ ch_lbracket :: s' /\ free_of ch_lbracket pre.
Proof.
  induction s as [| c s IH]; intros s' H; simpl in H; [discriminate |].
  destruct (N.eqb_spec c ch_lbracket) as [-> | Hc].
  - inversion H; subst. exists []. split; [reflexivity | constructor].
  - destruct (IH s' H) as (pre & -> & Hpre).
    exists (c :: pre). split; [reflexivity |]. constructor; assumption.
Qed.

Lemma after_first_open_none s :
  after_first_open s = None -> free_of ch_lbracket s.
Proof.
  induction s as [| c s IH]; intros H; simpl in H; [constructor |].
  destruct (N.eqb_spec c ch_lbracket) as [-> | Hc]; [discriminate |].
  constructor; [exact Hc | apply IH, H].
Qed.

Lemma up_to_last_close_none s :
  up_to_last_close s = None -> free_of ch_rbracket s.
Proof.
  induction s as [| c s IH]; intros H; simpl in H; [constructor |].
  destruct (up_to_last_close s); [discriminate |].
  destruct (N.eqb_spec c ch_rbracket) as [-> | Hc]; [discriminate |].
  constructor; [exact Hc | apply IH; reflexivity].
Qed.

Lemma up_to_last_close_some s :
  forall p,
    up_to_last_close s = Some p ->
    exists mid post,
      p = mid ++ [ch_rbracket] /\ s = p ++ post /\ free_of ch_rbracket post.
Proof.
  induction s as [| c s IH]; intros p H; simpl in H; [discriminate |].
  destruct (up_to_last_close s) as [p0 |] eqn:Hp0.
  - inversion H; subst.
    destruct (IH p0 eq_refl) as (mid & post & -> & Hs & Hpost).
    exists (c :: mid), post. split; [reflexivity |].
    split; [simpl; rewrite <- Hs; reflexivity | exact Hpost].
  - destruct (N.eqb_spec c ch_rbracket) as [-> | Hc]; [| discriminate].
    inversion H; subst. exists [], s. split; [reflexivity |].
    split; [reflexivity | apply up_to_last_close_none, Hp0].
Qed.

(** What follows the first opening bracket holds what follows any opening
    bracket. *)
Lemma after_first_open_keeps pre rest :
  forall s' x,
    after_first_open (pre ++ ch_lbracket :: rest) = Some s' ->
    x ∈ rest -> x ∈ s'.
Proof.
  induction pre as [| c pre IH]; intros s' x H Hx; simpl in H.
  - inversion H; subst. exact Hx.
  - destruct (N.eqb_spec c ch_lbracket) as [-> | Hc].
    + inversion H; subst. apply elem_of_app. right. right. exact Hx.
    + apply (IH s' x H Hx).
Qed.

End BracketSpan.

(** X18.  Groq variant: what [generate_flashcards] hands to the JSON
    decoder.  When the search finds a match, it is the part of the reply
    from its first opening bracket to its last closing bracket; it finds
    none exactly when no closing bracket follows an opening one. *)
Theorem bracket_span_of_a_reply :
  forall s,
    match Groq.search_brackets s with
    | Some m =>
        exists pre mid post,
          s = pre ++ m ++ post /\
          m = [ch_lbracket] ++ mid ++ [ch_rbracket] /\
          free_of ch_lbracket pre /\ free_of ch_rbracket post
    | None =>
        forall pre mid post,
          s <> pre ++ [ch_lbracket] ++ mid ++ [ch_rbracket] ++ post
    end.
Proof.
  intros s. unfold Groq.search_brackets.
  destruct (Groq.after_first_open s) as [s' |] eqn:Hopen.
  - destruct (Groq.up_to_last_close s') as [p |] eqn:Hclose.
    + destruct (BracketSpan.after_first_open_some s s' Hopen)
        as (pre & Hs & Hpre).
      destruct (BracketSpan.up_to_last_close_some s' p Hclose)
        as (mid & post & Hp & Hs' & Hpost).
      exists pre, mid, post. split; [| split; [| split]].
      * rewrite Hs, Hs'. reflexivity.
      * rewrite Hp. reflexivity.
      * exact Hpre.
      * exact Hpost.
    + intros pre mid post Hs. subst s.
      pose proof (BracketSpan.up_to_last_close_none s' Hclose) as Hfree.
      assert (Hin : ch_rbracket ∈ s').
      { apply (BracketSpan.after_first_open_keeps pre
                 (mid ++ [ch_rbracket] ++ post) s' ch_rbracket Hopen).
        apply elem_of_app. right. left. }
      unfold free_of in Hfree. rewrite Forall_forall in Hfree.
      apply (Hfree _ Hin). reflexivity.
  - intros pre mid post Hs. subst s.
    pose proof (BracketSpan.after_first_open_none _ Hopen) as Hfree.
    unfold free_of in Hfree. rewrite Forall_forall in Hfree.
    apply (Hfree ch_lbracket); [| reflexivity].
    apply elem_of_app. right. left.
Qed.

(** ** The code fence around a reply *)

Module Fence.

Lemma startswith_app p rest : startswith p (p ++ rest) = true.
Proof.
  induction p as [| a p IH]; [reflexivity |].
  simpl. rewrite N.eqb_refl. exact IH.
Qed.

(** A pattern that has none of its characters equal to [c] does not start
    at the end of [body] when [c] follows. *)
Lemma startswith_miss_app c p :
  Forall (fun x => x <> c) p ->
  forall body rest,
    startswith p body = false -> startswith p (body ++ c :: rest) = false.
Proof.
  induction 1 as [| a p Ha _ IH]; intros body rest H; [discriminate |].
  destruct body as [| b body]; simpl in *.
  - destruct (N.eqb_spec a c); [contradiction | reflexivity].
  - destruct (a =? b); [| reflexivity]. simpl in *. apply IH, H.
Qed.

Lemma replace_from_skip old new p rest :
  replace_from old new (length p) (p ++ rest) = replace_from old new 0 rest.
Proof.
  induction p as [| a p IH]; [reflexivity | exact IH].
Qed.

(** An occurrence at the head is replaced. *)
Lemma replace_hit c old' new rest :
  replace (c :: old') new ((c :: old') ++ rest)
  = new ++ replace (c :: old') new rest.
Proof.
  unfold replace. pose proof (startswith_app (c :: old') rest) as H.
  simpl in H |- *. rewrite H, Nat.sub_0_r. f_equal.
  apply replace_from_skip.
Qed.

Lemma replace_from_cons_miss old new c s :
  startswith old (c :: s) = false ->
  replace_from old new 0 (c :: s) = c :: replace_from old new 0 s.
Proof. intros H. simpl. rewrite H. reflexivity. Qed.

(** A stretch without the first character of the pattern is kept. *)
Lemma replace_from_miss h old' new s :
  free_of h s ->
  forall tail,
    replace_from (h :: old') new 0 (s ++ tail)
    = s ++ replace_from (h :: old') new 0 tail.
Proof.
  induction 1 as [| c s Hc _ IH]; intros tail; [reflexivity |].
  simpl. destruct (N.eqb_spec h c); [congruence |]. simpl.
  rewrite IH. reflexivity.
Qed.

Lemma replace_free h old' new s :
  free_of h s -> replace (h :: old') new s = s.
Proof.
  intros H. unfold replace.
  rewrite <- (app_nil_r s) at 1.
  rewrite (replace_from_miss h old' new s H []). apply app_nil_r.
Qed.

Lemma lstrip_blank_app ws rest :
  Forall (fun c => isspace c = true) ws -> lstrip (ws ++ rest) = lstrip rest.
Proof.
  induction 1 as [| c ws Hc _ IH]; [reflexivity |].
  simpl. rewrite Hc. exact IH.
Qed.

(** Stripping removes the white space around a text that begins and ends
    with something else. *)
Lemma strip_around ws1 ws2 a mid b :
  Forall (fun c => isspace c = true) ws1 ->
  Forall (fun c => isspace c = true) ws2 ->
  isspace a = false -> isspace b = false ->
  strip (ws1 ++ (a :: mid ++ [b]) ++ ws2) = a :: mid ++ [b].
Proof.
  intros H1 H2 Ha Hb. unfold strip.
  rewrite (lstrip_blank_app ws1 _ H1).
  assert (Hl : lstrip ((a :: mid ++ [b]) ++ ws2) = (a :: mid ++ [b]) ++ ws2)
    by (simpl; rewrite Ha; reflexivity).
  rewrite Hl. unfold rstrip.
  change (a :: mid ++ [b]) with ((a :: mid) ++ [b]).
  rewrite rev_app_distr, (rev_app_distr (a :: mid) [b]).
  change (rev [b] ++ rev (a :: mid)) with (b :: rev (a :: mid)).
  rewrite (lstrip_blank_app (rev ws2)) by (apply Forall_rev, H2).
  cbn [lstrip]. rewrite Hb.
  change (b :: rev (a :: mid)) with ([b] ++ rev (a :: mid)).
  rewrite rev_app_distr, rev_involutive. reflexivity.
Qed.

Lemma free_of_lstrip c s : free_of c s -> free_of c (lstrip s).
Proof.
  induction 1 as [| a s Ha Hs IH]; [constructor |].
  simpl. destruct (isspace a); [exact IH |]. constructor; assumption.
Qed.

Lemma free_of_strip c s : free_of c s -> free_of c (strip s).
Proof.
  intros H. unfold strip, rstrip.
  apply Forall_rev, free_of_lstrip, Forall_rev, free_of_lstrip, H.
Qed.

End Fence.

(** X19.  Gemini variant: what [generate_flashcards] hands to the JSON
    decoder.  A reply without any backquote is only stripped.  A reply made
    of a body without backquotes inside a [```json] fence, with white space
    around it, is cut down to the body; so is one inside a plain [```]
    fence, unless the body starts with [json]. *)
Theorem fenced_reply_is_unwrapped :
  (forall text,
     free_of 96 text -> Gemini.cleaned_response text = strip text) /\
  (forall ws1 body ws2,
     Forall (fun c => isspace c = true) ws1 ->
     Forall (fun c => isspace c = true) ws2 ->
     free_of 96 body ->
     Gemini.cleaned_response (ws1 ++ (u "```json" ++ body ++ u "```") ++ ws2)
     = body) /\
  (forall ws1 body ws2,
     Forall (fun c => isspace c = true) ws1 ->
     Forall (fun c => isspace c = true) ws2 ->
     free_of 96 body ->
     startswith (u "json") body = false ->
     Gemini.cleaned_response (ws1 ++ (u "```" ++ body ++ u "```") ++ ws2)
     = body).
Proof.
  split; [| split].
  - intros text Hfree. unfold Gemini.cleaned_response.
    pose proof (Fence.free_of_strip 96 text Hfree) as Hs.
    change (u "```json") with (96 :: u "``json").
    change (u "```") with (96 :: u "``").
    rewrite (Fence.replace_free _ _ _ (strip text) Hs).
    apply Fence.replace_free, Hs.
  - intros ws1 body ws2 H1 H2 Hfree. unfold Gemini.cleaned_response.
    assert (Hstrip :
      strip (ws1 ++ (u "```json" ++ body ++ u "```") ++ ws2)
      = u "```json" ++ body ++ u "```").
    { replace (u "```json" ++ body ++ u "```")
        with (96 :: (u "``json" ++ body ++ u "``") ++ [96]).
      - apply Fence.strip_around; [exact H1 | exact H2 | |]; reflexivity.
      - change (u "```json") with (96 :: u "``json").
        change (u "```") with (u "``" ++ [96]).
        cbn [app]. rewrite <- !app_assoc. reflexivity. }
    rewrite Hstrip.
    change (u "```json") with (96 :: u "``json").
    rewrite Fence.replace_hit. cbn [app]. unfold replace at 2.
    rewrite Fence.replace_from_miss by exact Hfree.
    change (replace_from (96 :: u "``json") [] 0 (u "```")) with (u "```").
    change (u "```") with (96 :: u "``").
    unfold replace.
    rewrite Fence.replace_from_miss by exact Hfree.
    change (replace_from (96 :: u "``") [] 0 (96 :: u "``")) with (@nil N).
    apply app_nil_r.
  - intros ws1 body ws2 H1 H2 Hfree Hjson. unfold Gemini.cleaned_response.
    assert (Hstrip :
      strip (ws1 ++ (u "```" ++ body ++ u "```") ++ ws2)
      = u "```" ++ body ++ u "```").
    { replace (u "```" ++ body ++ u "```")
        with (96 :: (u "``" ++ body ++ u "``") ++ [96]).
      - apply Fence.strip_around; [exact H1 | exact H2 | |]; reflexivity.
      - change (u "```") with (96 :: u "``") at 2.
        change (u "```") with (u "``" ++ [96]).
        cbn [app]. rewrite <- !app_assoc. reflexivity. }
    rewrite Hstrip.
    assert (Hinner :
      replace (u "```json") [] (u "```" ++ body ++ u "```")
      = u "```" ++ body ++ u "```").
    { unfold replace.
      change (u "```" ++ body ++ u "```")
        with (96 :: 96 :: 96 :: body ++ u "```").
      assert (Htail :
        startswith (u "json") (body ++ 96 :: u "``") = false).
      { apply Fence.startswith_miss_app; [| exact Hjson].
        repeat constructor; discriminate. }
      assert (Hnext :
        forall p, startswith (96 :: p) (body ++ 96 :: u "``") = false
                  \/ body = []).
      { intros p. destruct body as [| b body']; [right; reflexivity |].
        left. inversion Hfree as [| ? ? Hb _]; subst.
        change (startswith (96 :: p) ((b :: body') ++ 96 :: u "``"))
          with ((96 =? b) && startswith p (body' ++ 96 :: u "``")).
        destruct (N.eqb_spec 96 b); [congruence | reflexivity]. }
      change (u "```") with (96 :: u "``") in *.
      rewrite Fence.replace_from_cons_miss.
      2:{ change (u "```json") with (96 :: 96 :: 96 :: u "json").
          simpl. exact Htail. }
      rewrite Fence.replace_from_cons_miss.
      2:{ change (u "```json") with (96 :: 96 :: 96 :: u "json").
          destruct (Hnext (u "json")) as [H | ->]; [| reflexivity].
          simpl. simpl in H. exact H. }
      rewrite Fence.replace_from_cons_miss.
      2:{ change (u "```json") with (96 :: 96 :: 96 :: u "json").
          destruct (Hnext (96 :: u "json")) as [H | ->]; [| reflexivity].
          simpl. simpl in H. exact H. }
      change (u "```json") with (96 :: u "``json").
      rewrite Fence.replace_from_miss by exact Hfree.
      reflexivity. }
    rewrite Hinner.
    change (u "```") with (96 :: u "``").
    change ((96 :: u "``") ++ body ++ 96 :: u "``")
      with ((96 :: u "``") ++ (body ++ 96 :: u "``")).
    rewrite Fence.replace_hit. cbn [app]. unfold replace.
    rewrite Fence.replace_from_miss by exact Hfree.
    change (replace_from (96 :: u "``") [] 0 (96 :: u "``")) with (@nil N).
    apply app_nil_r.
Qed.

(** A fenced array of one card, with a newline before and after. *)
Lemma fenced_reply_is_unwrapped_witness :
  Gemini.cleaned_response
    ([ch_newline] ++ (u "```json" ++ Demo.one_card ++ u "```")
     ++ [ch_newline])
  = Demo.one_card.
Proof.
  destruct fenced_reply_is_unwrapped as (_ & Hjson & _).
  apply Hjson.
  - repeat constructor.
  - repeat constructor.
  - vm_compute. repeat constructor; discriminate.
Defined.

(** ** What an upload may change *)

Module Keeps.
Import Exn Monad.

Section Rules.
Context {W : Type} (R : W -> W -> Prop).
Context `{!Reflexive R, !Transitive R}.

Lemma keeps_ret {A} (a : A) : keeps R (ret a).
Proof. intros w. reflexivity. Qed.

Lemma keeps_raise {A} (e : exn) : keeps R (@raise W A e).
Proof. intros w. reflexivity. Qed.

Lemma keeps_lift {A} (r : Result A) : keeps R (lift r).
Proof. intros w. reflexivity. Qed.

Lemma keeps_gets {A} (f : W -> A) : keeps R (gets f).
Proof. intros w. reflexivity. Qed.

Lemma keeps_modify (f : W -> W) : (forall w, R w (f w)) -> keeps R (modify f).
Proof. intros H w. apply H. Qed.

Lemma keeps_bind {A B} (m : M W A) (k : A -> M W B) :
  keeps R m -> (forall a, keeps R (k a)) -> keeps R (bind m k).
Proof.
  intros Hm Hk w. unfold bind. specialize (Hm w).
  destruct (m w) as [[a | e] w']; simpl in *.
  - transitivity w'; [exact Hm | apply Hk].
  - exact Hm.
Qed.

Lemma keeps_try_except {A} (m : M W A) (h : exn -> M W A) :
  keeps R m -> (forall e, keeps R (h e)) -> keeps R (try_except m h).
Proof.
  intros Hm Hh w. unfold try_except. specialize (Hm w).
  destruct (m w) as [[a | e] w']; simpl in *.
  - exact Hm.
  - transitivity w'; [exact Hm | apply Hh].
Qed.

End Rules.
End Keeps.

Ltac keeps_step :=
  first
    [ apply Keeps.keeps_ret; apply _ | apply Keeps.keeps_raise; apply _
    | apply Keeps.keeps_lift; apply _ | apply Keeps.keeps_gets; apply _
    | apply Keeps.keeps_bind; [ apply _ | | intros ]
    | apply Keeps.keeps_try_except; [ apply _ | | intros ]
    | match goal with
      | |- Monad.keeps _ (if ?b then _ else _) => destruct b
      | |- Monad.keeps _ (match ?x with _ => _ end) => destruct x
      end ].

Module GeminiConfined.
Import Monad Gemini.

#[export] Instance elsewhere_refl id path : Reflexive (elsewhere id path).
Proof. intros w. split; [| split]; intros; reflexivity. Qed.

#[export] Instance elsewhere_trans id path : Transitive (elsewhere id path).
Proof.
  intros w1 w2 w3 (Hd & He & Hb) (Hd' & He' & Hb').
  split; [| split]; intros x Hx.
  - rewrite Hd', Hd by exact Hx. reflexivity.
  - rewrite He', He by exact Hx. reflexivity.
  - rewrite Hb', Hb by exact Hx. reflexivity.
Qed.

Section Writes.
Variable env : Env.
Variables id path : str.

Lemma log_keeps ev : keeps (elsewhere id path) (modify (log ev)).
Proof.
  apply Keeps.keeps_modify. intros w. split; [| split]; intros; reflexivity.
Qed.

Lemma request_keeps ev : keeps (elsewhere id path) (request env ev).
Proof.
  unfold request, handle, now. repeat (apply log_keeps || keeps_step).
Qed.

Lemma blob_upload_keeps data :
  keeps (elsewhere id path) (blob_upload env path data).
Proof.
  unfold blob_upload. apply Keeps.keeps_bind; [apply _ | apply request_keeps |].
  intros _. apply Keeps.keeps_modify. intros w.
  split; [| split]; intros x Hx; try reflexivity.
  simpl. apply lookup_insert_ne. congruence.
Qed.

Lemma doc_set_keeps d : keeps (elsewhere id path) (doc_set env id d).
Proof.
  unfold doc_set. apply Keeps.keeps_bind; [apply _ | apply request_keeps |].
  intros _. apply Keeps.keeps_modify. intros w.
  split; [| split]; intros x Hx; try reflexivity.
  simpl. apply lookup_insert_ne. congruence.
Qed.

Lemma doc_update_status_keeps st :
  keeps (elsewhere id path) (doc_update_status env id st).
Proof.
  unfold doc_update_status, handle, now.
  repeat (apply log_keeps || keeps_step).
  apply Keeps.keeps_modify. intros w.
  split; [| split]; intros x Hx; try reflexivity.
  simpl. apply lookup_insert_ne. congruence.
Qed.

Lemma batch_commit_keeps batch :
  keeps (elsewhere id path) (batch_commit env id batch).
Proof.
  unfold batch_commit.
  apply Keeps.keeps_bind; [apply _ | apply request_keeps |].
  intros _. apply Keeps.keeps_modify. intros w.
  split; [| split]; intros x Hx; try reflexivity.
  simpl. apply lookup_insert_ne. congruence.
Qed.

Lemma embed_keeps text : keeps (elsewhere id path) (embed env text).
Proof. unfold embed, now. repeat (apply log_keeps || keeps_step). Qed.

Lemma embed_chunks_keeps chunks :
  forall i batch, keeps (elsewhere id path) (embed_chunks env chunks i batch).
Proof.
  induction chunks as [| chunk rest IH]; intros i batch; simpl.
  - apply Keeps.keeps_ret. apply _.
  - apply Keeps.keeps_bind; [apply _ | apply embed_keeps |].
    intros v. apply IH.
Qed.

(** A computation that leaves the stores as they were changes nothing
    anywhere. *)
Lemma reads_keep {A} (m : M World A) :
  Monad.frames stores m -> keeps (elsewhere id path) m.
Proof.
  intros H w. specialize (H w). unfold stores in H.
  inversion H as [[Hb Hd He]].
  split; [| split]; intros x _; [rewrite Hd | rewrite He | rewrite Hb];
    reflexivity.
Qed.

Lemma create_and_store_embeddings_keeps text_content :
  keeps (elsewhere id path) (create_and_store_embeddings env id text_content).
Proof.
  unfold create_and_store_embeddings, handle.
  repeat (apply embed_chunks_keeps || apply batch_commit_keeps
          || apply doc_update_status_keeps || keeps_step).
Qed.

Lemma embedding_process_keeps :
  keeps (elsewhere id path) (embedding_process env id).
Proof.
  unfold embedding_process.
  apply Keeps.keeps_bind; [apply _ | |].
  - apply reads_keep, GeminiFrame.extract_text_from_pdf_frames.
  - intros text.
    repeat (apply create_and_store_embeddings_keeps || keeps_step).
Qed.

End Writes.

(** The storing phase writes under the new identifier only. *)
Lemma store_upload_confined env f w :
  let id := uuid4 env (length (trace w)) in
  let path :=
    u "uploads/" ++ temp_user_id ++ u "/" ++ id ++ u "/" ++ filename f in
  elsewhere id path w (snd (store_upload env f w)).
Proof.
  intros id path.
  assert (H : keeps (elsewhere id path)
    (let* _ := blob_upload env path (content f) in
     let* t' := now in
     let* _ :=
       doc_set env id
         {| user_id := temp_user_id; file_name := filename f;
            storage_path := path; created_at := utcnow env t';
            status := status_uploaded |} in
     ret id)%monad).
  { unfold now.
    repeat (apply blob_upload_keeps || apply doc_set_keeps || keeps_step). }
  exact (H w).
Qed.

Lemma upload_pdf_confined env req f w :
  files req !! u "pdf_file" = Some f ->
  let id := uuid4 env (length (trace w)) in
  let path :=
    u "uploads/" ++ temp_user_id ++ u "/" ++ id ++ u "/" ++ filename f in
  elsewhere id path w (snd (upload_pdf env req w)).
Proof.
  intros Hf id path. unfold upload_pdf. rewrite Hf.
  destruct (Json.str_eqb (filename f) []); [reflexivity |].
  destruct (truthy (filename f) && endswith (filename f) (u ".pdf"));
    [| reflexivity].
  unfold try_except. unfold bind at 1.
  pose proof (store_upload_confined env f w) as Hstore.
  cbn zeta in Hstore. fold id in Hstore. fold path in Hstore.
  destruct (store_upload env f w) as [[doc_id | e] w1] eqn:Hrun;
    [| exact Hstore].
  destruct (GeminiStore.store_upload_inv env f w doc_id w1 Hrun)
    as (_ & Hid & _).
  fold id in Hid. subst doc_id. cbn [snd] in Hstore.
  pose proof (embedding_process_keeps env id path w1) as Hproc.
  unfold bind. destruct (embedding_process env id w1) as [[[] | e] w2];
    cbn [snd] in *; transitivity w1; assumption.
Qed.

End GeminiConfined.

Module GroqConfined.
Import Monad Groq.

#[export] Instance grows_refl id path : Reflexive (grows id path).
Proof.
  intros w. split; [| split].
  - exists []. split; [symmetry; apply app_nil_r | constructor].
  - exists []. split; [symmetry; apply app_nil_r | constructor].
  - reflexivity.
Qed.

#[export] Instance grows_trans id path : Transitive (grows id path).
Proof.
  intros w1 w2 w3 ((d & Hd & Hdid) & (r & Hr & Hrid) & Hf)
    ((d' & Hd' & Hdid') & (r' & Hr' & Hrid') & Hf').
  split; [| split].
  - exists (d ++ d'). split; [rewrite Hd', Hd, app_assoc; reflexivity |].
    apply Forall_app. split; assumption.
  - exists (r ++ r'). split; [rewrite Hr', Hr, app_assoc; reflexivity |].
    apply Forall_app. split; assumption.
  - intros p Hp. rewrite Hf', Hf by exact Hp. reflexivity.
Qed.

Section Writes.
Variable env : Env.
Variables id path : str.

Lemma groq_reads_keep {A} (m : M World A) :
  Monad.frames stores m -> keeps (grows id path) m.
Proof.
  intros H w. specialize (H w). unfold stores in H.
  inversion H as [[Hf Hd He]].
  split; [| split].
  - exists []. split; [rewrite app_nil_r; exact Hd | constructor].
  - exists []. split; [rewrite app_nil_r; exact He | constructor].
  - intros p _. rewrite Hf. reflexivity.
Qed.

Lemma save_keeps data : keeps (grows id path) (save env path data).
Proof.
  unfold save. apply Keeps.keeps_bind; [apply _ | |].
  - apply groq_reads_keep, GroqFrame.call_frames.
  - intros _. apply Keeps.keeps_modify. intros w. split; [| split].
    + exists []. split; [symmetry; apply app_nil_r | constructor].
    + exists []. split; [symmetry; apply app_nil_r | constructor].
    + intros p Hp. simpl. apply lookup_insert_ne. congruence.
Qed.

Lemma insert_document_keeps row :
  Groq.id row = id -> keeps (grows id path) (insert_document env row).
Proof.
  intros Hrow. unfold insert_document.
  apply Keeps.keeps_bind; [apply _ | |].
  - apply groq_reads_keep, GroqFrame.call_frames.
  - intros _. apply Keeps.keeps_modify. intros w. split; [| split].
    + exists [row]. split; [reflexivity | repeat constructor; exact Hrow].
    + exists []. split; [symmetry; apply app_nil_r | constructor].
    + reflexivity.
Qed.

Lemma insert_embedding_keeps row :
  document_id row = id -> keeps (grows id path) (insert_embedding env row).
Proof.
  intros Hrow. unfold insert_embedding.
  apply Keeps.keeps_bind; [apply _ | |].
  - apply groq_reads_keep, GroqFrame.call_frames.
  - intros _. apply Keeps.keeps_modify. intros w. split; [| split].
    + exists []. split; [symmetry; apply app_nil_r | constructor].
    + exists [row]. split; [reflexivity | repeat constructor; exact Hrow].
    + reflexivity.
Qed.

Lemma store_chunks_keeps chunks :
  keeps (grows id path) (store_chunks env id chunks).
Proof.
  induction chunks as [| chunk rest IH]; simpl.
  - apply Keeps.keeps_ret. apply _.
  - apply Keeps.keeps_bind; [apply _ | |].
    + apply groq_reads_keep, GroqFrame.embed_text_frames.
    + intros v. apply Keeps.keeps_bind; [apply _ | |].
      * apply insert_embedding_keeps. reflexivity.
      * intros _. exact IH.
Qed.

Lemma extract_text_from_pdf_keeps file :
  keeps (grows id path) (extract_text_from_pdf env file).
Proof.
  unfold extract_text_from_pdf, read_file.
  repeat (apply groq_reads_keep, GroqFrame.call_frames || keeps_step).
Qed.

Lemma ingest_keeps file : keeps (grows id path) (ingest env id file).
Proof.
  unfold ingest. apply Keeps.keeps_bind; [apply _ | |].
  - apply extract_text_from_pdf_keeps.
  - intros text. apply store_chunks_keeps.
Qed.

End Writes.

Lemma groq_store_upload_confined env f w :
  let id := uuid4 env (length (trace w)) in
  let path := path_join UPLOAD_FOLDER (id ++ u "_" ++ filename f) in
  grows id path w (snd (store_upload env f w)).
Proof.
  intros id path.
  assert (H : keeps (grows id path)
    (let* _ := save env path (Web.content f) in
     let* _ :=
       insert_document env
         {| Groq.id := id; user_id := u "temp_user";
            file_name := id ++ u "_" ++ filename f |} in
     ret (id, path))%monad).
  { repeat (apply save_keeps || (apply insert_document_keeps; reflexivity)
            || keeps_step). }
  exact (H w).
Qed.

Lemma groq_upload_pdf_confined env req f w :
  files req !! u "pdf_file" = Some f ->
  let id := uuid4 env (length (trace w)) in
  let path := path_join UPLOAD_FOLDER (id ++ u "_" ++ filename f) in
  grows id path w (snd (upload_pdf env req w)).
Proof.
  intros Hf id path. unfold upload_pdf, try_except. rewrite Hf.
  destruct (truthy (filename f)); cbn [negb]; cbv iota; [| reflexivity].
  unfold bind at 1.
  pose proof (groq_store_upload_confined env f w) as Hstore.
  cbn zeta in Hstore. fold id in Hstore. fold path in Hstore.
  pose proof (GroqStore.store_upload_run env f w) as Hrun.
  cbn zeta in Hrun. fold id in Hrun. fold path in Hrun.
  destruct (store_upload env f w) as [[[doc_id file] | e] w1];
    [| exact Hstore].
  assert (Hids : doc_id = id /\ file = path).
  { destruct (fs_fault env _); [discriminate |].
    destruct (db_fault env _); [discriminate |].
    inversion Hrun. auto. }
  destruct Hids as [-> ->]. cbn [snd] in Hstore.
  pose proof (ingest_keeps env id path path w1) as Hingest.
  unfold bind. destruct (ingest env id path w1) as [[[] | e] w2];
    cbn [snd] in *; transitivity w1; assumption.
Qed.

End GroqConfined.

(** X20.  An upload touches nothing but what belongs to the document it
    creates, whatever the services do and whether it succeeds or fails.
    Gemini variant: the records and the embedding records of every other
    document are as before, and so is every object of Storage but the one
    stored under the path of the new document.  Groq variant: the two
    tables keep their rows, in their order; the rows added after them carry
    the new identifier; every file of the upload folder but the one saved
    for the new document is as before. *)
Theorem upload_is_confined_to_its_document :
  (forall env req f w,
     files req !! u "pdf_file" = Some f ->
     let id := Gemini.uuid4 env (length (Gemini.trace w)) in
     let w' := snd (Gemini.upload_pdf env req w) in
     (forall other,
        other <> id ->
        Gemini.documents w' !! other = Gemini.documents w !! other /\
        Gemini.embeddings w' !! other = Gemini.embeddings w !! other) /\
     (forall p,
        p <> u "uploads/" ++ Gemini.temp_user_id ++ u "/" ++ id ++ u "/"
             ++ filename f ->
        Gemini.bucket w' !! p = Gemini.bucket w !! p)) /\
  (forall env req f w,
     files req !! u "pdf_file" = Some f ->
     let id := Groq.uuid4 env (length (Groq.trace w)) in
     let w' := snd (Groq.upload_pdf env req w) in
     (exists new,
        Groq.documents w' = Groq.documents w ++ new /\
        Forall (fun d => Groq.id d = id) new) /\
     (exists new,
        Groq.embeddings w' = Groq.embeddings w ++ new /\
        Forall (fun r => Groq.document_id r = id) new) /\
     (forall p,
        p <> Groq.path_join Groq.UPLOAD_FOLDER (id ++ u "_" ++ filename f) ->
        Groq.folder w' !! p = Groq.folder w !! p)).
Proof.
  split.
  - intros env req f w Hf id w'.
    destruct (GeminiConfined.upload_pdf_confined env req f w Hf)
      as (Hd & He & Hb).
    split; [| exact Hb].
    intros other Hother. split; [apply Hd | apply He]; exact Hother.
  - intros env req f w Hf id w'.
    exact (GroqConfined.groq_upload_pdf_confined env req f w Hf).
Qed.

(** On the demo environment: a second upload, after that of the sample
    file, leaves the first document as it was. *)
Lemma upload_is_confined_to_its_document_witness :
  let f := {| filename := u "notes.pdf"; content := u "%PDFNotes." |} in
  let req := Demo.upload "notes.pdf" (u "%PDFNotes.") in
  Gemini.documents
    (snd (Gemini.upload_pdf (Demo.gemini (u "ok")) req Demo.gemini_loaded))
    !! u "doc-0"
  = Gemini.documents Demo.gemini_loaded !! u "doc-0" /\
  exists new,
    Groq.embeddings
      (snd (Groq.upload_pdf (Demo.groq (u "ok")) req Demo.groq_loaded))
    = Groq.embeddings Demo.groq_loaded ++ new.
Proof.
  intros f req.
  destruct upload_is_confined_to_its_document as [Hgemini Hgroq]. split.
  - destruct (Hgemini (Demo.gemini (u "ok")) req f Demo.gemini_loaded eq_refl)
      as [Hother _].
    apply (Hother (u "doc-0")). vm_compute. discriminate.
  - destruct (Hgroq (Demo.groq (u "ok")) req f Demo.groq_loaded eq_refl)
      as (_ & (new & Hnew & _) & _).
    exists new. exact Hnew.
Defined.
